(** * Expiry-date extraction (app.py): a shallow embedding and its properties

    The development follows the Python module function by function:
    [normalize_expiry_date], [extract_expiry_dates] (with its nested
    [date_key]) and [create_google_calendar_link]; then
    [extract_text_from_image], [extract_text_from_pdf] and [main], which
    call the OCR engine, the PDF libraries and Streamlit.  The parts of the
    Python runtime the functions lean on ([str.split], [str.splitlines],
    [str.zfill], [str.strip], [int], [str], [re], [datetime],
    [urllib.parse.quote]) are modelled first, as executable functions; the
    OCR engine and the PDF libraries are taken as functions given, and the
    page Streamlit shows as the list of the elements written on it.

    Text is a [string]: a sequence of code points below 256.  In that range
    [\d] is [0-9], and [re.IGNORECASE] is the ASCII case fold.

    Reading the clock ([datetime.now()]) is modelled by an explicit argument
    [now], the year the clock shows during the call.  Iterating over a Python
    [set] is modelled by a function [set_order] that returns the elements of
    the set in some order; nothing is assumed of it but that. *)

From Stdlib Require Import Bool Arith ZArith Lia List Ascii String Permutation Sorted.
From Stdlib Require Import DecimalString.
Import ListNotations.

Open Scope string_scope.
Open Scope list_scope.
Open Scope nat_scope.

(* ================================================================== *)
(** ** Exceptions *)

Inductive exn : Type :=
| ValueError
| OverflowError
| IndexError.

(** The outcome of a call: a value, or an exception that leaves the call. *)
Inductive outcome (A : Type) : Type :=
| Ret (a : A)
| Raise (e : exn).

Arguments Ret {A} a.
Arguments Raise {A} e.

Definition bind {A B : Type} (m : outcome A) (k : A -> outcome B) : outcome B :=
  match m with
  | Ret a => k a
  | Raise e => Raise e
  end.

Notation "x <- m ;; k" := (bind m (fun x => k))
  (at level 61, m at next level, right associativity).

(** [try: ... except Exception: return None] around a computation. *)
Definition try_except {A : Type} (m : outcome A) : option A :=
  match m with
  | Ret a => Some a
  | Raise _ => None
  end.

Fixpoint mapM {A B : Type} (f : A -> outcome B) (l : list A) : outcome (list B) :=
  match l with
  | [] => Ret []
  | x :: l' => y <- f x ;; ys <- mapM f l' ;; Ret (y :: ys)
  end.

(* ================================================================== *)
(** ** Characters and strings *)

Module Chars.

Definition code (c : ascii) : nat := nat_of_ascii c.

Definition is_digit (c : ascii) : bool :=
  (48 <=? code c) && (code c <=? 57).

Definition in_range (lo hi c : ascii) : bool :=
  (code lo <=? code c) && (code c <=? code hi).

Definition digit_val (c : ascii) : Z := Z.of_nat (code c) - 48.

(** [str.isspace] below 256: HT LF VT FF CR, FS GS RS US, space, NEL, NBSP. *)
Definition is_space (c : ascii) : bool :=
  let n := code c in
  ((9 <=? n) && (n <=? 13)) || ((28 <=? n) && (n <=? 32))
  || (n =? 133) || (n =? 160).

(** The white space [int] takes off a literal: HT LF VT FF CR, space, NEL,
    NBSP; not the separators FS GS RS US. *)
Definition is_int_space (c : ascii) : bool :=
  let n := code c in
  ((9 <=? n) && (n <=? 13)) || (n =? 32) || (n =? 133) || (n =? 160).

(** ASCII case fold. *)
Definition lower (c : ascii) : ascii :=
  let n := code c in
  if (65 <=? n) && (n <=? 90) then ascii_of_nat (n + 32) else c.

Definition slash : ascii := "/"%char.

End Chars.

Module Str.

Fixpoint all (p : ascii -> bool) (s : string) : bool :=
  match s with
  | EmptyString => true
  | String c s' => p c && all p s'
  end.

Fixpoint rev_onto (s acc : string) : string :=
  match s with
  | EmptyString => acc
  | String c s' => rev_onto s' (String c acc)
  end.

Definition rev (s : string) : string := rev_onto s EmptyString.

Fixpoint repeat (c : ascii) (n : nat) : string :=
  match n with
  | O => EmptyString
  | S n' => String c (repeat c n')
  end.

(** [s[:n]] *)
Fixpoint take (n : nat) (s : string) : string :=
  match n, s with
  | S n', String c s' => String c (take n' s')
  | _, _ => EmptyString
  end.

Definition no_slash (s : string) : bool :=
  all (fun c => negb (Ascii.eqb c Chars.slash)) s.

(** [sep.join(parts)] *)
Fixpoint join (sep : string) (parts : list string) : string :=
  match parts with
  | [] => EmptyString
  | [p] => p
  | p :: rest => (p ++ sep ++ join sep rest)%string
  end.

End Str.

(* ================================================================== *)
(** ** Python built-ins used by the module *)

Module Py.

(** [s.split(sep)] for a one-character separator: every occurrence of the
    separator cuts; the result is never empty. *)
Fixpoint split (sep : ascii) (s : string) : list string :=
  match s with
  | EmptyString => [EmptyString]
  | String c s' =>
      if Ascii.eqb c sep then EmptyString :: split sep s'
      else match split sep s' with
           | p :: ps => String c p :: ps
           | [] => [String c EmptyString]
           end
  end.

(** Line boundaries of [str.splitlines] below 256 (CR LF counts once). *)
Definition is_linebreak (c : ascii) : bool :=
  let n := Chars.code c in
  ((10 <=? n) && (n <=? 13)) || ((28 <=? n) && (n <=? 30)) || (n =? 133).

(** [cur] is the line being read, reversed. *)
Fixpoint splitlines_from (s cur : string) : list string :=
  match s with
  | EmptyString =>
      match cur with
      | EmptyString => []
      | _ => [Str.rev cur]
      end
  | String c s' =>
      if is_linebreak c then
        match c, s' with
        | "013"%char, String "010"%char s'' =>
            Str.rev cur :: splitlines_from s'' EmptyString
        | _, _ => Str.rev cur :: splitlines_from s' EmptyString
        end
      else splitlines_from s' (String c cur)
  end.

Definition splitlines (s : string) : list string :=
  splitlines_from s EmptyString.

(** [s.zfill(width)]: zeros on the left, after a leading sign. *)
Definition zfill (width : nat) (s : string) : string :=
  let n := String.length s in
  if width <=? n then s
  else
    let zeros := Str.repeat "0"%char (width - n) in
    match s with
    | String "+"%char s' => String "+"%char (zeros ++ s')%string
    | String "-"%char s' => String "-"%char (zeros ++ s')%string
    | _ => (zeros ++ s)%string
    end.

(** [str(n)] for an integer. *)
Definition str (n : Z) : string := NilZero.string_of_int (Z.to_int n).

Fixpoint lstrip (s : string) : string :=
  match s with
  | String c s' => if Chars.is_space c then lstrip s' else s
  | EmptyString => EmptyString
  end.

Definition strip (s : string) : string :=
  Str.rev (lstrip (Str.rev (lstrip s))).

(** Stripping the characters of a class from both ends. *)
Fixpoint lstrip_with (p : ascii -> bool) (s : string) : string :=
  match s with
  | String c s' => if p c then lstrip_with p s' else s
  | EmptyString => EmptyString
  end.

Definition strip_with (p : ascii -> bool) (s : string) : string :=
  Str.rev (lstrip_with p (Str.rev (lstrip_with p s))).

(** The most digits [int] converts ([sys.int_max_str_digits], by default). *)
Definition MAX_STR_DIGITS : nat := 4300.

Fixpoint count_digits (s : string) : nat :=
  match s with
  | EmptyString => 0
  | String c s' => (if Chars.is_digit c then 1 else 0) + count_digits s'
  end.

(** Digits of an [int] literal: underscores only between two digits. *)
Fixpoint int_digits (s : string) (acc : Z) (after_digit : bool) : option Z :=
  match s with
  | EmptyString => if after_digit then Some acc else None
  | String c s' =>
      if Chars.is_digit c then int_digits s' (10 * acc + Chars.digit_val c) true
      else if Ascii.eqb c "_"%char then
             if after_digit then int_digits s' acc false else None
      else None
  end.

(** [int(s)]: surrounding white space, an optional sign, decimal digits, no
    more of them than [MAX_STR_DIGITS]. *)
Definition int (s : string) : outcome Z :=
  let body := strip_with Chars.is_int_space s in
  let '(sign, digits) :=
    match body with
    | String "+"%char d => (1%Z, d)
    | String "-"%char d => ((-1)%Z, d)
    | _ => (1%Z, body)
    end in
  match int_digits digits 0 false with
  | Some n =>
      if count_digits digits <=? MAX_STR_DIGITS then Ret (sign * n)%Z
      else Raise ValueError
  | None => Raise ValueError
  end.

(** Truth value of a string: empty is false. *)
Definition truthy (s : string) : bool :=
  match s with
  | EmptyString => false
  | _ => true
  end.

(** [set.add] on a set kept as a duplicate-free list. *)
Definition set_add (x : string) (s : list string) : list string :=
  if existsb (String.eqb x) s then s else s ++ [x].

End Py.

(* ================================================================== *)
(** ** Regular expressions ([re]) *)

(** The constructs the patterns of the module use.  A match is searched the
    way [re] does it, by backtracking: alternatives left to right,
    repetitions greedy. *)
Module Re.

Inductive regex : Type :=
| Eps                                              (* empty pattern *)
| Cls (p : ascii -> bool)                          (* one character: literal, [..], \d, \s *)
| Seq (r1 r2 : regex)                              (* r1 r2 *)
| Alt (r1 r2 : regex)                              (* r1|r2 *)
| Opt (r : regex)                                  (* r? *)
| Star (p : ascii -> bool)                         (* c* for a character class c *)
| Rep (p : ascii -> bool) (lo hi : nat)            (* c{lo,hi} for a character class c *)
| Grp (r : regex).                                 (* (r), capturing *)

(** What [s] lost to become its suffix [rest]. *)
Definition consumed (s rest : string) : string :=
  Str.take (String.length s - String.length rest) s.

(** The inputs left after [c*], longest repetition first. *)
Fixpoint star (p : ascii -> bool) (s : string) : list string :=
  match s with
  | String c s' => if p c then star p s' ++ [s] else [s]
  | EmptyString => [s]
  end.

(** The inputs left after [c{lo,hi}], longest repetition first. *)
Fixpoint rep (p : ascii -> bool) (lo hi : nat) (s : string) : list string :=
  let stop := match lo with O => [s] | S _ => [] end in
  match hi, s with
  | S hi', String c s' => if p c then rep p (pred lo) hi' s' ++ stop else stop
  | _, _ => stop
  end.

(** All the ways [r] matches at the start of [s], in the order backtracking
    finds them: the text of the groups, in the order the groups open, and
    the input left.  (A group under [|] or [?] that takes no part in a
    match gets no entry; the patterns below have no such group.) *)
Fixpoint run (r : regex) (s : string) : list (list string * string) :=
  match r with
  | Eps => [([], s)]
  | Cls p =>
      match s with
      | String c s' => if p c then [([], s')] else []
      | EmptyString => []
      end
  | Seq r1 r2 =>
      flat_map (fun m1 =>
                  map (fun m2 => (fst m1 ++ fst m2, snd m2)) (run r2 (snd m1)))
               (run r1 s)
  | Alt r1 r2 => run r1 s ++ run r2 s
  | Opt r' => run r' s ++ [([], s)]
  | Star p => map (fun rest => ([], rest)) (star p s)
  | Rep p lo hi => map (fun rest => ([], rest)) (rep p lo hi s)
  | Grp r' => map (fun m => (consumed s (snd m) :: fst m, snd m)) (run r' s)
  end.

(** [pattern.match(s)] at the start of [s]: the first way found. *)
Definition match_at (r : regex) (s : string) : option (list string * string) :=
  hd_error (run r s).

(** [re.search(r, s)] as a truth value. *)
Fixpoint search (r : regex) (s : string) : bool :=
  match match_at r s with
  | Some _ => true
  | None =>
      match s with
      | EmptyString => false
      | String _ s' => search r s'
      end
  end.

Record rmatch : Type := { m_start : nat; m_end : nat; m_groups : list string }.

(** The scan of [re.finditer]: [pos] is the position of [s] in the text,
    [skip] the number of characters still covered by the last match.  After
    a match the scan resumes where the match ended.  (A pattern that matches
    the empty string is resumed one character on; no pattern below matches
    the empty string.) *)
Fixpoint finditer_from (r : regex) (s : string) (pos skip : nat) : list rmatch :=
  match skip with
  | S k =>
      match s with
      | EmptyString => []
      | String _ s' => finditer_from r s' (S pos) k
      end
  | O =>
      match match_at r s with
      | Some (g, rest) =>
          let n := String.length s - String.length rest in
          {| m_start := pos; m_end := pos + n; m_groups := g |}
            :: match s with
               | EmptyString => []
               | String _ s' => finditer_from r s' (S pos) (pred n)
               end
      | None =>
          match s with
          | EmptyString => []
          | String _ s' => finditer_from r s' (S pos) 0
          end
      end
  end.

Definition finditer (r : regex) (s : string) : list rmatch :=
  finditer_from r s 0 0.

(** [re.findall(r, s)] for a pattern with groups: the groups of each match. *)
Definition findall (r : regex) (s : string) : list (list string) :=
  map m_groups (finditer r s).

(** *** Building patterns *)

Definition chr (c : ascii) : regex := Cls (Ascii.eqb c).

(** A literal character under [re.IGNORECASE]. *)
Definition chr_i (c : ascii) : regex :=
  Cls (fun x => Ascii.eqb (Chars.lower x) (Chars.lower c)).

Fixpoint lit_i (s : string) : regex :=
  match s with
  | EmptyString => Eps
  | String c EmptyString => chr_i c
  | String c s' => Seq (chr_i c) (lit_i s')
  end.

Definition range (lo hi : ascii) : regex := Cls (Chars.in_range lo hi).

Definition digit : regex := Cls Chars.is_digit.

Fixpoint seqs (rs : list regex) : regex :=
  match rs with
  | [] => Eps
  | [r] => r
  | r :: rs' => Seq r (seqs rs')
  end.

Fixpoint alts (rs : list regex) : regex :=
  match rs with
  | [] => Cls (fun _ => false)
  | [r] => r
  | r :: rs' => Alt r (alts rs')
  end.

End Re.

(* ================================================================== *)
(** ** Dates ([datetime]) *)

(** The proleptic Gregorian calendar of [datetime], with its own ordinal
    arithmetic ([_ymd2ord], [_ord2ymd]): day 1 is 0001-01-01. *)
Module Datetime.

Open Scope Z_scope.

Definition MINYEAR : Z := 1.
Definition MAXYEAR : Z := 9999.
Definition MAXORDINAL : Z := 3652059.

Record datetime : Type :=
  { year : Z; month : Z; day : Z; seconds : Z (* since midnight *) }.

(** [timedelta(days=.., hours=..)] *)
Record timedelta : Type := { td_days : Z; td_seconds : Z }.

Definition days (n : Z) : timedelta := {| td_days := n; td_seconds := 0 |}.
Definition hours (n : Z) : timedelta := {| td_days := 0; td_seconds := 3600 * n |}.

Definition is_leap (y : Z) : bool :=
  (y mod 4 =? 0) && (negb (y mod 100 =? 0) || (y mod 400 =? 0)).

Definition days_before_year (y : Z) : Z :=
  let p := y - 1 in p * 365 + p / 4 - p / 100 + p / 400.

Definition DAYS_IN_MONTH : list Z :=
  [-1; 31; 28; 31; 30; 31; 30; 31; 31; 30; 31; 30; 31].

Definition DAYS_BEFORE_MONTH : list Z :=
  [-1; 0; 31; 59; 90; 120; 151; 181; 212; 243; 273; 304; 334].

Definition table (t : list Z) (i : Z) : Z := nth (Z.to_nat i) t 0.

Definition days_in_month (y m : Z) : Z :=
  if (m =? 2) && is_leap y then 29 else table DAYS_IN_MONTH m.

Definition days_before_month (y m : Z) : Z :=
  table DAYS_BEFORE_MONTH m + (if (2 <? m) && is_leap y then 1 else 0).

Definition ymd2ord (y m d : Z) : Z :=
  days_before_year y + days_before_month y m + d.

Definition DI400Y : Z := 146097.
Definition DI100Y : Z := 36524.
Definition DI4Y : Z := 1461.

Definition ord2ymd (n : Z) : Z * Z * Z :=
  let n := n - 1 in
  let n400 := n / DI400Y in
  let n := n mod DI400Y in
  let y := n400 * 400 + 1 in
  let n100 := n / DI100Y in
  let n := n mod DI100Y in
  let n4 := n / DI4Y in
  let n := n mod DI4Y in
  let n1 := n / 365 in
  let n := n mod 365 in
  let y := y + n100 * 100 + n4 * 4 + n1 in
  if (n1 =? 4) || (n100 =? 4) then (y - 1, 12, 31)
  else
    let leapyear := (n1 =? 3) && (negb (n4 =? 24) || (n100 =? 3)) in
    let m := Z.shiftr (n + 50) 5 in
    let preceding :=
      table DAYS_BEFORE_MONTH m + (if (2 <? m) && leapyear then 1 else 0) in
    if n <? preceding then
      let m := m - 1 in
      let preceding :=
        preceding - (table DAYS_IN_MONTH m
                     + (if (m =? 2) && leapyear then 1 else 0)) in
      (y, m, n - preceding + 1)
    else (y, m, n - preceding + 1).

Definition toordinal (d : datetime) : Z := ymd2ord (year d) (month d) (day d).

(** [datetime(y, m, d)]: the fields are checked, the time is midnight. *)
Definition make (y m d : Z) : outcome datetime :=
  if (MINYEAR <=? y) && (y <=? MAXYEAR)
     && (1 <=? m) && (m <=? 12)
     && (1 <=? d) && (d <=? days_in_month y m)
  then Ret {| year := y; month := m; day := d; seconds := 0 |}
  else Raise ValueError.

(** [dt + delta]; a result outside 0001-01-01 .. 9999-12-31 raises. *)
Definition add (dt : datetime) (delta : timedelta) : outcome datetime :=
  let total := seconds dt + td_seconds delta in
  let ord := toordinal dt + td_days delta + total / 86400 in
  if (0 <? ord) && (ord <=? MAXORDINAL) then
    let '(y, m, d) := ord2ymd ord in
    Ret {| year := y; month := m; day := d; seconds := total mod 86400 |}
  else Raise OverflowError.

(** [dt - delta] is [dt + (-delta)]. *)
Definition sub (dt : datetime) (delta : timedelta) : outcome datetime :=
  add dt {| td_days := - td_days delta; td_seconds := - td_seconds delta |}.

Definition pad (width : nat) (n : Z) : string := Py.zfill width (Py.str n).

(** [dt.strftime("%Y%m%d")]: the year as the C library writes it for [%Y],
    which is without padding (glibc: year 1 is written "1"); two digits of
    month, two of day. *)
Definition strftime_Ymd (dt : datetime) : string :=
  (Py.str (year dt) ++ pad 2 (month dt) ++ pad 2 (day dt))%string.

(** *** [datetime.strptime] *)

Inductive directive : Type :=
| Dm              (* %m *)
| Dd              (* %d *)
| DY              (* %Y *)
| Dlit (c : ascii).

(** The pattern [_strptime] compiles a directive to. *)
Definition directive_re (d : directive) : Re.regex :=
  match d with
  | Dm => (* (?P<m>1[0-2]|0[1-9]|[1-9]) *)
      Re.Grp (Re.alts [Re.Seq (Re.chr "1") (Re.range "0" "2");
                       Re.Seq (Re.chr "0") (Re.range "1" "9");
                       Re.range "1" "9"])
  | Dd => (* (?P<d>3[0-1]|[1-2]\d|0[1-9]|[1-9]| [1-9]) *)
      Re.Grp (Re.alts [Re.Seq (Re.chr "3") (Re.range "0" "1");
                       Re.Seq (Re.range "1" "2") Re.digit;
                       Re.Seq (Re.chr "0") (Re.range "1" "9");
                       Re.range "1" "9";
                       Re.Seq (Re.chr " ") (Re.range "1" "9")])
  | DY => (* (?P<Y>\d\d\d\d) *)
      Re.Grp (Re.seqs [Re.digit; Re.digit; Re.digit; Re.digit])
  | Dlit c => Re.chr_i c
  end.

Definition format_re (fmt : list directive) : Re.regex :=
  Re.seqs (map directive_re fmt).

(** The fields found, by directive; year 1900, month 1 and day 1 unless
    the format gives them. *)
Fixpoint fields (fmt : list directive) (groups : list string)
         (ymd : Z * Z * Z) : outcome (Z * Z * Z) :=
  let '(y, m, d) := ymd in
  match fmt, groups with
  | Dlit _ :: fmt', _ => fields fmt' groups ymd
  | Dm :: fmt', g :: groups' => v <- Py.int g ;; fields fmt' groups' (y, v, d)
  | Dd :: fmt', g :: groups' => v <- Py.int g ;; fields fmt' groups' (y, m, v)
  | DY :: fmt', g :: groups' => v <- Py.int g ;; fields fmt' groups' (v, m, d)
  | _, _ => Ret ymd
  end.

(** [datetime.strptime(s, fmt)]: the pattern has to match at the start of
    [s] and its match has to use [s] up. *)
Definition strptime (s : string) (fmt : list directive) : outcome datetime :=
  match Re.match_at (format_re fmt) s with
  | Some (groups, EmptyString) =>
      ymd <- fields fmt groups (1900, 1, 1) ;;
      let '(y, m, d) := ymd in make y m d
  | _ => Raise ValueError
  end.

(** ["%m/%d/%Y"] and ["%m/%Y"] *)
Definition fmt_mdY : list directive := [Dm; Dlit "/"; Dd; Dlit "/"; DY].
Definition fmt_mY : list directive := [Dm; Dlit "/"; DY].

End Datetime.

(* ================================================================== *)
(** ** [urllib.parse.quote] *)

Module Urllib.

Definition hex_digit (n : nat) : ascii :=
  if n <? 10 then ascii_of_nat (48 + n) else ascii_of_nat (55 + n).

Definition percent (byte : nat) (rest : string) : string :=
  String "%" (String (hex_digit (byte / 16)) (String (hex_digit (byte mod 16)) rest)).

(** Letters, digits, [_.-~], and the default [safe='/']. *)
Definition is_safe (c : ascii) : bool :=
  let n := Chars.code c in
  ((65 <=? n) && (n <=? 90)) || ((97 <=? n) && (n <=? 122))
  || ((48 <=? n) && (n <=? 57))
  || (n =? 95) || (n =? 46) || (n =? 45) || (n =? 126) || (n =? 47).

(** Every other character is written as the bytes of its UTF-8 encoding. *)
Fixpoint quote (s : string) : string :=
  match s with
  | EmptyString => EmptyString
  | String c s' =>
      let n := Chars.code c in
      if is_safe c then String c (quote s')
      else if n <? 128 then percent n (quote s')
      else percent (192 + n / 64) (percent (128 + n mod 64) (quote s'))
  end.

End Urllib.

(* ================================================================== *)
(** ** The module *)

(** [str(datetime.now().year)[:2]], the clock showing year [now]. *)
Definition century_of (now : Z) : string := Str.take 2 (Py.str now).

(** [if len(year) == 2: year = current_century + year] *)
Definition resolve_year (century year : string) : string :=
  if String.length year =? 2 then (century ++ year)%string else year.

(** [normalize_expiry_date(date_str)]; [None] is Python's [None]. *)
Definition normalize_expiry_date (now : Z) (date_str : string) : option string :=
  let parts := Py.split Chars.slash date_str in
  let unpacked :=
    match parts with
    | [mm; dd; yyyy] => Some (mm, Some dd, yyyy)
    | [mm; yyyy] => Some (mm, None, yyyy)
    | _ => None
    end in
  match unpacked with
  | None => None
  | Some (mm, dd, yyyy) =>
      let yyyy := resolve_year (century_of now) yyyy in
      match dd with
      | Some dd' =>
          if Py.truthy dd'
          then Some (Py.zfill 2 mm ++ "/" ++ Py.zfill 2 dd' ++ "/" ++ yyyy)%string
          else Some (Py.zfill 2 mm ++ "/" ++ yyyy)%string
      | None => Some (Py.zfill 2 mm ++ "/" ++ yyyy)%string
      end
  end.

Definition ws : Re.regex := Re.Star Chars.is_space.

(** [(exp(?:iry|iration)?\s*date|exp\s*date|exp\.|expires|valid\s*thru|
     valid\s*until|exp|good\s*thru|good\s*until|validity|exp)], used with
    [re.IGNORECASE]. *)
Definition expiry_keywords : Re.regex :=
  Re.Grp (Re.alts
    [ Re.seqs [Re.lit_i "exp"; Re.Opt (Re.Alt (Re.lit_i "iry") (Re.lit_i "iration"));
               ws; Re.lit_i "date"];
      Re.seqs [Re.lit_i "exp"; ws; Re.lit_i "date"];
      Re.lit_i "exp.";
      Re.lit_i "expires";
      Re.seqs [Re.lit_i "valid"; ws; Re.lit_i "thru"];
      Re.seqs [Re.lit_i "valid"; ws; Re.lit_i "until"];
      Re.lit_i "exp";
      Re.seqs [Re.lit_i "good"; ws; Re.lit_i "thru"];
      Re.seqs [Re.lit_i "good"; ws; Re.lit_i "until"];
      Re.lit_i "validity";
      Re.lit_i "exp" ]).

(** [[\/\-]] *)
Definition sep : Re.regex :=
  Re.Cls (fun c => Ascii.eqb c "/" || Ascii.eqb c "-").

(** [(0[1-9]|1[0-2])] *)
Definition month_re : Re.regex :=
  Re.Grp (Re.Alt (Re.Seq (Re.chr "0") (Re.range "1" "9"))
                 (Re.Seq (Re.chr "1") (Re.range "0" "2"))).

(** [(0[1-9]|[12][0-9]|3[01])] *)
Definition day_re : Re.regex :=
  Re.Grp (Re.alts [Re.Seq (Re.chr "0") (Re.range "1" "9");
                   Re.Seq (Re.range "1" "2") (Re.range "0" "9");
                   Re.Seq (Re.chr "3") (Re.range "0" "1")]).

(** [(\d{2,4})] *)
Definition year_re : Re.regex := Re.Grp (Re.Rep Chars.is_digit 2 4).

(** [(0[1-9]|1[0-2])[\/\-](0[1-9]|[12][0-9]|3[01])[\/\-](\d{2,4})] *)
Definition full_date_re : Re.regex :=
  Re.seqs [month_re; sep; day_re; sep; year_re].

(** [(0[1-9]|1[0-2])[\/\-](\d{2,4})] *)
Definition partial_date_re : Re.regex :=
  Re.seqs [month_re; sep; year_re].

Definition date_patterns : list Re.regex := [full_date_re; partial_date_re].

(** The body of [for match in found]: the candidate a match adds. *)
Definition add_match (century : string) (candidates : list string)
           (m : list string) : list string :=
  match m with
  | [m0; m1; m2] =>
      let year := resolve_year century m2 in
      Py.set_add (m0 ++ "/" ++ m1 ++ "/" ++ year)%string candidates
  | [m0; m1] =>
      let year := resolve_year century m1 in
      Py.set_add (m0 ++ "/" ++ year)%string candidates
  | _ => candidates
  end.

(** [for pattern in date_patterns: found = re.findall(pattern, span); ...] *)
Definition scan (century : string) (candidates : list string) (span : string)
  : list string :=
  fold_left
    (fun cands pattern => fold_left (add_match century) (Re.findall pattern span) cands)
    date_patterns candidates.

Definition has_keyword (line : string) : bool := Re.search expiry_keywords line.

(** Step 1: keyword and date on the same line. *)
Definition same_line_pass (century : string) (lines candidates : list string)
  : list string :=
  fold_left
    (fun cands line => if has_keyword line then scan century cands line else cands)
    lines candidates.

(** Step 2: keyword on a line, date on the line after it. *)
Definition next_line_pass (century : string) (lines candidates : list string)
  : list string :=
  fold_left
    (fun cands i =>
       match nth_error lines i with
       | Some line =>
           if has_keyword line then
             match nth_error lines (i + 1) with
             | Some next_line => scan century cands next_line
             | None => cands
             end
           else cands
       | None => cands
       end)
    (seq 0 (List.length lines)) candidates.

Definition is_empty (s : list string) : bool :=
  match s with
  | [] => true
  | _ => false
  end.

(** Lines 53-106: the candidate set on reaching the normalization. *)
Definition collect_candidates (now : Z) (text : string) : list string :=
  let candidates := [] in
  let current_century := century_of now in
  let lines := Py.splitlines text in
  let candidates := same_line_pass current_century lines candidates in
  let candidates :=
    if is_empty candidates then next_line_pass current_century lines candidates
    else candidates in
  let candidates :=
    if is_empty candidates then scan current_century candidates text
    else candidates in
  candidates.

(** The nested [date_key(d)]. *)
Definition date_key (d : string) : outcome Z :=
  let parts := Py.split Chars.slash d in
  unpacked <-
    (if List.length parts =? 3 then
       match parts with
       | [mm; dd; yyyy] => Ret (mm, dd, yyyy)
       | _ => Raise ValueError
       end
     else
       match parts with
       | [mm; yyyy] => Ret (mm, "01", yyyy)
       | _ => Raise ValueError
       end) ;;
  let '(mm, dd, yyyy) := unpacked in
  y <- Py.int yyyy ;;
  m <- Py.int mm ;;
  d <- Py.int dd ;;
  Ret (y * 10000 + m * 100 + d)%Z.

(** Where [x] goes in a list in descending order of key: after the entries
    with a greater key, before those with an equal key. *)
Fixpoint insert_desc (x : Z * string) (l : list (Z * string)) : list (Z * string) :=
  match l with
  | [] => [x]
  | y :: l' => if (fst x <? fst y)%Z then y :: insert_desc x l' else x :: l
  end.

(** [sorted(xs, key=date_key, reverse=True)]: the keys are computed first;
    the sort is stable. *)
Definition sorted_desc (xs : list string) : outcome (list string) :=
  keys <- mapM date_key xs ;;
  Ret (map snd (fold_right insert_desc [] (combine keys xs))).

Definition is_full (d : string) : bool :=
  List.length (Py.split Chars.slash d) =? 3.

(** Lines 113-127, [normalized] in the order the set is iterated. *)
Definition pick_latest (normalized : list string) : outcome (list string) :=
  if is_empty normalized then Ret []
  else
    sorted_dates <- sorted_desc normalized ;;
    match find is_full sorted_dates with
    | Some d => Ret [d]
    | None =>
        match sorted_dates with
        | d :: _ => Ret [d]
        | [] => Raise IndexError
        end
    end.

Section Extraction.

(** The order in which a [set] hands out its elements. *)
Variable set_order : list string -> list string.

(** Lines 108-112. *)
Definition normalize_all (now : Z) (candidates : list string) : list string :=
  fold_left
    (fun normalized c =>
       match normalize_expiry_date now c with
       | Some norm => if Py.truthy norm then Py.set_add norm normalized else normalized
       | None => normalized
       end)
    (set_order candidates) [].

(** [extract_expiry_dates(text)] *)
Definition extract_expiry_dates (now : Z) (text : string) : outcome (list string) :=
  let candidates := collect_candidates now text in
  let normalized := normalize_all now candidates in
  pick_latest (set_order normalized).

End Extraction.

(** [create_google_calendar_link(expiry_date_str)] *)
Definition create_google_calendar_link (expiry_date_str : string)
  : outcome (option string) :=
  match
    try_except
      (if List.length (Py.split Chars.slash expiry_date_str) =? 3
       then Datetime.strptime expiry_date_str Datetime.fmt_mdY
       else Datetime.strptime expiry_date_str Datetime.fmt_mY)
  with
  | None => Ret None
  | Some dt =>
      reminder_date <- Datetime.sub dt (Datetime.days 30) ;;
      let start := Datetime.strftime_Ymd reminder_date in
      later <- Datetime.add reminder_date (Datetime.hours 1) ;;
      let end_ := Datetime.strftime_Ymd later in
      let title := Urllib.quote "Document Expiry Reminder" in
      let details :=
        Urllib.quote ("Your document expires on " ++ expiry_date_str
                      ++ ". Renew soon!")%string in
      Ret (Some ("https://calendar.google.com/calendar/render?action=TEMPLATE&text="
                 ++ title ++ "&dates=" ++ start ++ "/" ++ end_
                 ++ "&details=" ++ details)%string)
  end.

(** The order of insertion, one of the orders a set can be iterated in. *)
Definition insertion_order (l : list string) : list string := l.

(* ================================================================== *)
(** ** Date strings *)

(** [n] decimal digits. *)
Definition digits (n : nat) (s : string) : Prop :=
  String.length s = n /\ Str.all Chars.is_digit s = true.

(** [MM/DD/Y..] or [MM/Y..], the year as [year_ok] has it. *)
Inductive date_form (year_ok : string -> Prop) : string -> Prop :=
| form_full (mm dd yyyy : string) :
    digits 2 mm -> digits 2 dd -> year_ok yyyy ->
    date_form year_ok (mm ++ "/" ++ dd ++ "/" ++ yyyy)
| form_partial (mm yyyy : string) :
    digits 2 mm -> year_ok yyyy ->
    date_form year_ok (mm ++ "/" ++ yyyy).

(** NormalizedDate: ["MM/DD/YYYY"] or ["MM/YYYY"], the year of four digits. *)
Definition normalized_date : string -> Prop := date_form (digits 4).

(** A year of three or four digits. *)
Definition year_3_4 (y : string) : Prop := digits 3 y \/ digits 4 y.

(** A year of digits that the century rule leaves alone, and that [int]
    reads. *)
Definition settled_year (y : string) : Prop :=
  Str.all Chars.is_digit y = true /\ y <> "" /\ String.length y <> 2
  /\ String.length y <= Py.MAX_STR_DIGITS.

(* ================================================================== *)
(** ** The three search strategies, each on its own *)

(** Same-line: the dates on the lines that carry a keyword. *)
Definition tier_same_line (now : Z) (text : string) : list string :=
  same_line_pass (century_of now) (Py.splitlines text) [].

(** Next-line: the dates on the lines that follow a line with a keyword. *)
Definition tier_next_line (now : Z) (text : string) : list string :=
  next_line_pass (century_of now) (Py.splitlines text) [].

(** Global scan: the dates of the whole text. *)
Definition tier_global (now : Z) (text : string) : list string :=
  scan (century_of now) [] text.

(** ** The Date Pattern Matcher: the matches of the two patterns *)

Definition date_matches (span : string) : list Re.rmatch :=
  flat_map (fun pattern => Re.finditer pattern span) date_patterns.

(** Two spans share a character. *)
Definition overlap (a b : Re.rmatch) : Prop :=
  Re.m_start a < Re.m_end b /\ Re.m_start b < Re.m_end a.

(** [s[n:]] *)
Fixpoint drop (n : nat) (s : string) : string :=
  match n, s with
  | S n', String _ s' => drop n' s'
  | _, _ => s
  end.

(** ** Orders *)

(** Descending order of key. *)
Definition desc (a b : Z * string) : Prop := (fst b <= fst a)%Z.

(** One span ends before the other starts. *)
Definition precedes (a b : Re.rmatch) : Prop := Re.m_end a <= Re.m_start b.

(** [m] is a match of [r] in [s], which stands at position [pos] of the
    text: it starts at or after position [pos + lo], it ends inside [s], and
    it is the match [r] finds where it starts. *)
Definition match_in (r : Re.regex) (s : string) (pos lo : nat) (m : Re.rmatch) : Prop :=
  pos + lo <= Re.m_start m
  /\ Re.m_start m <= Re.m_end m
  /\ Re.m_end m <= pos + String.length s
  /\ Re.match_at r (drop (Re.m_start m - pos) s)
     = Some (Re.m_groups m, drop (Re.m_end m - pos) s).

(** ** Ranges of integers, for checks by enumeration *)

(** [lo, lo+1, ...], [n] of them *)
Fixpoint Zcount (n : nat) (lo : Z) : list Z :=
  match n with
  | O => []
  | S n' => lo :: Zcount n' (lo + 1)
  end.

(** [lo, lo+1, ..., hi] *)
Definition Zrange (lo hi : Z) : list Z := Zcount (Z.to_nat (hi - lo + 1)) lo.

(** The first digits of a year between 1 and 9999: one or two digits. *)
Definition century_ok (century : string) : bool :=
  Str.all Chars.is_digit century
  && ((String.length century =? 1) || (String.length century =? 2)).

(** ** Reminder links for partial dates *)

(** ["MM/YYYY"] for month [m] and year [y]. *)
Definition partial_date_string (m y : Z) : string :=
  (Datetime.pad 2 m ++ "/" ++ Datetime.pad 4 y)%string.

(** The day [y]-[m]-[d] as [strftime("%Y%m%d")] writes it: the year without
    padding, then two digits of month and two of day. *)
Definition Ymd (y m d : Z) : string :=
  (Py.str y ++ Datetime.pad 2 m ++ Datetime.pad 2 d)%string.

(** A date of the calendar. *)
Definition valid_date (y m d : Z) : bool :=
  (Datetime.MINYEAR <=? y)%Z && (y <=? Datetime.MAXYEAR)%Z
  && (1 <=? m)%Z && (m <=? 12)%Z
  && (1 <=? d)%Z && (d <=? Datetime.days_in_month y m)%Z.

(** The link for an expiry date string and a range of dates. *)
Definition link_for (expiry_date_str first last : string) : string :=
  ("https://calendar.google.com/calendar/render?action=TEMPLATE&text="
   ++ Urllib.quote "Document Expiry Reminder"
   ++ "&dates=" ++ first ++ "/" ++ last
   ++ "&details="
   ++ Urllib.quote ("Your document expires on " ++ expiry_date_str ++ ". Renew soon!"))%string.

(** The date the builder parses out of its argument (lines 133-136). *)
Definition parse_expiry (expiry_date_str : string) : outcome Datetime.datetime :=
  if List.length (Py.split Chars.slash expiry_date_str) =? 3
  then Datetime.strptime expiry_date_str Datetime.fmt_mdY
  else Datetime.strptime expiry_date_str Datetime.fmt_mY.

(** The ten digits, by value. *)
Definition digit_chars : list ascii := ["0"; "1"; "2"; "3"; "4"; "5"; "6"; "7"; "8"; "9"]%char.

Definition digit_char (n : nat) : ascii := nth n digit_chars "0"%char.

(** The four digits [a b c d], as a string and as a number. *)
Definition four_digits (a b c d : nat) : string :=
  String (digit_char a) (String (digit_char b)
    (String (digit_char c) (String (digit_char d) EmptyString))).

Definition number_of (a b c d : nat) : Z :=
  (1000 * Z.of_nat a + 100 * Z.of_nat b + 10 * Z.of_nat c + Z.of_nat d)%Z.

(** The number a string of digits writes, after the digits [acc]. *)
Fixpoint dec_value (s : string) (acc : Z) : Z :=
  match s with
  | EmptyString => acc
  | String c s' => dec_value s' (10 * acc + Chars.digit_val c)%Z
  end.

(** Thirty days before the first of month [m] of year [y] is a day of the
    calendar, not after year [y], at that distance. *)
Definition reminder_day_ok (y m : Z) : bool :=
  let n := (Datetime.ymd2ord y m 1 - 30)%Z in
  let '(ry, rm, rd) := Datetime.ord2ymd n in
  ((1 <=? n) && (1 <=? ry) && (ry <=? y) && valid_date ry rm rd
   && (Datetime.ymd2ord ry rm rd =? n))%Z.

(** ** The three search strategies, as the contract words them *)

(** The candidate a match stands for: its groups joined by [/], a year of
    two digits made four by the century in front. *)
Definition candidate_of (century : string) (groups : list string) : option string :=
  match groups with
  | [mm; dd; yy] => Some (mm ++ "/" ++ dd ++ "/" ++ resolve_year century yy)%string
  | [mm; yy] => Some (mm ++ "/" ++ resolve_year century yy)%string
  | _ => None
  end.

(** The dates written in a span of text: what the two patterns find in it. *)
Definition dates_in (century span : string) : list string :=
  flat_map
    (fun pattern =>
       flat_map (fun groups => match candidate_of century groups with
                               | Some d => [d]
                               | None => []
                               end)
                (Re.findall pattern span))
    date_patterns.

(** Same-line search: the dates written on the lines that carry a keyword. *)
Definition same_line_dates (century : string) (lines : list string) : list string :=
  flat_map (fun line => if has_keyword line then dates_in century line else []) lines.

(** Next-line search: the dates written on a line that comes right after a
    line that carries a keyword. *)
Fixpoint next_line_dates (century : string) (lines : list string) : list string :=
  match lines with
  | line :: ((next_line :: _) as rest) =>
      (if has_keyword line then dates_in century next_line else [])
        ++ next_line_dates century rest
  | _ => []
  end.

(** ** Counting *)

(** The number of [/] in a string. *)
Fixpoint count_slash (s : string) : nat :=
  match s with
  | EmptyString => 0
  | String c s' => (if Ascii.eqb c Chars.slash then 1 else 0) + count_slash s'
  end.


(** [a] does not come before [b]: no key of [b] is greater than a key of [a]. *)
Definition key_ge (a b : string) : Prop :=
  forall ka kb, date_key a = Ret ka -> date_key b = Ret kb -> (kb <= ka)%Z.


(** ** The calendar, day by day *)

(** The month and the day of day [n] (from 0) of a year, as [_ord2ymd]
    finds them: an estimate of the month that is right or one too high. *)
Definition month_day (leapyear : bool) (n : Z) : Z * Z :=
  let m := Z.shiftr (n + 50) 5 in
  let preceding :=
    (Datetime.table Datetime.DAYS_BEFORE_MONTH m
     + (if (2 <? m)%Z && leapyear then 1 else 0))%Z in
  if (n <? preceding)%Z then
    let m := (m - 1)%Z in
    let preceding :=
      (preceding - (Datetime.table Datetime.DAYS_IN_MONTH m
                    + (if (m =? 2)%Z && leapyear then 1 else 0)))%Z in
    (m, (n - preceding + 1)%Z)
  else (m, (n - preceding + 1)%Z).

(** [month_day] finds a month and a day of it, the right ones. *)
Definition month_day_ok (leapyear : bool) (n : Z) : bool :=
  let '(m, d) := month_day leapyear n in
  ((1 <=? m) && (m <=? 12) && (1 <=? d)
   && (d <=? (if (m =? 2) && leapyear then 29 else Datetime.table Datetime.DAYS_IN_MONTH m))
   && (Datetime.table Datetime.DAYS_BEFORE_MONTH m
       + (if (2 <? m) && leapyear then 1 else 0) + d =? n + 1))%Z.


(** ["MM/DD/YYYY"] for month [m], day [d] and year [y]. *)
Definition full_date_string (m d y : Z) : string :=
  (Datetime.pad 2 m ++ "/" ++ Datetime.pad 2 d ++ "/" ++ Datetime.pad 4 y)%string.

(** Written with two digits, a number of 1-31 is read back by [int]. *)
Definition two_digits_ok (k : Z) : bool :=
  Str.all Chars.is_digit (Datetime.pad 2 k)
  && (String.length (Datetime.pad 2 k) =? 2)
  && match Py.int (Datetime.pad 2 k) with
     | Ret v => (v =? k)%Z
     | Raise _ => false
     end.


(** ** Characters of a link *)

(** The characters [quote] lets through or writes, and the delimiters of the
    link's own text: letters, digits, [_.-~/], and [%:?&=]. *)
Definition url_char (c : ascii) : bool :=
  Urllib.is_safe c
  || Ascii.eqb c "%" || Ascii.eqb c ":" || Ascii.eqb c "?"
  || Ascii.eqb c "&" || Ascii.eqb c "=".


(* ================================================================== *)
(** ** Text out of a document *)

(** The OCR engine and the PDF libraries are outside the module: they are
    taken as functions that return. *)
Section Documents.

(** A decoded image ([PIL.Image]). *)
Variable image : Type.

(** [Image.open(io.BytesIO(b))] *)
Variable image_open : list Byte.byte -> image.

(** [pytesseract.image_to_string] *)
Variable image_to_string : image -> string.

(** [pdfminer.high_level.extract_text(io.BytesIO(b))] *)
Variable extract_pdf_text : list Byte.byte -> string.

(** [pdf2image.convert_from_bytes] *)
Variable convert_from_bytes : list Byte.byte -> list image.

(** [extract_text_from_image(image_bytes)] *)
Definition extract_text_from_image (image_bytes : list Byte.byte) : string :=
  let image := image_open image_bytes in
  image_to_string image.

(** [f'--- Page {i+1} ---\n'] *)
Definition page_header (i : nat) : string :=
  ("--- Page " ++ Py.str (Z.of_nat i + 1) ++ " ---" ++ String "010" "")%string.

(** The body of the loop over the pages. *)
Definition add_page (ocr_text : string) (page : nat * image) : string :=
  let '(i, img) := page in
  let ocr_text := (ocr_text ++ page_header i)%string in
  let ocr_text := (ocr_text ++ image_to_string img)%string in
  (ocr_text ++ String "010" "")%string.

(** [enumerate(images)] *)
Definition enumerate (images : list image) : list (nat * image) :=
  combine (seq 0 (List.length images)) images.

(** [extract_text_from_pdf(pdf_bytes)] *)
Definition extract_text_from_pdf (pdf_bytes : list Byte.byte) : string :=
  let text := extract_pdf_text pdf_bytes in
  if Py.truthy (Py.strip text) then text
  else
    let images := convert_from_bytes pdf_bytes in
    fold_left add_page (enumerate images) "".

End Documents.

Arguments extract_text_from_image {image}.
Arguments add_page {image}.
Arguments enumerate {image}.
Arguments extract_text_from_pdf {image}.

(** The line feed. *)
Definition newline : ascii := "010"%char.

(** A digit stands right before [/] or [-] somewhere in the string. *)
Fixpoint digit_then_sep (s : string) : bool :=
  match s with
  | String a ((String b _) as s') =>
      (Chars.is_digit a && (Ascii.eqb b "/" || Ascii.eqb b "-")) || digit_then_sep s'
  | _ => false
  end.


(* ================================================================== *)
(** ** The page *)

(** What [main] puts on the page, call by call. *)
Inductive element : Type :=
| st_title (body : string)
| st_write (body : string)
| st_success (body : string)
| st_subheader (body : string)
| st_markdown (body : string)
| st_text_area (label value : string) (height : nat)
| st_expander (label : string) (inside : element).

(** What [st.file_uploader] hands over. *)
Record uploaded_file : Type :=
  { file_type : string;              (* [uploaded_file.type] *)
    file_read : list Byte.byte }.    (* [uploaded_file.read()] *)

(** The loop of lines 161-165: the page so far, and the exception that ended
    the loop, if one did. *)
Fixpoint show_dates (page : list element) (expiry_dates : list string)
  : list element * option exn :=
  match expiry_dates with
  | [] => (page, None)
  | date :: rest =>
      let page := page ++ [st_write ("- " ++ date)] in
      match create_google_calendar_link date with
      | Raise e => (page, Some e)
      | Ret cal_link =>
          let page :=
            match cal_link with
            | Some link =>
                if Py.truthy link
                then page ++ [st_markdown ("[Add 30-day reminder to Google Calendar]("
                                           ++ link ++ ")")]
                else page
            | None => page
            end in
          show_dates page rest
      end
  end.

Section Page.

Variable image : Type.
Variable image_open : list Byte.byte -> image.
Variable image_to_string : image -> string.
Variable extract_pdf_text : list Byte.byte -> string.
Variable convert_from_bytes : list Byte.byte -> list image.

(** The order in which a [set] hands out its elements, and the year the
    clock shows. *)
Variable set_order : list string -> list string.
Variable now : Z.

(** Lines 153-157: the text of the upload. *)
Definition uploaded_text (uploaded : uploaded_file) : string :=
  let file_bytes := file_read uploaded in
  if String.eqb (file_type uploaded) "application/pdf"
  then extract_text_from_pdf image_to_string extract_pdf_text convert_from_bytes file_bytes
  else extract_text_from_image image_open image_to_string file_bytes.

(** [main()], with what [st.file_uploader] returned: the page written and
    the exception that ended the run, if one did. *)
Definition main (uploaded : option uploaded_file) : list element * option exn :=
  let page := [st_title "Document Upload App";
               st_write "Upload an image or PDF to extract expiry dates using OCR."] in
  match uploaded with
  | None => (page, None)
  | Some uploaded =>
      let page := page ++ [st_success "File uploaded successfully!"] in
      let text := uploaded_text uploaded in
      match extract_expiry_dates set_order now text with
      | Raise e => (page, Some e)
      | Ret expiry_dates =>
          let page := page ++ [st_subheader "Extracted Expiry Dates:"] in
          let '(page, raised) :=
            if is_empty expiry_dates
            then (page ++ [st_write "No expiry dates found."], None)
            else show_dates page expiry_dates in
          match raised with
          | Some e => (page, Some e)
          | None =>
              (page ++ [st_expander "Show Full Extracted Text"
                                    (st_text_area "Text" text 200)], None)
          end
      end
  end.

End Page.

Arguments uploaded_text {image}.
Arguments main {image}.


(* ================================================================== *)
(** ** Letter case *)

(** The text with its capital letters made small. *)
Fixpoint lower_text (s : string) : string :=
  match s with
  | EmptyString => EmptyString
  | String c s' => String (Chars.lower c) (lower_text s')
  end.

(** A class of characters that does not tell a capital from its small
    letter, checked on the 256 characters. *)
Definition case_blind_class (p : ascii -> bool) : bool :=
  forallb (fun n => Bool.eqb (p (Chars.lower (ascii_of_nat n))) (p (ascii_of_nat n)))
          (seq 0 256).

(** A pattern all of whose classes are such. *)
Fixpoint case_blind (r : Re.regex) : bool :=
  match r with
  | Re.Eps => true
  | Re.Cls p => case_blind_class p
  | Re.Seq r1 r2 => case_blind r1 && case_blind r2
  | Re.Alt r1 r2 => case_blind r1 && case_blind r2
  | Re.Opt r' => case_blind r'
  | Re.Star p => case_blind_class p
  | Re.Rep p _ _ => case_blind_class p
  | Re.Grp r' => case_blind r'
  end.

(** What [splitlines] goes on with after the line boundary [c]: CR LF is one
    boundary. *)
Definition after_break (c : ascii) (s : string) : string :=
  match c, s with
  | "013"%char, String "010"%char s'' => s''
  | _, _ => s
  end.

(** A match with its texts made small. *)
Definition lower_match (m : list string * string) : list string * string :=
  (map lower_text (fst m), lower_text (snd m)).

(* ================================================================== *)
(** * The model on concrete inputs *)

Example split_ex : Py.split Chars.slash "7/4/2023" = ["7"; "4"; "2023"].
Proof. reflexivity. Qed.

Example splitlines_ex :
  Py.splitlines (String "a" (String "013" (String "010" (String "010" "b"))))
  = ["a"; ""; "b"].
Proof. reflexivity. Qed.

Example zfill_ex : Py.zfill 2 "7" = "07" /\ Py.zfill 2 "+" = "+0" /\ Py.zfill 2 "123" = "123".
Proof. repeat split. Qed.

Example int_ex :
  Py.int " 0025 " = Ret 25%Z /\ Py.int "1_0" = Ret 10%Z /\ Py.int "-7" = Ret (-7)%Z
  /\ Py.int "" = Raise ValueError /\ Py.int "1__0" = Raise ValueError.
Proof. repeat split. Qed.

(** [int] leaves the separators FS..US where they are, and stops at 4300
    digits. *)
Example int_limits_ex :
  Py.int (String "028" "5") = Raise ValueError
  /\ Py.int (String "160" "5") = Ret 5%Z
  /\ Py.int (Str.repeat "0" 4300) = Ret 0%Z
  /\ Py.int (Str.repeat "0" 4301) = Raise ValueError.
Proof. vm_compute. repeat split. Qed.

Example str_ex : Py.str 2026 = "2026" /\ Py.str 0 = "0".
Proof. split; reflexivity. Qed.

Example ord_ex :
  Datetime.ymd2ord 1 1 1 = 1%Z /\ Datetime.ymd2ord 9999 12 31 = Datetime.MAXORDINAL
  /\ Datetime.ord2ymd 1 = (1, 1, 1)%Z
  /\ Datetime.ord2ymd Datetime.MAXORDINAL = (9999, 12, 31)%Z
  /\ Datetime.ord2ymd (Datetime.ymd2ord 2028 8 30 - 30) = (2028, 7, 31)%Z
  /\ Datetime.ord2ymd (Datetime.ymd2ord 2024 2 29) = (2024, 2, 29)%Z.
Proof. repeat split. Qed.

Example strptime_ex :
  Datetime.strptime "08/30/2028" Datetime.fmt_mdY
  = Ret {| Datetime.year := 2028; Datetime.month := 8; Datetime.day := 30;
           Datetime.seconds := 0 |}
  /\ Datetime.strptime "13/2028" Datetime.fmt_mY = Raise ValueError
  /\ Datetime.strptime "02/30/2028" Datetime.fmt_mdY = Raise ValueError
  /\ Datetime.strptime "1/2028" Datetime.fmt_mY
     = Ret {| Datetime.year := 2028; Datetime.month := 1; Datetime.day := 1;
              Datetime.seconds := 0 |}
  /\ Datetime.strptime "01/0000" Datetime.fmt_mY = Raise ValueError.
Proof. repeat split. Qed.

Example quote_ex :
  Urllib.quote "Document Expiry Reminder" = "Document%20Expiry%20Reminder"
  /\ Urllib.quote "a/b!~" = "a/b%21~".
Proof. split; reflexivity. Qed.

(* ================================================================== *)
(** * Facts about the modelled built-ins *)

Module StrFacts.

Lemma app_nil_r (s : string) : (s ++ "")%string = s.
Proof. induction s as [|c s IH]; simpl; [reflexivity | now rewrite IH]. Qed.

Lemma app_assoc (a b c : string) : ((a ++ b) ++ c)%string = (a ++ (b ++ c))%string.
Proof. induction a as [|x a IH]; simpl; [reflexivity | now rewrite IH]. Qed.

Lemma length_app (a b : string) :
  String.length (a ++ b) = String.length a + String.length b.
Proof. induction a as [|x a IH]; simpl; [reflexivity | now rewrite IH]. Qed.

Lemma all_app p (a b : string) : Str.all p (a ++ b) = Str.all p a && Str.all p b.
Proof.
  induction a as [|x a IH]; simpl; [reflexivity|].
  now rewrite IH, andb_assoc.
Qed.

Lemma all_impl (p q : ascii -> bool) (s : string) :
  (forall c, p c = true -> q c = true) -> Str.all p s = true -> Str.all q s = true.
Proof.
  intros Hpq. induction s as [|c s IH]; simpl; [reflexivity|].
  rewrite !andb_true_iff. intros [Hc Hs]. auto.
Qed.

Lemma take_app (a b : string) : Str.take (String.length a) (a ++ b) = a.
Proof. induction a as [|x a IH]; simpl; [now destruct b | now rewrite IH]. Qed.

Lemma rev_onto_app (s acc : string) :
  Str.rev_onto s acc = (Str.rev_onto s "" ++ acc)%string.
Proof.
  revert acc. induction s as [|c s IH]; intros acc; simpl; [reflexivity|].
  rewrite (IH (String c acc)), (IH (String c "")), app_assoc. reflexivity.
Qed.

Lemma rev_onto_rev_onto (s acc acc' : string) :
  Str.rev_onto (Str.rev_onto s acc) acc' = Str.rev_onto acc (s ++ acc')%string.
Proof.
  revert acc acc'. induction s as [|c s IH]; intros acc acc'; simpl.
  - reflexivity.
  - rewrite IH. reflexivity.
Qed.

Lemma rev_involutive (s : string) : Str.rev (Str.rev s) = s.
Proof. unfold Str.rev. rewrite rev_onto_rev_onto. simpl. apply app_nil_r. Qed.

Lemma all_rev_onto p (s acc : string) :
  Str.all p (Str.rev_onto s acc) = Str.all p s && Str.all p acc.
Proof.
  revert acc. induction s as [|c s IH]; intros acc; simpl; [reflexivity|].
  rewrite IH. simpl. rewrite andb_assoc, (andb_comm (Str.all p s)), <- andb_assoc.
  reflexivity.
Qed.

Lemma all_rev p (s : string) : Str.all p (Str.rev s) = Str.all p s.
Proof. unfold Str.rev. rewrite all_rev_onto. simpl. apply andb_true_r. Qed.

End StrFacts.

Module CharFacts.

(** A character is a digit exactly when it is one of the ten. *)
Lemma digit_cases (c : ascii) :
  Chars.is_digit c = true ->
  In c ["0"; "1"; "2"; "3"; "4"; "5"; "6"; "7"; "8"; "9"]%char.
Proof.
  destruct c as [[] [] [] [] [] [] [] []]; vm_compute; intros H;
    try discriminate H; tauto.
Qed.

Lemma digit_not_slash (c : ascii) :
  Chars.is_digit c = true -> Ascii.eqb c Chars.slash = false.
Proof.
  intros H. apply digit_cases in H. simpl in H.
  repeat (destruct H as [<- | H]; [reflexivity|]). contradiction.
Qed.

Lemma digit_not_space (c : ascii) :
  Chars.is_digit c = true -> Chars.is_space c = false.
Proof.
  intros H. apply digit_cases in H. simpl in H.
  repeat (destruct H as [<- | H]; [reflexivity|]). contradiction.
Qed.

Lemma digit_not_int_space (c : ascii) :
  Chars.is_digit c = true -> Chars.is_int_space c = false.
Proof.
  intros H. apply digit_cases in H. simpl in H.
  repeat (destruct H as [<- | H]; [reflexivity|]). contradiction.
Qed.

Lemma range_digit (lo hi c : ascii) :
  Chars.is_digit lo = true -> Chars.is_digit hi = true ->
  Chars.in_range lo hi c = true -> Chars.is_digit c = true.
Proof.
  unfold Chars.is_digit, Chars.in_range.
  rewrite !andb_true_iff, !Nat.leb_le. lia.
Qed.

Lemma eqb_digit (d c : ascii) :
  Chars.is_digit d = true -> Ascii.eqb d c = true -> Chars.is_digit c = true.
Proof. intros Hd H. apply Ascii.eqb_eq in H. now subst. Qed.

End CharFacts.

Module PyFacts.

Lemma split_not_nil (s : string) : Py.split Chars.slash s <> [].
Proof.
  destruct s as [|c s]; simpl; [discriminate|].
  destruct (Ascii.eqb c Chars.slash); [discriminate|].
  destruct (Py.split Chars.slash s); discriminate.
Qed.

(** A text without the separator is one piece. *)
Lemma split_no_slash (s : string) :
  Str.no_slash s = true -> Py.split Chars.slash s = [s].
Proof.
  unfold Str.no_slash. induction s as [|c s IH]; simpl; [reflexivity|].
  rewrite andb_true_iff, negb_true_iff. intros [Hc Hs].
  rewrite Hc, (IH Hs). reflexivity.
Qed.

(** The first separator ends the first piece. *)
Lemma split_app (a b : string) :
  Str.no_slash a = true ->
  Py.split Chars.slash (a ++ String Chars.slash b) = a :: Py.split Chars.slash b.
Proof.
  unfold Str.no_slash. induction a as [|c a IH]; simpl.
  - reflexivity.
  - rewrite andb_true_iff, negb_true_iff. intros [Hc Ha].
    rewrite Hc, (IH Ha). reflexivity.
Qed.

(** [split] undoes nothing: joining the pieces gives the text back. *)
Lemma join_split (s : string) : Str.join "/" (Py.split Chars.slash s) = s.
Proof.
  induction s as [|c s IH]; simpl; [reflexivity|].
  destruct (Ascii.eqb_spec c Chars.slash) as [->|Hc].
  - pose proof (split_not_nil s) as Hne.
    simpl. destruct (Py.split Chars.slash s) as [|p ps]; [contradiction|].
    simpl in *. now rewrite IH.
  - pose proof (split_not_nil s) as Hne.
    destruct (Py.split Chars.slash s) as [|p ps]; [contradiction|].
    simpl in *. destruct ps; simpl in *; now rewrite <- IH.
Qed.

Lemma zfill_long (w : nat) (s : string) :
  w <= String.length s -> Py.zfill w s = s.
Proof.
  intros H. unfold Py.zfill.
  destruct (Nat.leb_spec w (String.length s)); [reflexivity | lia].
Qed.

Lemma lstrip_with_all (q p : ascii -> bool) (s : string) :
  (forall c, p c = true -> q c = false) ->
  Str.all p s = true -> Py.lstrip_with q s = s.
Proof.
  intros Hp. destruct s as [|c s]; simpl; [reflexivity|].
  rewrite andb_true_iff. intros [Hc _]. now rewrite (Hp c Hc).
Qed.

(** [int] takes nothing off a string of digits. *)
Lemma strip_digits (s : string) :
  Str.all Chars.is_digit s = true -> Py.strip_with Chars.is_int_space s = s.
Proof.
  intros H. unfold Py.strip_with.
  rewrite (lstrip_with_all _ Chars.is_digit s CharFacts.digit_not_int_space H).
  rewrite (lstrip_with_all _ Chars.is_digit (Str.rev s) CharFacts.digit_not_int_space).
  - apply StrFacts.rev_involutive.
  - now rewrite StrFacts.all_rev.
Qed.

Lemma int_digits_some (s : string) (acc : Z) (b : bool) :
  Str.all Chars.is_digit s = true -> s <> "" \/ b = true ->
  exists n, Py.int_digits s acc b = Some n.
Proof.
  revert acc b. induction s as [|c s IH]; intros acc b Hall Hne; simpl.
  - destruct Hne as [Hne | ->]; [contradiction | eauto].
  - simpl in Hall. apply andb_true_iff in Hall as [Hc Hs].
    rewrite Hc. apply IH; auto.
Qed.

Lemma count_digits_all (s : string) :
  Str.all Chars.is_digit s = true -> Py.count_digits s = String.length s.
Proof.
  induction s as [|c s IH]; simpl; [reflexivity|].
  rewrite andb_true_iff. intros [Hc Hs]. now rewrite Hc, IH.
Qed.

(** On a string of digits, not too long, [int] is the value of the digits. *)
Lemma int_of_digits (s : string) (n : Z) :
  Str.all Chars.is_digit s = true -> String.length s <= Py.MAX_STR_DIGITS ->
  Py.int_digits s 0 false = Some n -> Py.int s = Ret n.
Proof.
  intros Hall Hlen Hn. unfold Py.int. rewrite (strip_digits s Hall). cbv zeta.
  assert (Hsign : match s with
                  | String "+"%char d => (1%Z, d)
                  | String "-"%char d => ((-1)%Z, d)
                  | _ => (1%Z, s)
                  end = (1%Z, s)).
  { destruct s as [|c s]; [reflexivity|].
    simpl in Hall. apply andb_true_iff in Hall as [Hc _].
    apply CharFacts.digit_cases in Hc. simpl in Hc.
    repeat (destruct Hc as [<- | Hc]; [reflexivity|]). contradiction. }
  rewrite Hsign, Hn, (count_digits_all s Hall).
  apply Nat.leb_le in Hlen. rewrite Hlen. f_equal. apply Z.mul_1_l.
Qed.

(** [int] accepts every non-empty string of digits that is not too long. *)
Lemma int_digits_ok (s : string) :
  Str.all Chars.is_digit s = true -> s <> "" ->
  String.length s <= Py.MAX_STR_DIGITS -> exists n, Py.int s = Ret n.
Proof.
  intros Hall Hne Hlen.
  destruct (int_digits_some s 0%Z false Hall (or_introl Hne)) as [n Hn].
  exists n. now apply int_of_digits.
Qed.

Lemma short_length (n : nat) : n <= 4 -> n <= Py.MAX_STR_DIGITS.
Proof. unfold Py.MAX_STR_DIGITS. lia. Qed.

End PyFacts.

Module FormFacts.

Import PyFacts.

Lemma digits_no_slash (s : string) :
  Str.all Chars.is_digit s = true -> Str.no_slash s = true.
Proof.
  apply StrFacts.all_impl. intros c Hc.
  now rewrite (CharFacts.digit_not_slash c Hc).
Qed.

Lemma split_full (mm dd yyyy : string) :
  Str.no_slash mm = true -> Str.no_slash dd = true -> Str.no_slash yyyy = true ->
  Py.split Chars.slash (mm ++ "/" ++ dd ++ "/" ++ yyyy) = [mm; dd; yyyy].
Proof.
  intros Hm Hd Hy. simpl.
  change (String "/" ?x) with (String Chars.slash x).
  rewrite (split_app mm _ Hm), (split_app dd _ Hd), (split_no_slash _ Hy).
  reflexivity.
Qed.

Lemma split_partial (mm yyyy : string) :
  Str.no_slash mm = true -> Str.no_slash yyyy = true ->
  Py.split Chars.slash (mm ++ "/" ++ yyyy) = [mm; yyyy].
Proof.
  intros Hm Hy. simpl.
  change (String "/" ?x) with (String Chars.slash x).
  rewrite (split_app mm _ Hm), (split_no_slash _ Hy). reflexivity.
Qed.

Lemma digits4_settled (y : string) : digits 4 y -> settled_year y.
Proof.
  intros [Hl Ha]. split; [exact Ha|]. split; [|split].
  - intros ->. discriminate Hl.
  - rewrite Hl. discriminate.
  - apply short_length. lia.
Qed.

Lemma year_3_4_settled (y : string) : year_3_4 y -> settled_year y.
Proof.
  intros [[Hl Ha] | [Hl Ha]]; (split; [exact Ha|]; split; [|split]);
    try (intros ->; discriminate Hl); try (rewrite Hl; discriminate);
    apply short_length; lia.
Qed.

Lemma form_impl (P Q : string -> Prop) (d : string) :
  (forall y, P y -> Q y) -> date_form P d -> date_form Q d.
Proof. intros HPQ [mm dd yyyy Hm Hd Hy | mm yyyy Hm Hy]; constructor; auto. Qed.

Lemma resolve_settled (century y : string) :
  String.length y <> 2 -> resolve_year century y = y.
Proof.
  intros H. unfold resolve_year.
  destruct (Nat.eqb_spec (String.length y) 2); [contradiction | reflexivity].
Qed.

Lemma truthy_digits2 (s : string) : digits 2 s -> Py.truthy s = true.
Proof. intros [Hl _]. destruct s; [discriminate Hl | reflexivity]. Qed.

(** A date string whose year is settled is its own normal form. *)
Lemma normalize_fixed (now : Z) (d : string) :
  date_form settled_year d -> normalize_expiry_date now d = Some d.
Proof.
  intros [mm dd yyyy [Lm Hm] [Ld Hd] (Hy & _ & Ly & _) | mm yyyy [Lm Hm] (Hy & _ & Ly & _)];
    unfold normalize_expiry_date.
  - rewrite split_full by auto using digits_no_slash.
    rewrite (resolve_settled _ _ Ly), (truthy_digits2 dd (conj Ld Hd)).
    rewrite !zfill_long by lia. reflexivity.
  - rewrite split_partial by auto using digits_no_slash.
    rewrite (resolve_settled _ _ Ly), zfill_long by lia. reflexivity.
Qed.



Lemma digits_nonempty (n : nat) (s : string) : digits (S n) s -> s <> "".
Proof. intros [Hl _] ->. discriminate Hl. Qed.

(** The sort key of a date string is defined. *)
Lemma date_key_defined (d : string) :
  date_form settled_year d -> exists k, date_key d = Ret k.
Proof.
  intros [mm dd yyyy Dm Dd (Hy & Ny & _ & By) | mm yyyy Dm (Hy & Ny & _ & By)];
    unfold date_key.
  - pose proof (digits_nonempty _ _ Dm) as Nm.
    pose proof (digits_nonempty _ _ Dd) as Nd.
    destruct Dm as [Lm Hm], Dd as [Ld Hd].
    rewrite split_full by auto using digits_no_slash. cbn [List.length Nat.eqb bind].
    destruct (int_digits_ok yyyy Hy Ny By) as [y ->].
    destruct (int_digits_ok mm Hm Nm ltac:(apply short_length; lia)) as [m ->].
    destruct (int_digits_ok dd Hd Nd ltac:(apply short_length; lia)) as [dv ->].
    cbn [bind]. eauto.
  - pose proof (digits_nonempty _ _ Dm) as Nm.
    destruct Dm as [Lm Hm].
    rewrite split_partial by auto using digits_no_slash. cbn [List.length Nat.eqb bind].
    destruct (int_digits_ok yyyy Hy Ny By) as [y ->].
    destruct (int_digits_ok mm Hm Nm ltac:(apply short_length; lia)) as [m ->].
    change (Py.int "01") with (Ret 1%Z : outcome Z).
    cbn [bind]. eauto.
Qed.

End FormFacts.

(* ================================================================== *)
(** * Century resolution and normalization *)

(** C6. Century Resolver: a year token of exactly two characters gets the
    first two digits of the current year in front, every other token is left
    as it is; so it is at both places of the module that resolve a year, the
    aggregator's loop body and [normalize_expiry_date]. *)
Theorem century_resolver_spec (now : Z) (tok : string) :
  let resolved := resolve_year (century_of now) tok in
  (String.length tok = 2 -> resolved = (Str.take 2 (Py.str now) ++ tok)%string)
  /\ (String.length tok <> 2 -> resolved = tok)
  /\ (forall m0 m1 cands,
         add_match (century_of now) cands [m0; m1; tok]
         = Py.set_add (m0 ++ "/" ++ m1 ++ "/" ++ resolved) cands)
  /\ (forall m0 cands,
         add_match (century_of now) cands [m0; tok]
         = Py.set_add (m0 ++ "/" ++ resolved) cands)
  /\ (forall mm, Str.no_slash mm = true -> Str.no_slash tok = true ->
         normalize_expiry_date now (mm ++ "/" ++ tok)
         = Some (Py.zfill 2 mm ++ "/" ++ resolved)%string).
Proof.
  intros resolved. subst resolved.
  split; [|split; [|split; [|split]]].
  - intros H. unfold resolve_year, century_of. now rewrite H.
  - apply FormFacts.resolve_settled.
  - reflexivity.
  - reflexivity.
  - intros mm Hm Ht. unfold normalize_expiry_date.
    now rewrite FormFacts.split_partial.
Qed.

Lemma century_resolver_spec_witness :
  resolve_year (century_of 2026) "99" = "2099"
  /\ resolve_year (century_of 2026) "2099" = "2099"
  /\ resolve_year (century_of 2026) "999" = "999"
  /\ normalize_expiry_date 2026 "7/99" = Some "07/2099".
Proof.
  destruct (century_resolver_spec 2026 "99") as (H2 & _ & _ & _ & Hn).
  destruct (century_resolver_spec 2026 "2099") as (_ & H4 & _).
  destruct (century_resolver_spec 2026 "999") as (_ & H3 & _).
  split; [|split; [|split]].
  - rewrite H2; reflexivity.
  - apply H4. discriminate.
  - apply H3. discriminate.
  - apply (Hn "7"); reflexivity.
Defined.

(** C9. Normalization is idempotent on its own outputs: a normalized date
    string (MM/DD/YYYY or MM/YYYY, four digits of year) is normalized to a
    string that is normalized to itself; and "7/4/2023" is normalized to
    "07/04/2023". *)
Theorem normalize_idempotent (now : Z) (d : string) :
  normalized_date d ->
  (exists d', normalize_expiry_date now d = Some d'
              /\ normalize_expiry_date now d' = Some d')
  /\ normalize_expiry_date now "7/4/2023" = Some "07/04/2023".
Proof.
  intros Hd. split; [|reflexivity].
  assert (Hfix : normalize_expiry_date now d = Some d).
  { apply FormFacts.normalize_fixed.
    apply (FormFacts.form_impl (digits 4)); [apply FormFacts.digits4_settled | exact Hd]. }
  exists d. split; exact Hfix.
Qed.

Lemma normalize_idempotent_witness :
  normalized_date "08/30/2028"
  /\ (exists d', normalize_expiry_date 2026 "08/30/2028" = Some d'
                 /\ normalize_expiry_date 2026 d' = Some d').
Proof.
  assert (H : normalized_date "08/30/2028").
  { apply (form_full (digits 4) "08" "30" "2028"); split; reflexivity. }
  split; [exact H|].
  exact (proj1 (normalize_idempotent 2026 "08/30/2028" H)).
Defined.

(* ================================================================== *)
(** * The candidate aggregator *)

Example same_line_priority :
  extract_expiry_dates insertion_order 2026
    ("seen 01/01/1999" ++ String "010" "EXP 08/30/2028")
  = Ret ["08/30/2028"].
Proof. vm_compute. reflexivity. Qed.

Example fallback_escalation :
  let text := ("Expires" ++ String "010" "07/04/2031" ++ String "010" "01/01/1999")%string in
  tier_same_line 2026 text = []
  /\ tier_next_line 2026 text = ["07/04/2031"; "07/2004"]
  /\ extract_expiry_dates insertion_order 2026 text = Ret ["07/04/2031"].
Proof. vm_compute. repeat split. Qed.

Example global_fallback :
  extract_expiry_dates insertion_order 2026 "renew by 03/2027" = Ret ["03/2027"].
Proof. vm_compute. reflexivity. Qed.

(* ================================================================== *)
(** * The clock *)

Lemma fold_left_ext {A B : Type} (f g : A -> B -> A) (l : list B) (a : A) :
  (forall x y, f x y = g x y) -> fold_left f l a = fold_left g l a.
Proof.
  intros H. revert a. induction l as [|b l IH]; intros a; simpl; [reflexivity|].
  now rewrite H, IH.
Qed.

Lemma normalize_reads_century (now1 now2 : Z) (d : string) :
  century_of now1 = century_of now2 ->
  normalize_expiry_date now1 d = normalize_expiry_date now2 d.
Proof. intros H. unfold normalize_expiry_date. now rewrite H. Qed.

(** C5, as the claim has it, fails: the result follows the clock.  The same
    text gives one date when the clock shows 2026 and another when it shows
    2100. *)
Lemma extraction_follows_the_clock :
  ~ (forall (now1 now2 : Z) (text : string),
        extract_expiry_dates insertion_order now1 text
        = extract_expiry_dates insertion_order now2 text).
Proof.
  intros H. specialize (H 2026%Z 2100%Z "EXP 07/99").
  vm_compute in H. discriminate H.
Qed.

(** C5, amended. The clock is read, and only for the first two digits of the
    year: two runs on the same text whose clocks agree on these digits (and
    whose sets are iterated in the same order) return the same result. *)
Theorem extraction_reads_only_the_century
        (set_order : list string -> list string) (now1 now2 : Z) (text : string) :
  century_of now1 = century_of now2 ->
  extract_expiry_dates set_order now1 text = extract_expiry_dates set_order now2 text.
Proof.
  intros H. unfold extract_expiry_dates.
  assert (Hc : collect_candidates now1 text = collect_candidates now2 text).
  { unfold collect_candidates. now rewrite H. }
  rewrite Hc. f_equal. f_equal. unfold normalize_all.
  apply fold_left_ext. intros acc c.
  now rewrite (normalize_reads_century now1 now2 c H).
Qed.

Lemma extraction_reads_only_the_century_witness :
  extract_expiry_dates insertion_order 2026 "EXP 07/99"
  = extract_expiry_dates insertion_order 2099 "EXP 07/99".
Proof.
  apply (extraction_reads_only_the_century insertion_order 2026 2099 "EXP 07/99").
  reflexivity.
Defined.

(* ================================================================== *)
(** * The reminder link *)

(** C4, on the code. The reminder is thirty days before the expiry date, and
    the link carries action, text, dates and details; but the range of
    [dates] ends on the day it starts: one hour after midnight is the same
    day.  For "08/30/2028" the link has dates=20280731/20280731. *)
Theorem reminder_link_ends_on_its_first_day :
  create_google_calendar_link "08/30/2028"
  = Ret (Some ("https://calendar.google.com/calendar/render?action=TEMPLATE"
               ++ "&text=Document%20Expiry%20Reminder"
               ++ "&dates=20280731/20280731"
               ++ "&details=Your%20document%20expires%20on%2008/30/2028.%20Renew%20soon%21")%string).
Proof. vm_compute. reflexivity. Qed.

(** C7, on the code. A date of January of year 1 is parsed, and the
    subtraction of thirty days, which stands after the [try], raises
    [OverflowError]; the extraction can return such a date.  A string that
    parses under neither format gives no link. *)
Theorem reminder_link_raises_in_year_one :
  extract_expiry_dates insertion_order 2026 "01/0001" = Ret ["01/0001"]
  /\ create_google_calendar_link "01/0001" = Raise OverflowError
  /\ create_google_calendar_link "01/15/0001" = Raise OverflowError
  /\ create_google_calendar_link "13/2028" = Ret None.
Proof. vm_compute. repeat split. Qed.

(* ================================================================== *)
(** * The candidate ranker *)

Module SortFacts.

Lemma insert_perm (x : Z * string) (l : list (Z * string)) :
  Permutation (insert_desc x l) (x :: l).
Proof.
  induction l as [|y l IH]; simpl; [reflexivity|].
  destruct (fst x <? fst y)%Z; [|reflexivity].
  rewrite IH. apply perm_swap.
Qed.

Lemma isort_perm (l : list (Z * string)) :
  Permutation (fold_right insert_desc [] l) l.
Proof.
  induction l as [|x l IH]; simpl; [reflexivity|].
  rewrite insert_perm. now constructor.
Qed.

Lemma insert_sorted (x : Z * string) (l : list (Z * string)) :
  StronglySorted desc l -> StronglySorted desc (insert_desc x l).
Proof.
  induction 1 as [|y l Hs IH Hy]; simpl.
  - constructor; constructor.
  - destruct (Z.ltb_spec (fst x) (fst y)) as [Hlt | Hge].
    + constructor; [exact IH|].
      apply (Permutation_Forall (Permutation_sym (insert_perm x l))).
      constructor; [unfold desc; lia | exact Hy].
    + constructor; [constructor; assumption|].
      constructor; [exact Hge|].
      eapply Forall_impl; [|exact Hy]. unfold desc. intros z Hz. lia.
Qed.

Lemma isort_sorted (l : list (Z * string)) :
  StronglySorted desc (fold_right insert_desc [] l).
Proof.
  induction l as [|x l IH]; simpl; [constructor | now apply insert_sorted].
Qed.

(** The first entry of a descending list that passes a test has the greatest
    key of the entries that pass it. *)
Lemma find_first_greatest (q : Z * string -> bool) (l : list (Z * string))
      (p : Z * string) :
  StronglySorted desc l -> find q l = Some p ->
  In p l /\ q p = true /\ forall p', In p' l -> q p' = true -> (fst p' <= fst p)%Z.
Proof.
  induction 1 as [|y l Hs IH Hy]; simpl; [discriminate|].
  destruct (q y) eqn:Qy.
  - intros [= <-]. repeat split; auto.
    intros p' [<- | Hin] _; [lia|].
    rewrite Forall_forall in Hy. exact (Hy p' Hin).
  - intros Hf. destruct (IH Hf) as (Hin & Qp & Hmax).
    repeat split; auto.
    intros p' [<- | Hin'] Qp'; [congruence | auto].
Qed.

Lemma find_map_snd (q : string -> bool) (l : list (Z * string)) :
  find q (map snd l) = option_map snd (find (fun p => q (snd p)) l).
Proof.
  induction l as [|y l IH]; simpl; [reflexivity|].
  destruct (q (snd y)); [reflexivity | exact IH].
Qed.

Lemma mapM_defined {A B : Type} (f : A -> outcome B) (l : list A) :
  (forall x, In x l -> exists y, f x = Ret y) -> exists ys, mapM f l = Ret ys.
Proof.
  induction l as [|x l IH]; intros H; simpl; [eauto|].
  destruct (H x (or_introl eq_refl)) as [y ->].
  destruct IH as [ys ->]; [intros z Hz; apply H; now right|].
  simpl. eauto.
Qed.

Lemma mapM_combine {A B : Type} (f : A -> outcome B) (l : list A) (ys : list B) :
  mapM f l = Ret ys ->
  map snd (combine ys l) = l
  /\ forall y x, In (y, x) (combine ys l) -> f x = Ret y.
Proof.
  revert ys. induction l as [|x l IH]; intros ys; simpl.
  - intros [= <-]. split; [reflexivity | intros ? ? []].
  - destruct (f x) as [y|e] eqn:Fx; simpl; [|discriminate].
    destruct (mapM f l) as [ys'|e]; simpl; [|discriminate].
    intros [= <-]. destruct (IH ys' eq_refl) as [Hm Hk]. simpl.
    split; [now rewrite Hm|].
    intros y' x' [[= <- <-] | Hin]; [exact Fx | now apply Hk].
Qed.

End SortFacts.

Section Ranker.

Import SortFacts.

Variable l : list string.
Hypothesis keys_defined : forall d, In d l -> exists k, date_key d = Ret k.
Hypothesis not_empty : l <> [].

(** The choice of lines 113-127 on a set whose sort keys are defined. *)
Lemma pick_latest_spec :
  exists d k,
    pick_latest l = Ret [d] /\ In d l /\ date_key d = Ret k
    /\ ((exists f, In f l /\ is_full f = true) ->
        is_full d = true
        /\ forall d' k', In d' l -> is_full d' = true ->
                         date_key d' = Ret k' -> (k' <= k)%Z)
    /\ ((forall f, In f l -> is_full f = false) ->
        forall d' k', In d' l -> date_key d' = Ret k' -> (k' <= k)%Z).
Proof.
  unfold pick_latest, sorted_desc.
  assert (Hne : is_empty l = false) by (destruct l; [contradiction | reflexivity]).
  assert (Hx : exists x0, In x0 l) by (destruct l; [contradiction | eexists; now left]).
  destruct Hx as [x0 Hx]. rewrite Hne.
  destruct (mapM_defined date_key l keys_defined) as [keys Hkeys].
  rewrite Hkeys. simpl bind.
  destruct (mapM_combine date_key l keys Hkeys) as [Hsnd Hkey].
  set (pairs0 := combine keys l) in *.
  set (pairs := fold_right insert_desc [] pairs0).
  assert (Hperm : Permutation pairs pairs0) by apply isort_perm.
  assert (Hsorted : StronglySorted desc pairs) by apply isort_sorted.
  assert (Hin_l : forall k d, In (k, d) pairs -> In d l /\ date_key d = Ret k).
  { intros k d Hin. apply (Permutation_in _ Hperm) in Hin. split; [|auto].
    rewrite <- Hsnd. apply (in_map snd) in Hin. exact Hin. }
  assert (Hin_pairs : forall d k, In d l -> date_key d = Ret k -> In (k, d) pairs).
  { intros d k Hin Hk. rewrite <- Hsnd in Hin. apply in_map_iff in Hin.
    destruct Hin as [[k' d'] [Heq Hin]]. simpl in Heq. subst d'.
    pose proof (Hkey _ _ Hin) as Hk'. rewrite Hk in Hk'. injection Hk' as ->.
    apply (Permutation_in _ (Permutation_sym Hperm)). exact Hin. }
  rewrite find_map_snd.
  destruct (find (fun p => is_full (snd p)) pairs) as [[k d]|] eqn:Hfind; simpl.
  - destruct (find_first_greatest _ _ _ Hsorted Hfind) as (Hin & Hfull & Hmax).
    simpl in Hfull. destruct (Hin_l k d Hin) as [Hdl Hdk].
    exists d, k. split; [reflexivity|]. split; [exact Hdl|]. split; [exact Hdk|].
    split.
    + intros _. split; [exact Hfull|].
      intros d' k' Hd' Hf' Hk'.
      exact (Hmax (k', d') (Hin_pairs d' k' Hd' Hk') Hf').
    + intros Hnone. rewrite (Hnone d Hdl) in Hfull. discriminate.
  - assert (Hnofull : forall d, In d l -> is_full d = false).
    { intros d Hd. destruct (keys_defined d Hd) as [k Hk].
      exact (find_none _ _ Hfind (k, d) (Hin_pairs d k Hd Hk)). }
    destruct pairs as [|[k d] rest] eqn:Ep.
    { destruct (keys_defined x0 Hx) as [k0 Hk0].
      destruct (Hin_pairs x0 k0 Hx Hk0). }
    simpl. destruct (Hin_l k d (or_introl eq_refl)) as [Hdl Hdk].
    exists d, k. split; [reflexivity|]. split; [exact Hdl|]. split; [exact Hdk|].
    split.
    + intros (f & Hf & Hfull). rewrite (Hnofull f Hf) in Hfull. discriminate.
    + intros _ d' k' Hd' Hk'.
      destruct (Hin_pairs d' k' Hd' Hk') as [[= <- <-] | Hrest]; [lia|].
      apply StronglySorted_inv in Hsorted as [_ Hall].
      rewrite Forall_forall in Hall. exact (Hall (k', d') Hrest).
Qed.

End Ranker.

Lemma normalized_key_defined (l : list string) :
  Forall normalized_date l -> forall d, In d l -> exists k, date_key d = Ret k.
Proof.
  intros Hall d Hd. rewrite Forall_forall in Hall.
  apply FormFacts.date_key_defined.
  apply (FormFacts.form_impl (digits 4)); [apply FormFacts.digits4_settled|].
  exact (Hall d Hd).
Qed.

(** C1. On a non-empty set of normalized dates the ranker returns one date
    of the set.  If the set has a full date, the date returned is full and no
    full date of the set has a greater sort key: it is the first full date in
    descending order.  If the set has no full date, no date of the set has a
    greater key: it is the latest partial date.  The key is
    year*10000 + month*100 + day, the day being 1 for a partial date; and of
    {"12/2030", "01/15/2025"} the ranker returns "01/15/2025", in whichever
    order the set is iterated. *)
Theorem ranker_prefers_full_dates (normalized : list string) :
  normalized <> [] -> Forall normalized_date normalized ->
  (exists d k,
      pick_latest normalized = Ret [d] /\ In d normalized /\ date_key d = Ret k
      /\ ((exists f, In f normalized /\ is_full f = true) ->
          is_full d = true
          /\ forall d' k', In d' normalized -> is_full d' = true ->
                           date_key d' = Ret k' -> (k' <= k)%Z)
      /\ ((forall f, In f normalized -> is_full f = false) ->
          forall d' k', In d' normalized -> date_key d' = Ret k' -> (k' <= k)%Z))
  /\ (forall set_order now text,
         extract_expiry_dates set_order now text
         = pick_latest (set_order (normalize_all set_order now
                                                 (collect_candidates now text))))
  /\ date_key "12/2030" = Ret 20301201%Z
  /\ date_key "01/15/2025" = Ret 20250115%Z
  /\ pick_latest ["12/2030"; "01/15/2025"] = Ret ["01/15/2025"]
  /\ pick_latest ["01/15/2025"; "12/2030"] = Ret ["01/15/2025"].
Proof.
  intros Hne Hall. split.
  - exact (pick_latest_spec normalized (normalized_key_defined normalized Hall) Hne).
  - repeat split.
Qed.

Lemma ranker_prefers_full_dates_witness :
  exists d k,
    pick_latest ["12/2030"; "01/15/2025"; "03/01/2024"] = Ret [d]
    /\ In d ["12/2030"; "01/15/2025"; "03/01/2024"]
    /\ date_key d = Ret k.
Proof.
  assert (Hall : Forall normalized_date ["12/2030"; "01/15/2025"; "03/01/2024"]).
  { repeat constructor.
    - apply (form_partial (digits 4) "12" "2030"); split; reflexivity.
    - apply (form_full (digits 4) "01" "15" "2025"); split; reflexivity.
    - apply (form_full (digits 4) "03" "01" "2024"); split; reflexivity. }
  destruct (ranker_prefers_full_dates ["12/2030"; "01/15/2025"; "03/01/2024"])
    as [(d & k & Hp & Hin & Hk & _) _]; [discriminate | exact Hall |].
  exists d, k. auto.
Defined.

(* ================================================================== *)
(** * Facts about matching *)

Module ReFacts.

Lemma star_inv p (s rest : string) :
  In rest (Re.star p s) -> exists w, s = (w ++ rest)%string /\ Str.all p w = true.
Proof.
  induction s as [|c s IH]; simpl.
  - intros [<- | []]. now exists "".
  - destruct (p c) eqn:Pc.
    + rewrite in_app_iff. intros [H | [<- | []]].
      * destruct (IH H) as (w & -> & Hw). exists (String c w). simpl. now rewrite Pc.
      * now exists "".
    + intros [<- | []]. now exists "".
Qed.

Lemma rep_inv p (lo hi : nat) (s rest : string) :
  In rest (Re.rep p lo hi s) ->
  exists w, s = (w ++ rest)%string /\ Str.all p w = true
            /\ lo <= String.length w <= hi.
Proof.
  assert (Hstop : forall lo hi s,
             In rest (match lo with O => [s] | S _ => [] end) ->
             exists w, s = (w ++ rest)%string /\ Str.all p w = true
                       /\ lo <= String.length w <= hi).
  { intros [|lo'] hi' s' H; [|destruct H].
    destruct H as [<- | []]. exists "". simpl. repeat split; lia. }
  revert lo s. induction hi as [|hi IH]; intros lo s; simpl.
  - apply Hstop.
  - destruct s as [|c s]; [apply Hstop|].
    destruct (p c) eqn:Pc; [|apply Hstop].
    rewrite in_app_iff. intros [H | H]; [|now apply Hstop].
    destruct (IH _ _ H) as (w & -> & Hw & Hl).
    exists (String c w). simpl. rewrite Pc. repeat split; auto; lia.
Qed.

(** What is left after a match is a suffix of the input. *)
Lemma run_suffix (r : Re.regex) (s rest : string) (g : list string) :
  In (g, rest) (Re.run r s) -> exists w, s = (w ++ rest)%string.
Proof.
  revert s rest g.
  induction r as [|p|r1 IH1 r2 IH2|r1 IH1 r2 IH2|r IH|p|p lo hi|r IH];
    intros s rest g; simpl.
  - intros [[= <- <-] | []]. now exists "".
  - destruct s as [|c s]; [intros []|].
    destruct (p c); [|intros []].
    intros [[= <- <-] | []]. now exists (String c "").
  - rewrite in_flat_map. intros ([g1 mid] & H1 & H2).
    rewrite in_map_iff in H2. destruct H2 as ([g2 rest'] & Heq & H2).
    simpl in Heq, H2. injection Heq as <- <-.
    destruct (IH1 _ _ _ H1) as [w1 ->]. destruct (IH2 _ _ _ H2) as [w2 ->].
    exists (w1 ++ w2)%string. now rewrite StrFacts.app_assoc.
  - rewrite in_app_iff. intros [H | H]; eauto.
  - rewrite in_app_iff. intros [H | [[= <- <-] | []]]; eauto. now exists "".
  - rewrite in_map_iff. intros (rest' & [= <- <-] & H).
    destruct (star_inv _ _ _ H) as (w & -> & _). eauto.
  - rewrite in_map_iff. intros (rest' & [= <- <-] & H).
    destruct (rep_inv _ _ _ _ _ H) as (w & -> & _). eauto.
  - rewrite in_map_iff. intros ([g' rest'] & Heq & H).
    simpl in Heq. injection Heq as <- <-. eauto.
Qed.

Lemma consumed_app (w rest : string) : Re.consumed (w ++ rest) rest = w.
Proof.
  unfold Re.consumed. rewrite StrFacts.length_app.
  replace (String.length w + String.length rest - String.length rest)
    with (String.length w) by lia.
  apply StrFacts.take_app.
Qed.

Lemma drop_app (w rest : string) : drop (String.length w) (w ++ rest) = rest.
Proof. induction w as [|c w IH]; simpl; [now destruct rest | exact IH]. Qed.

Lemma match_at_In (r : Re.regex) (s rest : string) (g : list string) :
  Re.match_at r s = Some (g, rest) -> In (g, rest) (Re.run r s).
Proof.
  unfold Re.match_at. destruct (Re.run r s) as [|m ms]; simpl; [discriminate|].
  intros [= ->]. now left.
Qed.

(** The match found at the start of [s] ends where what is left begins. *)
Lemma match_at_drop (r : Re.regex) (s rest : string) (g : list string) :
  Re.match_at r s = Some (g, rest) ->
  String.length rest <= String.length s
  /\ drop (String.length s - String.length rest) s = rest.
Proof.
  intros H. apply match_at_In in H. destruct (run_suffix _ _ _ _ H) as [w ->].
  rewrite StrFacts.length_app. split; [lia|].
  replace (String.length w + String.length rest - String.length rest)
    with (String.length w) by lia.
  apply drop_app.
Qed.

(** *** Inversion of a match, construct by construct *)

Lemma run_cls p (s rest : string) (g : list string) :
  In (g, rest) (Re.run (Re.Cls p) s) ->
  g = [] /\ exists c, s = String c rest /\ p c = true.
Proof.
  simpl. destruct s as [|c s]; [intros []|].
  destruct (p c) eqn:Pc; [|intros []].
  intros [[= <- <-] | []]. eauto.
Qed.

Lemma run_seq (r1 r2 : Re.regex) (s rest : string) (g : list string) :
  In (g, rest) (Re.run (Re.Seq r1 r2) s) ->
  exists g1 mid g2,
    In (g1, mid) (Re.run r1 s) /\ In (g2, rest) (Re.run r2 mid) /\ g = g1 ++ g2.
Proof.
  simpl. rewrite in_flat_map. intros ([g1 mid] & H1 & H2).
  rewrite in_map_iff in H2. destruct H2 as ([g2 rest'] & Heq & H2).
  simpl in Heq, H2. injection Heq as <- <-.
  exists g1, mid, g2. auto.
Qed.

Lemma run_alt (r1 r2 : Re.regex) (s rest : string) (g : list string) :
  In (g, rest) (Re.run (Re.Alt r1 r2) s) ->
  In (g, rest) (Re.run r1 s) \/ In (g, rest) (Re.run r2 s).
Proof. simpl. now rewrite in_app_iff. Qed.

Lemma run_grp (r : Re.regex) (s rest : string) (g : list string) :
  In (g, rest) (Re.run (Re.Grp r) s) ->
  exists g', In (g', rest) (Re.run r s) /\ g = Re.consumed s rest :: g'.
Proof.
  simpl. rewrite in_map_iff. intros ([g' rest'] & Heq & H).
  simpl in Heq. injection Heq as <- <-. eauto.
Qed.

Lemma run_rep p (lo hi : nat) (s rest : string) (g : list string) :
  In (g, rest) (Re.run (Re.Rep p lo hi) s) ->
  g = [] /\ exists w, s = (w ++ rest)%string /\ Str.all p w = true
                      /\ lo <= String.length w <= hi.
Proof.
  simpl. rewrite in_map_iff. intros (rest' & [= <- <-] & H).
  split; [reflexivity | exact (rep_inv _ _ _ _ _ H)].
Qed.

End ReFacts.

(** ** What the two date patterns match *)

Module PatternFacts.

Import ReFacts.

(** Two characters, each of a class of digits. *)
Lemma run_two_digits p1 p2 (s rest : string) (g : list string) :
  (forall c, p1 c = true -> Chars.is_digit c = true) ->
  (forall c, p2 c = true -> Chars.is_digit c = true) ->
  In (g, rest) (Re.run (Re.Seq (Re.Cls p1) (Re.Cls p2)) s) ->
  g = [] /\ exists w, s = (w ++ rest)%string /\ digits 2 w.
Proof.
  intros H1 H2 H. apply run_seq in H. destruct H as (g1 & mid & g2 & Ha & Hb & ->).
  apply run_cls in Ha. destruct Ha as (-> & c1 & -> & P1).
  apply run_cls in Hb. destruct Hb as (-> & c2 & -> & P2).
  split; [reflexivity|]. exists (String c1 (String c2 "")).
  split; [reflexivity|]. split; [reflexivity|].
  simpl. now rewrite (H1 _ P1), (H2 _ P2).
Qed.

Ltac digit_class :=
  intros ? ?;
  first [ eapply CharFacts.eqb_digit; [|eassumption]; reflexivity
        | eapply CharFacts.range_digit; [| |eassumption]; reflexivity ].

Lemma month_inv (s rest : string) (g : list string) :
  In (g, rest) (Re.run month_re s) ->
  exists mm, s = (mm ++ rest)%string /\ g = [mm] /\ digits 2 mm.
Proof.
  unfold month_re. intros H. apply run_grp in H. destruct H as (g' & H & ->).
  apply run_alt in H.
  destruct H as [H | H];
    apply run_two_digits in H; try digit_class;
    destruct H as (-> & w & -> & Hw); exists w; rewrite consumed_app; auto.
Qed.

Lemma day_inv (s rest : string) (g : list string) :
  In (g, rest) (Re.run day_re s) ->
  exists dd, s = (dd ++ rest)%string /\ g = [dd] /\ digits 2 dd.
Proof.
  unfold day_re. intros H. apply run_grp in H. destruct H as (g' & H & ->).
  simpl Re.alts in H. apply run_alt in H.
  destruct H as [H | H]; [|apply run_alt in H; destruct H as [H | H]];
    apply run_two_digits in H; try digit_class;
    destruct H as (-> & w & -> & Hw); exists w; rewrite consumed_app; auto.
Qed.

Lemma year_inv (s rest : string) (g : list string) :
  In (g, rest) (Re.run year_re s) ->
  exists yy, s = (yy ++ rest)%string /\ g = [yy]
             /\ Str.all Chars.is_digit yy = true
             /\ 2 <= String.length yy <= 4.
Proof.
  unfold year_re. intros H. apply run_grp in H. destruct H as (g' & H & ->).
  apply run_rep in H. destruct H as (-> & w & -> & Hw & Hl).
  exists w. rewrite consumed_app. auto.
Qed.

Lemma sep_inv (s rest : string) (g : list string) :
  In (g, rest) (Re.run sep s) -> g = [] /\ exists c, s = String c rest.
Proof.
  unfold sep. intros H. apply run_cls in H. destruct H as (-> & c & -> & _). eauto.
Qed.

(** A match of the full-date pattern: three groups, two digits of month, two
    of day, two to four of year. *)
Lemma full_date_inv (s rest : string) (g : list string) :
  In (g, rest) (Re.run full_date_re s) ->
  exists mm dd yy,
    g = [mm; dd; yy] /\ digits 2 mm /\ digits 2 dd
    /\ Str.all Chars.is_digit yy = true /\ 2 <= String.length yy <= 4
    /\ String.length rest < String.length s.
Proof.
  unfold full_date_re. simpl Re.seqs. intros H.
  apply run_seq in H. destruct H as (g1 & s1 & g1' & Hm & H & ->).
  apply run_seq in H. destruct H as (g2 & s2 & g2' & Hs1 & H & ->).
  apply run_seq in H. destruct H as (g3 & s3 & g3' & Hd & H & ->).
  apply run_seq in H. destruct H as (g4 & s4 & g4' & Hs2 & Hy & ->).
  apply month_inv in Hm. destruct Hm as (mm & -> & -> & Dm).
  apply sep_inv in Hs1. destruct Hs1 as (-> & c1 & ->).
  apply day_inv in Hd. destruct Hd as (dd & -> & -> & Dd).
  apply sep_inv in Hs2. destruct Hs2 as (-> & c2 & ->).
  apply year_inv in Hy. destruct Hy as (yy & -> & -> & Hy & Ly).
  exists mm, dd, yy.
  split; [reflexivity|]. split; [exact Dm|]. split; [exact Dd|].
  split; [exact Hy|]. split; [exact Ly|].
  rewrite ?StrFacts.length_app; simpl; rewrite ?StrFacts.length_app; simpl;
    rewrite ?StrFacts.length_app; lia.
Qed.

(** A match of the partial pattern: two groups, two digits of month, two to
    four of year. *)
Lemma partial_date_inv (s rest : string) (g : list string) :
  In (g, rest) (Re.run partial_date_re s) ->
  exists mm yy,
    g = [mm; yy] /\ digits 2 mm
    /\ Str.all Chars.is_digit yy = true /\ 2 <= String.length yy <= 4
    /\ String.length rest < String.length s.
Proof.
  unfold partial_date_re. simpl Re.seqs. intros H.
  apply run_seq in H. destruct H as (g1 & s1 & g1' & Hm & H & ->).
  apply run_seq in H. destruct H as (g2 & s2 & g2' & Hs1 & Hy & ->).
  apply month_inv in Hm. destruct Hm as (mm & -> & -> & Dm).
  apply sep_inv in Hs1. destruct Hs1 as (-> & c1 & ->).
  apply year_inv in Hy. destruct Hy as (yy & -> & -> & Hy & Ly).
  exists mm, yy.
  split; [reflexivity|]. split; [exact Dm|]. split; [exact Hy|]. split; [exact Ly|].
  rewrite ?StrFacts.length_app; simpl; rewrite ?StrFacts.length_app; lia.
Qed.

End PatternFacts.

(** ** The scan *)

Module ScanFacts.

Import ReFacts.

Lemma drop_nil (n : nat) : drop n "" = "".
Proof. now destruct n. Qed.

Lemma length_drop (n : nat) (s : string) :
  String.length (drop n s) = String.length s - n.
Proof.
  revert n. induction s as [|c s IH]; intros [|n]; simpl; auto.
Qed.

Lemma match_in_shift (r : Re.regex) (c : ascii) (s : string) (pos lo lo' : nat)
      (m : Re.rmatch) :
  lo' <= S lo -> match_in r s (S pos) lo m -> match_in r (String c s) pos lo' m.
Proof.
  intros Hlo (H1 & H2 & H3 & H4). unfold match_in. simpl String.length.
  split; [lia|]. split; [lia|]. split; [lia|].
  replace (Re.m_start m - pos) with (S (Re.m_start m - S pos)) by lia.
  replace (Re.m_end m - pos) with (S (Re.m_end m - S pos)) by lia.
  exact H4.
Qed.

Lemma match_in_head (r : Re.regex) (s rest : string) (g : list string) (pos : nat) :
  Re.match_at r s = Some (g, rest) ->
  match_in r s pos 0
           {| Re.m_start := pos;
              Re.m_end := pos + (String.length s - String.length rest);
              Re.m_groups := g |}.
Proof.
  intros H. destruct (match_at_drop _ _ _ _ H) as [Hl Hd].
  unfold match_in. simpl.
  split; [lia|]. split; [lia|]. split; [lia|].
  replace (pos - pos) with 0 by lia.
  replace (pos + (String.length s - String.length rest) - pos)
    with (String.length s - String.length rest) by lia.
  rewrite Hd. destruct s; exact H.
Qed.

(** Every match the scan produces is a match of the pattern in the text,
    and each ends before the next starts. *)
Lemma finditer_from_spec (r : Re.regex) (s : string) (pos skip : nat) :
  Forall (match_in r s pos skip) (Re.finditer_from r s pos skip)
  /\ StronglySorted precedes (Re.finditer_from r s pos skip).
Proof.
  revert pos skip. induction s as [|c s IH]; intros pos skip.
  - destruct skip as [|k]; simpl; [|split; constructor].
    destruct (Re.match_at r "") as [[g rest]|] eqn:Hm; [|split; constructor].
    split; [|repeat constructor].
    constructor; [|constructor].
    exact (match_in_head r "" rest g pos Hm).
  - destruct skip as [|k]; simpl.
    + destruct (Re.match_at r (String c s)) as [[g rest]|] eqn:Hm.
      * destruct (IH (S pos) (pred (String.length (String c s) - String.length rest)))
          as [Hall Hsort].
        pose proof (match_in_head r _ rest g pos Hm) as Hhead.
        split.
        -- constructor; [exact Hhead|].
           eapply Forall_impl; [|exact Hall].
           intros m. apply match_in_shift. lia.
        -- constructor; [exact Hsort|].
           eapply Forall_impl; [|exact Hall].
           intros m (H1 & _). unfold precedes. simpl in *. lia.
      * destruct (IH (S pos) 0) as [Hall Hsort]. split; [|exact Hsort].
        eapply Forall_impl; [|exact Hall]. intros m. apply match_in_shift. lia.
    + destruct (IH (S pos) k) as [Hall Hsort]. split; [|exact Hsort].
      eapply Forall_impl; [|exact Hall]. intros m. apply match_in_shift. lia.
Qed.

(** Wherever the pattern matches, the scan has produced a match that starts
    there or covers the place. *)
Lemma finditer_from_complete (r : Re.regex) (s : string) (pos skip q : nat) :
  skip <= q <= String.length s ->
  Re.match_at r (drop q s) <> None ->
  exists m, In m (Re.finditer_from r s pos skip)
            /\ Re.m_start m <= pos + q
            /\ (pos + q = Re.m_start m \/ pos + q < Re.m_end m).
Proof.
  revert pos skip q. induction s as [|c s IH]; intros pos skip q Hq Hm.
  - simpl in Hq. assert (q = 0) by lia. assert (skip = 0) by lia. subst. simpl in *.
    destruct (Re.match_at r "") as [[g rest]|]; [|contradiction].
    eexists. split; [now left|]. simpl. lia.
  - destruct skip as [|k]; cbn [Re.finditer_from].
    + destruct (Re.match_at r (String c s)) as [[g rest]|] eqn:Hhead.
      * set (n := String.length (String c s) - String.length rest).
        destruct (Nat.eq_dec q 0) as [-> | Hq0];
          [eexists; split; [now left|]; cbn [Re.m_start Re.m_end]; lia|].
        destruct (Nat.lt_ge_cases q n) as [Hlt | Hge];
          [eexists; split; [now left|]; cbn [Re.m_start Re.m_end]; lia|].
        destruct q as [|q']; [contradiction|]. simpl in Hq, Hm.
        destruct (IH (S pos) (pred n) q') as (m & Hin & H1 & H2); [lia | exact Hm|].
        exists m. split; [now right|]. lia.
      * destruct q as [|q']; [simpl in Hm; contradiction|]. simpl in Hq, Hm.
        destruct (IH (S pos) 0 q') as (m & Hin & H1 & H2); [lia | exact Hm|].
        exists m. split; [exact Hin|]. lia.
    + destruct q as [|q']; [lia|]. simpl in Hq, Hm.
      destruct (IH (S pos) k q') as (m & Hin & H1 & H2); [lia | exact Hm|].
      exists m. split; [exact Hin|]. lia.
Qed.

(** The groups [findall] returns are the groups of a match somewhere. *)
Lemma findall_inv (r : Re.regex) (s : string) (g : list string) :
  In g (Re.findall r s) -> exists suffix rest, In (g, rest) (Re.run r suffix).
Proof.
  unfold Re.findall, Re.finditer. rewrite in_map_iff. intros (m & <- & Hin).
  destruct (finditer_from_spec r s 0 0) as [Hall _].
  rewrite Forall_forall in Hall. destruct (Hall m Hin) as (_ & _ & _ & Hm).
  apply match_at_In in Hm. eauto.
Qed.

End ScanFacts.

(* ================================================================== *)
(** * The date pattern matcher *)

Lemma date_pattern_nonempty (pattern : Re.regex) (s rest : string) (g : list string) :
  In pattern date_patterns -> In (g, rest) (Re.run pattern s) ->
  String.length rest < String.length s.
Proof.
  intros [<- | [<- | []]] H.
  - apply PatternFacts.full_date_inv in H.
    destruct H as (mm & dd & yy & _ & _ & _ & _ & _ & Hl). exact Hl.
  - apply PatternFacts.partial_date_inv in H.
    destruct H as (mm & yy & _ & _ & _ & _ & Hl). exact Hl.
Qed.

Lemma sorted_pairs {A : Type} (R Q : A -> A -> Prop) (l : list A) :
  (forall a b, R a b -> Q a b) -> StronglySorted R l -> ForallOrdPairs Q l.
Proof.
  intros HRQ. induction 1 as [|a l Hs IH Ha]; constructor; auto.
  eapply Forall_impl; [|exact Ha]. auto.
Qed.

(** C8, as the claim has it, fails: the matcher runs the two patterns one
    after the other over the same span, and in "08/30/2028" the partial
    pattern matches "08/30", inside the match of the full-date pattern. *)
Lemma matches_of_the_two_patterns_overlap :
  ~ (forall (span : string) (a b : Re.rmatch),
        In a (date_matches span) -> In b (date_matches span) -> a <> b ->
        ~ overlap a b).
Proof.
  intros H.
  apply (H "08/30/2028"
           {| Re.m_start := 0; Re.m_end := 10; Re.m_groups := ["08"; "30"; "2028"] |}
           {| Re.m_start := 0; Re.m_end := 5; Re.m_groups := ["08"; "30"] |}).
  - vm_compute. now left.
  - vm_compute. right. now left.
  - discriminate.
  - unfold overlap. simpl. lia.
Qed.

(** C8, amended. For each of the two patterns, taken alone, the matcher
    produces the matches of that pattern in the span from left to right: each
    is a non-empty match of the pattern, found where it starts; each ends
    before the next starts, so no two of them overlap; and wherever the
    pattern matches in the span, a produced match starts there or covers the
    place.  (Matches of the two patterns may overlap each other.) *)
Theorem matches_of_one_pattern_are_disjoint (pattern : Re.regex) (span : string) :
  In pattern date_patterns ->
  let ms := Re.finditer pattern span in
  Forall (fun m =>
            Re.m_start m < Re.m_end m <= String.length span
            /\ Re.match_at pattern (drop (Re.m_start m) span)
               = Some (Re.m_groups m, drop (Re.m_end m) span)) ms
  /\ StronglySorted precedes ms
  /\ ForallOrdPairs (fun a b => ~ overlap a b) ms
  /\ (forall q, q <= String.length span ->
                Re.match_at pattern (drop q span) <> None ->
                exists m, In m ms /\ Re.m_start m <= q < Re.m_end m).
Proof.
  intros Hp ms. subst ms. unfold Re.finditer.
  destruct (ScanFacts.finditer_from_spec pattern span 0 0) as [Hall Hsort].
  assert (Hall' : Forall (fun m =>
            Re.m_start m < Re.m_end m <= String.length span
            /\ Re.match_at pattern (drop (Re.m_start m) span)
               = Some (Re.m_groups m, drop (Re.m_end m) span))
                         (Re.finditer_from pattern span 0 0)).
  { eapply Forall_impl; [|exact Hall].
    intros m (_ & H2 & H3 & H4). rewrite !Nat.sub_0_r in H4. simpl in H3.
    split; [|exact H4].
    pose proof (date_pattern_nonempty _ _ _ _ Hp (ReFacts.match_at_In _ _ _ _ H4)) as Hl.
    rewrite !ScanFacts.length_drop in Hl. lia. }
  split; [exact Hall'|]. split; [exact Hsort|]. split.
  - apply (sorted_pairs precedes); [|exact Hsort].
    unfold precedes, overlap. intros a b Hab. lia.
  - intros q Hq Hm.
    destruct (ScanFacts.finditer_from_complete pattern span 0 0 q) as (m & Hin & H1 & H2);
      [lia | exact Hm|].
    exists m. split; [exact Hin|]. simpl in H1, H2.
    rewrite Forall_forall in Hall'. destruct (Hall' m Hin) as [Hlt _]. lia.
Qed.

Lemma matches_of_one_pattern_are_disjoint_witness :
  Re.finditer full_date_re "08/30/2028 or 09-01-29"
  = [ {| Re.m_start := 0; Re.m_end := 10; Re.m_groups := ["08"; "30"; "2028"] |};
      {| Re.m_start := 14; Re.m_end := 22; Re.m_groups := ["09"; "01"; "29"] |} ]
  /\ StronglySorted precedes (Re.finditer full_date_re "08/30/2028 or 09-01-29").
Proof.
  split; [reflexivity|].
  apply (matches_of_one_pattern_are_disjoint full_date_re "08/30/2028 or 09-01-29").
  now left.
Defined.

(* ================================================================== *)
(** * The result of the extraction *)

Lemma In_Zcount (n : nat) (lo z : Z) :
  (lo <= z < lo + Z.of_nat n)%Z -> In z (Zcount n lo).
Proof.
  revert lo. induction n as [|n IH]; intros lo H; simpl; [lia|].
  destruct (Z.eq_dec lo z) as [E | E]; [now left | right].
  apply IH. lia.
Qed.

Lemma In_Zrange (lo hi z : Z) : (lo <= z <= hi)%Z -> In z (Zrange lo hi).
Proof. intros H. unfold Zrange. apply In_Zcount. lia. Qed.

Lemma forallb_Zrange (p : Z -> bool) (lo hi z : Z) :
  forallb p (Zrange lo hi) = true -> (lo <= z <= hi)%Z -> p z = true.
Proof.
  intros H Hz. rewrite forallb_forall in H. apply H, In_Zrange, Hz.
Qed.

Lemma century_of_year (now : Z) :
  (1 <= now <= 9999)%Z -> century_ok (century_of now) = true.
Proof.
  apply (forallb_Zrange (fun y => century_ok (century_of y)) 1 9999 now).
  vm_compute. reflexivity.
Qed.

Module CandidateFacts.

Lemma fold_left_invariant {A B : Type} (P : A -> Prop) (f : A -> B -> A)
      (l : list B) (a : A) :
  (forall a x, In x l -> P a -> P (f a x)) -> P a -> P (fold_left f l a).
Proof.
  revert a. induction l as [|x l IH]; intros a Hf Ha; simpl; [exact Ha|].
  apply IH; [intros; apply Hf; auto; now right|].
  apply Hf; [now left | exact Ha].
Qed.

Lemma set_add_Forall (P : string -> Prop) (x : string) (s : list string) :
  P x -> Forall P s -> Forall P (Py.set_add x s).
Proof.
  intros Hx Hs. unfold Py.set_add. destruct (existsb _ s); [exact Hs|].
  apply Forall_app. split; [exact Hs | now constructor].
Qed.

(** A resolved year has three or four digits. *)
Lemma resolved_year (century yy : string) :
  century_ok century = true ->
  Str.all Chars.is_digit yy = true -> 2 <= String.length yy <= 4 ->
  year_3_4 (resolve_year century yy).
Proof.
  unfold century_ok. rewrite andb_true_iff, orb_true_iff, !Nat.eqb_eq.
  intros [Hc Lc] Hy Ly. unfold resolve_year, year_3_4, digits.
  destruct (Nat.eqb_spec (String.length yy) 2) as [E | E].
  - rewrite StrFacts.length_app, StrFacts.all_app, Hc, Hy, E. simpl.
    destruct Lc as [-> | ->]; auto.
  - assert (String.length yy = 3 \/ String.length yy = 4) as [L | L] by lia; auto.
Qed.

Section Candidates.

Variable century : string.
Hypothesis century_digits : century_ok century = true.

Let good : string -> Prop := date_form year_3_4.

Lemma add_match_full (cands : list string) (g : list string) (suffix rest : string) :
  In (g, rest) (Re.run full_date_re suffix) ->
  Forall good cands -> Forall good (add_match century cands g).
Proof.
  intros H Hc. apply PatternFacts.full_date_inv in H.
  destruct H as (mm & dd & yy & -> & Dm & Dd & Hy & Ly & _).
  simpl. apply set_add_Forall; [|exact Hc].
  apply form_full; auto using resolved_year.
Qed.

Lemma add_match_partial (cands : list string) (g : list string) (suffix rest : string) :
  In (g, rest) (Re.run partial_date_re suffix) ->
  Forall good cands -> Forall good (add_match century cands g).
Proof.
  intros H Hc. apply PatternFacts.partial_date_inv in H.
  destruct H as (mm & yy & -> & Dm & Hy & Ly & _).
  simpl. apply set_add_Forall; [|exact Hc].
  apply form_partial; auto using resolved_year.
Qed.

Lemma scan_good (cands : list string) (span : string) :
  Forall good cands -> Forall good (scan century cands span).
Proof.
  intros Hc. unfold scan, date_patterns. simpl.
  apply fold_left_invariant.
  - intros a g Hg. apply ScanFacts.findall_inv in Hg.
    destruct Hg as (suffix & rest & Hg). now apply (add_match_partial a g suffix rest).
  - apply fold_left_invariant; [|exact Hc].
    intros a g Hg. apply ScanFacts.findall_inv in Hg.
    destruct Hg as (suffix & rest & Hg). now apply (add_match_full a g suffix rest).
Qed.

Lemma same_line_good (lines cands : list string) :
  Forall good cands -> Forall good (same_line_pass century lines cands).
Proof.
  intros Hc. unfold same_line_pass. apply fold_left_invariant; [|exact Hc].
  intros a line _ Ha. destruct (has_keyword line); [now apply scan_good | exact Ha].
Qed.

Lemma next_line_good (lines cands : list string) :
  Forall good cands -> Forall good (next_line_pass century lines cands).
Proof.
  intros Hc. unfold next_line_pass. apply fold_left_invariant; [|exact Hc].
  intros a i _ Ha.
  destruct (nth_error lines i) as [line|]; [|exact Ha].
  destruct (has_keyword line); [|exact Ha].
  destruct (nth_error lines (i + 1)) as [next_line|]; [now apply scan_good | exact Ha].
Qed.

End Candidates.

(** Every candidate is a date string with a year of three or four digits. *)
Lemma candidates_good (now : Z) (text : string) :
  (1 <= now <= 9999)%Z ->
  Forall (date_form year_3_4) (collect_candidates now text).
Proof.
  intros Hnow. pose proof (century_of_year now Hnow) as Hc.
  unfold collect_candidates.
  set (c1 := same_line_pass _ _ _).
  assert (H1 : Forall (date_form year_3_4) c1)
    by (apply same_line_good; [exact Hc | constructor]).
  set (c2 := if is_empty c1 then _ else c1).
  assert (H2 : Forall (date_form year_3_4) c2)
    by (subst c2; destruct (is_empty c1); [apply next_line_good|]; auto).
  destruct (is_empty c2); [apply scan_good|]; auto.
Qed.

End CandidateFacts.

Section Result.

Variable set_order : list string -> list string.
Hypothesis set_order_perm : forall s, Permutation (set_order s) s.

Lemma normalize_all_good (now : Z) (cands : list string) :
  Forall (date_form year_3_4) cands ->
  Forall (date_form year_3_4) (normalize_all set_order now cands).
Proof.
  intros Hc. unfold normalize_all.
  assert (Hc' : Forall (date_form year_3_4) (set_order cands))
    by exact (Permutation_Forall (Permutation_sym (set_order_perm cands)) Hc).
  rewrite Forall_forall in Hc'.
  apply CandidateFacts.fold_left_invariant; [|constructor].
  intros acc c Hin Hacc.
  rewrite (FormFacts.normalize_fixed now c)
    by (apply (FormFacts.form_impl year_3_4);
        [apply FormFacts.year_3_4_settled | auto]).
  destruct (Py.truthy c); [|exact Hacc].
  apply CandidateFacts.set_add_Forall; auto.
Qed.

(** The extraction returns, it returns at most one string, and the string is
    a date string. *)
Lemma extract_shape (now : Z) (text : string) :
  (1 <= now <= 9999)%Z ->
  exists r, extract_expiry_dates set_order now text = Ret r
            /\ (r = [] \/ exists d, r = [d] /\ date_form year_3_4 d).
Proof.
  intros Hnow. unfold extract_expiry_dates.
  pose proof (normalize_all_good now _ (CandidateFacts.candidates_good now text Hnow))
    as Hn.
  set (normalized := normalize_all _ _ _) in *.
  assert (Hs : Forall (date_form year_3_4) (set_order normalized))
    by exact (Permutation_Forall (Permutation_sym (set_order_perm normalized)) Hn).
  destruct (set_order normalized) as [|x l] eqn:E.
  - exists []. split; [reflexivity | now left].
  - rewrite <- E in *. rewrite Forall_forall in Hs.
    destruct (pick_latest_spec (set_order normalized)) as (d & k & Hp & Hin & _).
    + intros d Hd. apply FormFacts.date_key_defined.
      apply (FormFacts.form_impl year_3_4);
        [apply FormFacts.year_3_4_settled | auto].
    + rewrite E. discriminate.
    + exists [d]. split; [exact Hp|]. right. exists d. auto.
Qed.

Lemma extract_empty (now : Z) : extract_expiry_dates set_order now "" = Ret [].
Proof.
  unfold extract_expiry_dates.
  assert (Hc : collect_candidates now "" = []) by reflexivity.
  rewrite Hc. unfold normalize_all.
  rewrite (Permutation_nil (Permutation_sym (set_order_perm []))). simpl.
  rewrite (Permutation_nil (Permutation_sym (set_order_perm []))). reflexivity.
Qed.

End Result.

(** C3, as the claim has it, fails: the year of the date returned need not
    have four digits.  The patterns take a year of three digits, and the
    century rule leaves it alone. *)
Lemma extraction_returns_three_digit_year :
  extract_expiry_dates insertion_order 2026 "01/15/202" = Ret ["01/15/202"]
  /\ ~ normalized_date "01/15/202".
Proof.
  split; [vm_compute; reflexivity|].
  intros H.
  assert (Hl : forall d, normalized_date d -> String.length d = 10 \/ String.length d = 7).
  { intros d [mm dd yyyy [Lm _] [Ld _] [Ly _] | mm yyyy [Lm _] [Ly _]];
      rewrite ?StrFacts.length_app; simpl; rewrite ?StrFacts.length_app; simpl;
      rewrite ?StrFacts.length_app; lia. }
  destruct (Hl _ H) as [E | E]; discriminate E.
Qed.

(** C3, amended. For every text (the clock showing a year between 1 and
    9999) the extraction returns a sequence of zero or one element; the
    element is a date string MM/DD/Y or MM/Y with two digits of month, two of
    day, and a year of three or four digits; and the empty text gives the
    empty sequence. *)
Theorem extraction_returns_at_most_one_date
        (set_order : list string -> list string) (now : Z) (text : string) :
  (forall s, Permutation (set_order s) s) ->
  (1 <= now <= 9999)%Z ->
  (exists r, extract_expiry_dates set_order now text = Ret r
             /\ (r = [] \/ exists d, r = [d] /\ date_form year_3_4 d))
  /\ extract_expiry_dates set_order now "" = Ret [].
Proof.
  intros Hperm Hnow. split.
  - exact (extract_shape set_order Hperm now text Hnow).
  - exact (extract_empty set_order Hperm now).
Qed.

Lemma extraction_returns_at_most_one_date_witness :
  exists r, extract_expiry_dates insertion_order 2026 "EXP 08/30/2028" = Ret r
            /\ (r = [] \/ exists d, r = [d] /\ date_form year_3_4 d).
Proof.
  apply (extraction_returns_at_most_one_date insertion_order 2026 "EXP 08/30/2028").
  - intros s. apply Permutation_refl.
  - lia.
Defined.

(* ================================================================== *)
(** * The calendar *)

Module CalendarFacts.

Open Scope Z_scope.

(** The calendar repeats every 400 years, which are 146097 days. *)
Lemma is_leap_shift (y k : Z) : Datetime.is_leap (y + 400 * k) = Datetime.is_leap y.
Proof.
  unfold Datetime.is_leap.
  replace ((y + 400 * k) mod 4) with (y mod 4)
    by (replace (400 * k) with (100 * k * 4) by ring; now rewrite Z_mod_plus_full).
  replace ((y + 400 * k) mod 100) with (y mod 100)
    by (replace (400 * k) with (4 * k * 100) by ring; now rewrite Z_mod_plus_full).
  replace ((y + 400 * k) mod 400) with (y mod 400)
    by (replace (400 * k) with (k * 400) by ring; now rewrite Z_mod_plus_full).
  reflexivity.
Qed.

Lemma days_before_year_shift (y k : Z) :
  Datetime.days_before_year (y + 400 * k) = Datetime.days_before_year y + 146097 * k.
Proof.
  unfold Datetime.days_before_year. cbv zeta.
  replace (y + 400 * k - 1) with (y - 1 + 400 * k) by ring.
  replace ((y - 1 + 400 * k) / 4) with ((y - 1) / 4 + 100 * k)
    by (replace (400 * k) with (100 * k * 4) by ring; now rewrite Z_div_plus_full).
  replace ((y - 1 + 400 * k) / 100) with ((y - 1) / 100 + 4 * k)
    by (replace (400 * k) with (4 * k * 100) by ring; now rewrite Z_div_plus_full).
  replace ((y - 1 + 400 * k) / 400) with ((y - 1) / 400 + k)
    by (replace (400 * k) with (k * 400) by ring; now rewrite Z_div_plus_full).
  ring.
Qed.

Lemma days_in_month_shift (y m k : Z) :
  Datetime.days_in_month (y + 400 * k) m = Datetime.days_in_month y m.
Proof. unfold Datetime.days_in_month. now rewrite is_leap_shift. Qed.

Lemma ymd2ord_shift (y m d k : Z) :
  Datetime.ymd2ord (y + 400 * k) m d = Datetime.ymd2ord y m d + 146097 * k.
Proof.
  unfold Datetime.ymd2ord, Datetime.days_before_month.
  rewrite days_before_year_shift, is_leap_shift. ring.
Qed.

Lemma ord2ymd_shift (n k : Z) :
  Datetime.ord2ymd (n + 146097 * k)
  = let '(y, m, d) := Datetime.ord2ymd n in (y + 400 * k, m, d).
Proof.
  unfold Datetime.ord2ymd, Datetime.DI400Y. cbv zeta.
  replace (n + 146097 * k - 1) with (n - 1 + k * 146097) by ring.
  rewrite Z_div_plus_full by discriminate. rewrite Z_mod_plus_full.
  repeat match goal with
         | |- context [if ?b then _ else _] => destruct b
         end; f_equal; try f_equal; ring.
Qed.

Lemma valid_date_shift (y m d k : Z) :
  1 <= y + 400 * k <= 9999 -> 1 <= y ->
  valid_date y m d = true -> valid_date (y + 400 * k) m d = true.
Proof.
  unfold valid_date, Datetime.MINYEAR, Datetime.MAXYEAR.
  rewrite days_in_month_shift, !andb_true_iff, !Z.leb_le. lia.
Qed.

Lemma days_before_month_bound (y m : Z) :
  1 <= m <= 12 -> 0 <= Datetime.days_before_month y m <= 335.
Proof.
  intros H. unfold Datetime.days_before_month.
  assert (Hm : m = 1 \/ m = 2 \/ m = 3 \/ m = 4 \/ m = 5 \/ m = 6 \/ m = 7
               \/ m = 8 \/ m = 9 \/ m = 10 \/ m = 11 \/ m = 12) by lia.
  destruct Hm as [->|[->|[->|[->|[->|[->|[->|[->|[->|[->|[->| ->]]]]]]]]]]];
    destruct (Datetime.is_leap y); cbv; split; intro; discriminate.
Qed.

Lemma first_of_month_bound (y m : Z) :
  1 <= m <= 12 -> 1 <= y <= 9999 ->
  Datetime.ymd2ord y m 1 - 30 <= Datetime.MAXORDINAL.
Proof.
  intros Hm Hy. pose proof (days_before_month_bound y m Hm) as Hb.
  unfold Datetime.ymd2ord, Datetime.MAXORDINAL, Datetime.days_before_year. cbv zeta.
  Z.div_mod_to_equations. lia.
Qed.

End CalendarFacts.

(* ================================================================== *)
(** * Reminder links for partial dates *)

Lemma link_unfold (s : string) :
  create_google_calendar_link s
  = match try_except (parse_expiry s) with
    | None => Ret None
    | Some dt =>
        r <- Datetime.sub dt (Datetime.days 30) ;;
        later <- Datetime.add r (Datetime.hours 1) ;;
        Ret (Some (link_for s (Datetime.strftime_Ymd r) (Datetime.strftime_Ymd later)))
    end.
Proof.
  unfold create_google_calendar_link. fold (parse_expiry s).
  destruct (try_except (parse_expiry s)) as [dt|]; [|reflexivity].
  destruct (Datetime.sub dt (Datetime.days 30)) as [r|e]; cbn [bind]; [|reflexivity].
  destruct (Datetime.add r (Datetime.hours 1)) as [later|e]; cbn [bind]; [|reflexivity].
  unfold link_for. reflexivity.
Qed.

(** An hour after midnight of a day of the calendar is a time of the
    calendar. *)
Lemma add_hour_defined (r : Datetime.datetime) :
  Datetime.seconds r = 0%Z ->
  (0 < Datetime.toordinal r <= Datetime.MAXORDINAL)%Z ->
  exists later, Datetime.add r (Datetime.hours 1) = Ret later.
Proof.
  intros Hs Ho. unfold Datetime.add. rewrite Hs. simpl.
  change (3600 / 86400)%Z with 0%Z. rewrite !Z.add_0_r.
  destruct (Z.ltb_spec 0 (Datetime.toordinal r)); [|lia].
  destruct (Z.leb_spec (Datetime.toordinal r) Datetime.MAXORDINAL); [|lia].
  simpl. destruct (Datetime.ord2ymd (Datetime.toordinal r)) as [[y m] d]. eauto.
Qed.

(** The months of the years 2 to 401, one turn of the calendar. *)
Lemma one_cycle_checked :
  forallb (fun y => forallb (reminder_day_ok y) (Zrange 1 12)) (Zrange 2 401) = true.
Proof. vm_compute. reflexivity. Qed.

(** February to December of year 1. *)
Lemma year_one_checked : forallb (reminder_day_ok 1) (Zrange 2 12) = true.
Proof. vm_compute. reflexivity. Qed.

Lemma reminder_day_ok_spec (y m : Z) :
  reminder_day_ok y m = true ->
  exists ry rm rd,
    Datetime.ord2ymd (Datetime.ymd2ord y m 1 - 30) = (ry, rm, rd)
    /\ (1 <= Datetime.ymd2ord y m 1 - 30)%Z /\ (1 <= ry <= y)%Z
    /\ valid_date ry rm rd = true
    /\ Datetime.ymd2ord ry rm rd = (Datetime.ymd2ord y m 1 - 30)%Z.
Proof.
  unfold reminder_day_ok. cbv zeta.
  destruct (Datetime.ord2ymd (Datetime.ymd2ord y m 1 - 30)) as [[ry rm] rd].
  rewrite !andb_true_iff, !Z.leb_le, Z.eqb_eq. intros [[[[H1 H2] H3] H4] H5].
  exists ry, rm, rd. auto.
Qed.

(** Thirty days before the first of a month is a day of the calendar. *)
Lemma reminder_day (y m : Z) :
  (1 <= m <= 12)%Z -> (1 <= y <= 9999)%Z -> ~ (y = 1 /\ m = 1)%Z ->
  exists ry rm rd,
    Datetime.ord2ymd (Datetime.ymd2ord y m 1 - 30) = (ry, rm, rd)
    /\ (1 <= Datetime.ymd2ord y m 1 - 30)%Z
    /\ valid_date ry rm rd = true
    /\ Datetime.ymd2ord ry rm rd = (Datetime.ymd2ord y m 1 - 30)%Z.
Proof.
  intros Hm Hy Hne. destruct (Z.eq_dec y 1) as [-> | Hy1].
  - assert (Hm' : (2 <= m <= 12)%Z) by lia.
    pose proof (forallb_Zrange (reminder_day_ok 1) 2 12 m year_one_checked Hm') as H.
    destruct (reminder_day_ok_spec 1 m H) as (ry & rm & rd & H1 & H2 & _ & H3 & H4).
    exists ry, rm, rd. auto.
  - set (k := ((y - 2) / 400)%Z). set (y0 := (y - 400 * k)%Z).
    assert (Hk : (0 <= k)%Z) by (apply Z.div_pos; lia).
    assert (Hy0 : (2 <= y0 <= 401)%Z).
    { subst y0 k. pose proof (Z.mod_pos_bound (y - 2) 400 ltac:(lia)).
      pose proof (Z.div_mod (y - 2) 400 ltac:(lia)). lia. }
    pose proof (forallb_Zrange (fun y => forallb (reminder_day_ok y) (Zrange 1 12))
                               2 401 y0 one_cycle_checked Hy0) as H.
    cbn beta in H.
    pose proof (forallb_Zrange (reminder_day_ok y0) 1 12 m H Hm) as H0.
    destruct (reminder_day_ok_spec y0 m H0) as (ry & rm & rd & H1 & H2 & H3 & H4 & H5).
    replace y with (y0 + 400 * k)%Z by (subst y0; ring).
    rewrite CalendarFacts.ymd2ord_shift.
    replace (Datetime.ymd2ord y0 m 1 + 146097 * k - 30)%Z
      with (Datetime.ymd2ord y0 m 1 - 30 + 146097 * k)%Z by ring.
    rewrite CalendarFacts.ord2ymd_shift, H1.
    exists (ry + 400 * k)%Z, rm, rd.
    split; [reflexivity|]. split; [lia|]. split.
    + apply CalendarFacts.valid_date_shift; [|lia|exact H4]. subst y0. lia.
    + rewrite CalendarFacts.ymd2ord_shift, H5. reflexivity.
Qed.

(** Thirty days before the first of a month, as the builder computes it. *)
Lemma sub_thirty_days (y m : Z) :
  (1 <= m <= 12)%Z -> (1 <= y <= 9999)%Z -> ~ (y = 1 /\ m = 1)%Z ->
  exists r,
    Datetime.sub {| Datetime.year := y; Datetime.month := m; Datetime.day := 1;
                    Datetime.seconds := 0 |} (Datetime.days 30) = Ret r
    /\ Datetime.seconds r = 0%Z
    /\ valid_date (Datetime.year r) (Datetime.month r) (Datetime.day r) = true
    /\ Datetime.toordinal r = (Datetime.ymd2ord y m 1 - 30)%Z
    /\ (0 < Datetime.toordinal r <= Datetime.MAXORDINAL)%Z.
Proof.
  intros Hm Hy Hne.
  destruct (reminder_day y m Hm Hy Hne) as (ry & rm & rd & H1 & H2 & H3 & H4).
  pose proof (CalendarFacts.first_of_month_bound y m Hm Hy) as Hmax.
  unfold Datetime.sub, Datetime.add, Datetime.days, Datetime.toordinal.
  cbn [Datetime.year Datetime.month Datetime.day Datetime.seconds
       Datetime.td_days Datetime.td_seconds].
  change (0 + - 0)%Z with 0%Z. change (0 / 86400)%Z with 0%Z.
  change (0 mod 86400)%Z with 0%Z.
  replace (Datetime.ymd2ord y m 1 + - (30) + 0)%Z
    with (Datetime.ymd2ord y m 1 - 30)%Z by ring.
  destruct (Z.ltb_spec 0 (Datetime.ymd2ord y m 1 - 30)); [|lia].
  destruct (Z.leb_spec (Datetime.ymd2ord y m 1 - 30) Datetime.MAXORDINAL); [|lia].
  cbn [andb]. rewrite H1.
  eexists. split; [reflexivity|]. cbn [Datetime.year Datetime.month Datetime.day Datetime.seconds].
  split; [reflexivity|]. split; [exact H3|]. split; [exact H4|]. rewrite H4. lia.
Qed.

(** ** Parsing a partial date *)

Lemma digit_char_digit (n : nat) : n < 10 -> Chars.is_digit (digit_char n) = true.
Proof.
  intros H. do 10 (destruct n as [|n]; [reflexivity|]). lia.
Qed.

Lemma digit_char_val (n : nat) : n < 10 -> Chars.digit_val (digit_char n) = Z.of_nat n.
Proof.
  intros H. do 10 (destruct n as [|n]; [reflexivity|]). lia.
Qed.

Lemma int_digits_value (s : string) (acc : Z) (b : bool) :
  Str.all Chars.is_digit s = true -> s <> "" \/ b = true ->
  Py.int_digits s acc b = Some (dec_value s acc).
Proof.
  revert acc b. induction s as [|c s IH]; intros acc b Hall Hne; simpl.
  - destruct Hne as [Hne | ->]; [contradiction | reflexivity].
  - simpl in Hall. apply andb_true_iff in Hall as [Hc Hs].
    rewrite Hc. apply IH; auto.
Qed.

(** [int] of a non-empty string of digits is the number the digits write. *)
Lemma int_value (s : string) :
  Str.all Chars.is_digit s = true -> s <> "" ->
  String.length s <= Py.MAX_STR_DIGITS -> Py.int s = Ret (dec_value s 0).
Proof.
  intros Hall Hne Hlen. apply (PyFacts.int_of_digits s _ Hall Hlen).
  exact (int_digits_value s 0%Z false Hall (or_introl Hne)).
Qed.

Lemma four_digits_all (a b c d : nat) :
  a < 10 -> b < 10 -> c < 10 -> d < 10 ->
  Str.all Chars.is_digit (four_digits a b c d) = true.
Proof.
  intros. unfold four_digits. simpl.
  now rewrite !digit_char_digit by assumption.
Qed.

Lemma int_four_digits (a b c d : nat) :
  a < 10 -> b < 10 -> c < 10 -> d < 10 ->
  Py.int (four_digits a b c d) = Ret (number_of a b c d).
Proof.
  intros Ha Hb Hc Hd.
  rewrite int_value
    by (auto using four_digits_all || discriminate || (apply PyFacts.short_length; simpl; lia)).
  f_equal. unfold four_digits, number_of. cbn [dec_value].
  rewrite !digit_char_val by assumption. ring.
Qed.

Lemma pad4_table :
  forallb (fun a => forallb (fun b => forallb (fun c => forallb (fun d =>
     String.eqb (Datetime.pad 4 (number_of a b c d)) (four_digits a b c d))
     (seq 0 10)) (seq 0 10)) (seq 0 10)) (seq 0 10) = true.
Proof. vm_compute. reflexivity. Qed.

(** A number below 10000 is written with its four digits. *)
Lemma pad4_digits (a b c d : nat) :
  a < 10 -> b < 10 -> c < 10 -> d < 10 ->
  Datetime.pad 4 (number_of a b c d) = four_digits a b c d.
Proof.
  intros Ha Hb Hc Hd. pose proof pad4_table as H.
  rewrite forallb_forall in H. specialize (H a ltac:(apply in_seq; lia)).
  rewrite forallb_forall in H. specialize (H b ltac:(apply in_seq; lia)).
  rewrite forallb_forall in H. specialize (H c ltac:(apply in_seq; lia)).
  rewrite forallb_forall in H. specialize (H d ltac:(apply in_seq; lia)).
  now apply String.eqb_eq.
Qed.

Lemma year_digits (y : Z) :
  (0 <= y <= 9999)%Z ->
  exists a b c d, a < 10 /\ b < 10 /\ c < 10 /\ d < 10 /\ number_of a b c d = y.
Proof.
  intros H.
  exists (Z.to_nat (y / 1000)), (Z.to_nat (y / 100 mod 10)),
    (Z.to_nat (y / 10 mod 10)), (Z.to_nat (y mod 10)).
  unfold number_of.
  assert (0 <= y / 1000 < 10)%Z by (Z.div_mod_to_equations; lia).
  assert (0 <= y / 100 mod 10 < 10)%Z by (apply Z.mod_pos_bound; lia).
  assert (0 <= y / 10 mod 10 < 10)%Z by (apply Z.mod_pos_bound; lia).
  assert (0 <= y mod 10 < 10)%Z by (apply Z.mod_pos_bound; lia).
  rewrite !Z2Nat.id by lia.
  repeat split; try lia.
  Z.div_mod_to_equations. lia.
Qed.

Lemma run_seq_eq (r1 r2 : Re.regex) (s : string) :
  Re.run (Re.Seq r1 r2) s
  = flat_map (fun m1 => map (fun m2 => (fst m1 ++ fst m2, snd m2)) (Re.run r2 (snd m1)))
             (Re.run r1 s).
Proof. reflexivity. Qed.

(** Four digits and nothing more are a year. *)
Lemma run_year (a b c d : ascii) :
  Chars.is_digit a = true -> Chars.is_digit b = true ->
  Chars.is_digit c = true -> Chars.is_digit d = true ->
  Re.run (Datetime.directive_re Datetime.DY)
         (String a (String b (String c (String d ""))))
  = [([String a (String b (String c (String d ""))) ], "")].
Proof.
  intros Ha Hb Hc Hd. unfold Datetime.directive_re, Re.digit.
  cbn [Re.seqs]. cbn [Re.run]. rewrite Ha. cbn [flat_map map fst snd app].
  rewrite Hb. cbn [flat_map map fst snd app].
  rewrite Hc. cbn [flat_map map fst snd app].
  rewrite Hd. cbn [flat_map map fst snd app].
  reflexivity.
Qed.

Lemma days_in_month_min (y m : Z) :
  (1 <= m <= 12)%Z -> (28 <= Datetime.days_in_month y m)%Z.
Proof.
  intros H. unfold Datetime.days_in_month.
  assert (Hm : (m = 1 \/ m = 2 \/ m = 3 \/ m = 4 \/ m = 5 \/ m = 6 \/ m = 7
               \/ m = 8 \/ m = 9 \/ m = 10 \/ m = 11 \/ m = 12)%Z) by lia.
  destruct Hm as [->|[->|[->|[->|[->|[->|[->|[->|[->|[->|[->| ->]]]]]]]]]]];
    destruct (Datetime.is_leap y); cbv; intro; discriminate.
Qed.

(** The first of a month is a date. *)
Lemma make_first (y m : Z) :
  (1 <= m <= 12)%Z -> (1 <= y <= 9999)%Z ->
  Datetime.make y m 1
  = Ret {| Datetime.year := y; Datetime.month := m; Datetime.day := 1;
           Datetime.seconds := 0 |}.
Proof.
  intros Hm Hy. pose proof (days_in_month_min y m Hm) as Hd.
  unfold Datetime.make, Datetime.MINYEAR, Datetime.MAXYEAR.
  destruct (Z.leb_spec 1 y); [|lia]. destruct (Z.leb_spec y 9999); [|lia].
  destruct (Z.leb_spec 1 m); [|lia]. destruct (Z.leb_spec m 12); [|lia].
  destruct (Z.leb_spec 1 (Datetime.days_in_month y m)); [|lia].
  reflexivity.
Qed.

Ltac eval_in_goal t :=
  let e := eval vm_compute in t in change t with e.

(** A partial date string with a month of 01-12 and a year of four digits is
    parsed as the first of the month. *)
Lemma parse_month_year (m : Z) (a b c d : ascii) (y : Z) :
  (1 <= m <= 12)%Z -> (1 <= y <= 9999)%Z ->
  Chars.is_digit a = true -> Chars.is_digit b = true ->
  Chars.is_digit c = true -> Chars.is_digit d = true ->
  Py.int (String a (String b (String c (String d "")))) = Ret y ->
  parse_expiry (Datetime.pad 2 m ++ "/" ++ String a (String b (String c (String d ""))))
  = Ret {| Datetime.year := y; Datetime.month := m; Datetime.day := 1;
           Datetime.seconds := 0 |}.
Proof.
  intros Hm Hy Ha Hb Hc Hd Hint.
  assert (Hns : Str.no_slash (String a (String b (String c (String d "")))) = true).
  { apply FormFacts.digits_no_slash. simpl. now rewrite Ha, Hb, Hc, Hd. }
  rewrite <- (make_first y m Hm Hy).
  assert (Hcases : (m = 1 \/ m = 2 \/ m = 3 \/ m = 4 \/ m = 5 \/ m = 6 \/ m = 7
               \/ m = 8 \/ m = 9 \/ m = 10 \/ m = 11 \/ m = 12)%Z) by lia.
  unfold parse_expiry.
  destruct Hcases as [->|[->|[->|[->|[->|[->|[->|[->|[->|[->|[->| ->]]]]]]]]]]];
    match goal with
    | |- context [Datetime.pad 2 ?k] => eval_in_goal (Datetime.pad 2 k)
    end;
    rewrite FormFacts.split_partial by (reflexivity || exact Hns);
    cbn [List.length Nat.eqb append];
    unfold Datetime.strptime, Re.match_at, Datetime.format_re, Datetime.fmt_mY;
    cbn [map Re.seqs]; rewrite run_seq_eq;
    match goal with
    | |- context [Re.run (Datetime.directive_re Datetime.Dm) ?s] =>
        eval_in_goal (Re.run (Datetime.directive_re Datetime.Dm) s)
    end;
    cbn [flat_map map fst snd app]; rewrite !run_seq_eq;
    repeat match goal with
           | |- context [Re.run (Datetime.directive_re (Datetime.Dlit ?l)) ?s] =>
               eval_in_goal (Re.run (Datetime.directive_re (Datetime.Dlit l)) s)
           end;
    cbn [flat_map map fst snd app];
    rewrite (run_year a b c d Ha Hb Hc Hd);
    cbn [flat_map map fst snd app hd_error Datetime.fields];
    match goal with
    | |- context [Py.int (String ?m1 (String ?m2 ""))] =>
        eval_in_goal (Py.int (String m1 (String m2 "")))
    end;
    cbn [bind]; rewrite Hint; reflexivity.
Qed.

Lemma partial_parse (m y : Z) :
  (1 <= m <= 12)%Z -> (1 <= y <= 9999)%Z ->
  parse_expiry (partial_date_string m y)
  = Ret {| Datetime.year := y; Datetime.month := m; Datetime.day := 1;
           Datetime.seconds := 0 |}.
Proof.
  intros Hm Hy.
  destruct (year_digits y) as (a & b & c & d & Ha & Hb & Hc & Hd & Hv); [lia|].
  unfold partial_date_string. rewrite <- Hv at 1. rewrite pad4_digits by assumption.
  apply parse_month_year; auto using digit_char_digit.
  rewrite <- Hv. apply int_four_digits; assumption.
Qed.

(** The twelve months of year 0. *)
Lemma year_zero_checked :
  forallb (fun m => match create_google_calendar_link (partial_date_string m 0) with
                    | Ret None => true
                    | _ => false
                    end) (Zrange 1 12) = true.
Proof. vm_compute. reflexivity. Qed.

Lemma year_zero_no_link (m : Z) :
  (1 <= m <= 12)%Z -> create_google_calendar_link (partial_date_string m 0) = Ret None.
Proof.
  intros Hm. pose proof (forallb_Zrange _ 1 12 m year_zero_checked Hm) as H.
  cbn beta in H.
  destruct (create_google_calendar_link (partial_date_string m 0)) as [[l|]|e];
    try discriminate H. reflexivity.
Qed.

(** C10, as the claim has it, fails: "01/0000" is of the form MM/YYYY with
    the month in 01-12, and there is no year 0 in the calendar: the parse
    fails and the builder returns no link. *)
Lemma partial_date_of_year_zero_gets_no_link :
  partial_date_string 1 0 = "01/0000"
  /\ create_google_calendar_link "01/0000" = Ret None.
Proof. vm_compute. split; reflexivity. Qed.

(** C10, amended. For a partial date string MM/YYYY with the month in
    01-12: if the year is 0000 the builder returns no link; if the year is in
    0001-9999, January of year 1 left aside, the builder takes the expiry
    date to be the first day of the month and returns a link, and the range
    of dates in the link starts on the day of the calendar that is thirty
    days before the first of the month, written as [strftime] writes it. *)
Theorem partial_date_gets_a_reminder (m y : Z) :
  (1 <= m <= 12)%Z -> (0 <= y <= 9999)%Z -> ~ (y = 1 /\ m = 1)%Z ->
  (y = 0%Z -> create_google_calendar_link (partial_date_string m y) = Ret None)
  /\ ((1 <= y)%Z ->
      parse_expiry (partial_date_string m y)
      = Ret {| Datetime.year := y; Datetime.month := m; Datetime.day := 1;
               Datetime.seconds := 0 |}
      /\ exists ry rm rd last,
          valid_date ry rm rd = true
          /\ Datetime.ymd2ord ry rm rd = (Datetime.ymd2ord y m 1 - 30)%Z
          /\ create_google_calendar_link (partial_date_string m y)
             = Ret (Some (link_for (partial_date_string m y) (Ymd ry rm rd) last))).
Proof.
  intros Hm Hy0 Hne. split; [intros ->; now apply year_zero_no_link|].
  intros Hy1. assert (Hy : (1 <= y <= 9999)%Z) by lia.
  pose proof (partial_parse m y Hm Hy) as Hparse.
  split; [exact Hparse|].
  destruct (sub_thirty_days y m Hm Hy Hne) as (r & Hsub & Hs & Hv & Ho & Hrange).
  destruct (add_hour_defined r Hs Hrange) as [later Hlater].
  rewrite link_unfold, Hparse. cbn [try_except].
  rewrite Hsub. cbn [bind]. rewrite Hlater. cbn [bind].
  exists (Datetime.year r), (Datetime.month r), (Datetime.day r),
    (Datetime.strftime_Ymd later).
  split; [exact Hv|]. split; [exact Ho|]. reflexivity.
Qed.

Lemma partial_date_gets_a_reminder_witness :
  create_google_calendar_link (partial_date_string 1 0) = Ret None
  /\ exists ry rm rd last,
      valid_date ry rm rd = true
      /\ Datetime.ymd2ord ry rm rd = (Datetime.ymd2ord 2028 8 1 - 30)%Z
      /\ create_google_calendar_link (partial_date_string 8 2028)
         = Ret (Some (link_for (partial_date_string 8 2028) (Ymd ry rm rd) last)).
Proof.
  split.
  - apply (proj1 (partial_date_gets_a_reminder 1 0 ltac:(lia) ltac:(lia) ltac:(lia))).
    reflexivity.
  - apply (proj2 (partial_date_gets_a_reminder 8 2028 ltac:(lia) ltac:(lia) ltac:(lia))).
    lia.
Defined.

(** Below year 1000 the day in the link has fewer than eight digits. *)
Example early_year_link :
  create_google_calendar_link "02/0001"
  = Ret (Some (link_for "02/0001" "10102" "10102"))
  /\ create_google_calendar_link "03/0999"
     = Ret (Some (link_for "03/0999" "9990130" "9990130"))
  /\ create_google_calendar_link "01/31/0001"
     = Ret (Some (link_for "01/31/0001" "10101" "10101")).
Proof. vm_compute. repeat split. Qed.

Example partial_date_link :
  partial_date_string 8 2028 = "08/2028"
  /\ create_google_calendar_link "08/2028"
     = Ret (Some (link_for "08/2028" "20280702" "20280702")).
Proof. vm_compute. split; reflexivity. Qed.

(* ================================================================== *)
(** * More on normalization *)

Module NormalizeFacts.

Lemma split_length (s : string) :
  List.length (Py.split Chars.slash s) = S (count_slash s).
Proof.
  induction s as [|c s IH]; simpl; [reflexivity|].
  destruct (Ascii.eqb c Chars.slash); simpl; [now rewrite IH|].
  destruct (Py.split Chars.slash s) as [|p ps]; simpl in *; [discriminate IH | exact IH].
Qed.

Lemma split_parts_no_slash (s p : string) :
  In p (Py.split Chars.slash s) -> Str.no_slash p = true.
Proof.
  revert p. induction s as [|c s IH]; intros p; simpl.
  - intros [<- | []]. reflexivity.
  - destruct (Ascii.eqb c Chars.slash) eqn:E.
    + intros [<- | H]; [reflexivity | auto].
    + destruct (Py.split Chars.slash s) as [|q qs].
      * intros [<- | []]. unfold Str.no_slash. simpl. now rewrite E.
      * intros [<- | H].
        -- unfold Str.no_slash. simpl. rewrite E. simpl.
           apply (IH q). now left.
        -- apply IH. now right.
Qed.

Lemma repeat_no_slash (n : nat) : Str.no_slash (Str.repeat "0" n) = true.
Proof. induction n as [|n IH]; [reflexivity | exact IH]. Qed.

Lemma length_repeat (c : ascii) (n : nat) : String.length (Str.repeat c n) = n.
Proof. induction n as [|n IH]; simpl; [reflexivity | now rewrite IH]. Qed.

Lemma zfill_no_slash (w : nat) (s : string) :
  Str.no_slash s = true -> Str.no_slash (Py.zfill w s) = true.
Proof.
  intros H. unfold Py.zfill.
  destruct (w <=? String.length s); [exact H|].
  assert (Hz : forall t, Str.no_slash t = true ->
                         Str.no_slash (Str.repeat "0" (w - String.length s) ++ t) = true).
  { intros t Ht. unfold Str.no_slash in *. rewrite StrFacts.all_app, Ht.
    fold (Str.no_slash (Str.repeat "0" (w - String.length s))).
    now rewrite repeat_no_slash. }
  destruct s as [|c s]; [now apply Hz|].
  assert (Hs : Str.no_slash s = true).
  { unfold Str.no_slash in *. simpl in H. now apply andb_true_iff in H. }
  destruct (Ascii.eqb_spec c "+") as [-> | N1];
    [unfold Str.no_slash; simpl; apply (Hz s Hs)|].
  destruct (Ascii.eqb_spec c "-") as [-> | N2];
    [unfold Str.no_slash; simpl; apply (Hz s Hs)|].
  assert (Hd : (match c with
                | "+"%char => String "+" (Str.repeat "0" (w - String.length (String c s)) ++ s)
                | "-"%char => String "-" (Str.repeat "0" (w - String.length (String c s)) ++ s)
                | _ => (Str.repeat "0" (w - String.length (String c s)) ++ String c s)%string
                end)
               = (Str.repeat "0" (w - String.length (String c s)) ++ String c s)%string).
  { destruct c as [[] [] [] [] [] [] [] []]; try reflexivity; congruence. }
  rewrite Hd. now apply Hz.
Qed.

Lemma zfill_length (w : nat) (s : string) : w <= String.length (Py.zfill w s).
Proof.
  unfold Py.zfill. destruct (Nat.leb_spec w (String.length s)) as [H | H]; [exact H|].
  assert (Hz : forall t, String.length t = String.length s ->
                         w <= String.length (Str.repeat "0" (w - String.length s) ++ t)).
  { intros t Ht. rewrite StrFacts.length_app, length_repeat, Ht. lia. }
  destruct s as [|c s]; [now apply Hz|].
  destruct c as [[] [] [] [] [] [] [] []];
    try (now apply Hz);
    simpl; rewrite StrFacts.length_app, length_repeat; simpl; lia.
Qed.

Lemma zfill_zfill (w : nat) (s : string) : Py.zfill w (Py.zfill w s) = Py.zfill w s.
Proof. apply PyFacts.zfill_long, zfill_length. Qed.

Lemma truthy_zfill (s : string) : Py.truthy (Py.zfill 2 s) = true.
Proof.
  pose proof (zfill_length 2 s) as H.
  destruct (Py.zfill 2 s); [simpl in H; lia | reflexivity].
Qed.

Lemma century_facts (now : Z) :
  (1 <= now <= 9999)%Z ->
  Str.no_slash (century_of now) = true /\ 1 <= String.length (century_of now).
Proof.
  intros H. pose proof (century_of_year now H) as Hc. unfold century_ok in Hc.
  apply andb_true_iff in Hc as [Hd Hl]. split.
  - now apply FormFacts.digits_no_slash.
  - apply orb_true_iff in Hl. rewrite !Nat.eqb_eq in Hl. lia.
Qed.

Lemma resolve_no_slash (century y : string) :
  Str.no_slash century = true -> Str.no_slash y = true ->
  Str.no_slash (resolve_year century y) = true.
Proof.
  intros Hc Hy. unfold resolve_year. destruct (String.length y =? 2); [|exact Hy].
  unfold Str.no_slash in *. now rewrite StrFacts.all_app, Hc, Hy.
Qed.

Lemma resolve_length (century y : string) :
  1 <= String.length century -> String.length (resolve_year century y) <> 2.
Proof.
  intros Hc. unfold resolve_year.
  destruct (Nat.eqb_spec (String.length y) 2) as [E | E]; [|exact E].
  rewrite StrFacts.length_app. lia.
Qed.

End NormalizeFacts.

(** The date normalizer gives nothing exactly for the strings with no [/] or
    with more than two; every other string has a normal form. *)
Theorem normalize_none_iff (now : Z) (d : string) :
  normalize_expiry_date now d = None <-> count_slash d = 0 \/ 3 <= count_slash d.
Proof.
  unfold normalize_expiry_date.
  pose proof (NormalizeFacts.split_length d) as Hl.
  destruct (Py.split Chars.slash d) as [|p1 [|p2 [|p3 [|p4 ps]]]]; simpl in Hl.
  - discriminate Hl.
  - split; [intros _; lia | reflexivity].
  - split; [discriminate | lia].
  - split; [|lia]. destruct (Py.truthy p2); discriminate.
  - split; [intros _; lia | reflexivity].
Qed.

(** Normalizing is idempotent on every string, not only on normal forms: what
    the normalizer returns, it returns again when applied to it. *)
Theorem normalize_twice (now : Z) (d d' : string) :
  (1 <= now <= 9999)%Z ->
  normalize_expiry_date now d = Some d' ->
  normalize_expiry_date now d' = Some d'.
Proof.
  intros Hnow. destruct (NormalizeFacts.century_facts now Hnow) as [Hcs Hcl].
  assert (Hpartial : forall mm yyyy,
             Str.no_slash mm = true -> Str.no_slash yyyy = true ->
             normalize_expiry_date now
               (Py.zfill 2 mm ++ "/" ++ resolve_year (century_of now) yyyy)
             = Some (Py.zfill 2 mm ++ "/" ++ resolve_year (century_of now) yyyy)%string).
  { intros mm yyyy Hm Hy. unfold normalize_expiry_date at 1.
    rewrite FormFacts.split_partial
      by auto using NormalizeFacts.zfill_no_slash, NormalizeFacts.resolve_no_slash.
    rewrite NormalizeFacts.zfill_zfill.
    rewrite (FormFacts.resolve_settled _ (resolve_year (century_of now) yyyy))
      by now apply NormalizeFacts.resolve_length.
    reflexivity. }
  unfold normalize_expiry_date at 1.
  destruct (Py.split Chars.slash d) as [|p1 [|p2 [|p3 [|p4 ps]]]] eqn:Es;
    try discriminate.
  - assert (H1 : Str.no_slash p1 = true)
      by (apply (NormalizeFacts.split_parts_no_slash d); rewrite Es; simpl; auto).
    assert (H2 : Str.no_slash p2 = true)
      by (apply (NormalizeFacts.split_parts_no_slash d); rewrite Es; simpl; auto).
    intros [= <-]. now apply Hpartial.
  - assert (H1 : Str.no_slash p1 = true)
      by (apply (NormalizeFacts.split_parts_no_slash d); rewrite Es; simpl; auto).
    assert (H2 : Str.no_slash p2 = true)
      by (apply (NormalizeFacts.split_parts_no_slash d); rewrite Es; simpl; auto).
    assert (H3 : Str.no_slash p3 = true)
      by (apply (NormalizeFacts.split_parts_no_slash d); rewrite Es; simpl; auto).
    destruct (Py.truthy p2); [|intros [= <-]; now apply Hpartial].
    intros Hd.
    replace d' with (Py.zfill 2 p1 ++ "/" ++ Py.zfill 2 p2 ++ "/"
                     ++ resolve_year (century_of now) p3)%string by congruence.
    unfold normalize_expiry_date.
    rewrite FormFacts.split_full
      by auto using NormalizeFacts.zfill_no_slash, NormalizeFacts.resolve_no_slash.
    rewrite !NormalizeFacts.zfill_zfill, NormalizeFacts.truthy_zfill.
    rewrite (FormFacts.resolve_settled _ (resolve_year (century_of now) p3))
      by now apply NormalizeFacts.resolve_length.
    reflexivity.
Qed.

Lemma normalize_twice_witness :
  normalize_expiry_date 2026 "7/4/23" = Some "07/04/2023"
  /\ normalize_expiry_date 2026 "07/04/2023" = Some "07/04/2023".
Proof.
  assert (H : normalize_expiry_date 2026 "7/4/23" = Some "07/04/2023") by reflexivity.
  split; [exact H|].
  apply (normalize_twice 2026 "7/4/23" "07/04/2023"); [lia | exact H].
Defined.

(* ================================================================== *)
(** * More on the ranker and the aggregator *)

(** The sort of line 123 sorts: where every key is defined, it returns the
    dates it was given, rearranged, in descending order of key. *)
Theorem sorted_desc_sorts (l : list string) :
  (forall d, In d l -> exists k, date_key d = Ret k) ->
  exists s, sorted_desc l = Ret s /\ Permutation s l /\ StronglySorted key_ge s.
Proof.
  intros Hkeys. unfold sorted_desc.
  destruct (SortFacts.mapM_defined date_key l Hkeys) as [keys Hk].
  rewrite Hk. simpl bind.
  destruct (SortFacts.mapM_combine date_key l keys Hk) as [Hsnd Hkey].
  set (pairs0 := combine keys l) in *.
  pose proof (SortFacts.isort_perm pairs0) as Hperm.
  pose proof (SortFacts.isort_sorted pairs0) as Hsorted.
  set (pairs := fold_right insert_desc [] pairs0) in *.
  eexists. split; [reflexivity|]. split.
  - rewrite <- Hsnd. now apply Permutation_map.
  - assert (Hp : forall p, In p pairs -> date_key (snd p) = Ret (fst p)).
    { intros [k d] Hin. apply (Permutation_in _ Hperm) in Hin. now apply Hkey. }
    clearbody pairs. clear Hperm.
    induction Hsorted as [|p ps Hs IH Hall]; simpl; constructor.
    + apply IH. intros q Hq. apply Hp. now right.
    + rewrite Forall_forall in Hall. apply Forall_forall. intros d Hd.
      apply in_map_iff in Hd. destruct Hd as (q & <- & Hq).
      intros ka kb Ha Hb.
      rewrite (Hp p (or_introl eq_refl)) in Ha. rewrite (Hp q (or_intror Hq)) in Hb.
      injection Ha as <-. injection Hb as <-. exact (Hall q Hq).
Qed.

Lemma sorted_desc_sorts_witness :
  exists s, sorted_desc ["01/15/2025"; "12/2030"; "03/01/2027"] = Ret s
            /\ Permutation s ["01/15/2025"; "12/2030"; "03/01/2027"]
            /\ StronglySorted key_ge s.
Proof.
  apply (sorted_desc_sorts ["01/15/2025"; "12/2030"; "03/01/2027"]).
  intros d [<- | [<- | [<- | []]]]; eexists; reflexivity.
Defined.

Module AggregatorFacts.

Lemma set_add_In (x y : string) (s : list string) :
  In x (Py.set_add y s) <-> x = y \/ In x s.
Proof.
  unfold Py.set_add. destruct (existsb (String.eqb y) s) eqn:E.
  - split; [auto|]. intros [-> | H]; [|exact H].
    apply existsb_exists in E. destruct E as (z & Hz & Ez).
    apply String.eqb_eq in Ez. now subst.
  - rewrite in_app_iff. simpl. intuition.
Qed.

Lemma set_add_not_nil (y : string) (s : list string) : Py.set_add y s <> [].
Proof.
  intros H. assert (Hin : In y (Py.set_add y s)) by (apply set_add_In; now left).
  rewrite H in Hin. destruct Hin.
Qed.

(** Of candidates that are their own normal forms, the set of normal forms
    has the same elements. *)
Lemma normalize_all_In (set_order : list string -> list string) (now : Z)
      (cands : list string) (x : string) :
  (forall s, Permutation (set_order s) s) ->
  Forall (date_form year_3_4) cands ->
  In x (normalize_all set_order now cands) <-> In x cands.
Proof.
  intros Hperm Hc. unfold normalize_all.
  assert (Hc' : Forall (date_form year_3_4) (set_order cands))
    by exact (Permutation_Forall (Permutation_sym (Hperm cands)) Hc).
  assert (Hin : In x cands <-> In x (set_order cands)).
  { split; apply Permutation_in; [apply Permutation_sym|]; apply Hperm. }
  rewrite Hin. clear Hin Hc.
  assert (Hgen : forall acc,
             In x (fold_left
                     (fun normalized c =>
                        match normalize_expiry_date now c with
                        | Some norm =>
                            if Py.truthy norm then Py.set_add norm normalized
                            else normalized
                        | None => normalized
                        end) (set_order cands) acc)
             <-> In x acc \/ In x (set_order cands)).
  { induction (set_order cands) as [|c l IH]; intros acc; simpl; [tauto|].
    apply Forall_cons_iff in Hc' as [Hc1 Hc2].
    rewrite (IH Hc2).
    rewrite (FormFacts.normalize_fixed now c)
      by (apply (FormFacts.form_impl year_3_4);
          [apply FormFacts.year_3_4_settled | exact Hc1]).
    assert (Ht : Py.truthy c = true).
    { destruct Hc1 as [mm dd yyyy [Lm _] _ _ | mm yyyy [Lm _] _];
        destruct mm; try discriminate Lm; reflexivity. }
    rewrite Ht, set_add_In. intuition. }
  rewrite Hgen. simpl. tauto.
Qed.

(** The candidate set, by strategy. *)
Lemma collect_cases (now : Z) (text : string) :
  (tier_same_line now text <> [] /\ collect_candidates now text = tier_same_line now text)
  \/ (tier_same_line now text = [] /\ tier_next_line now text <> []
      /\ collect_candidates now text = tier_next_line now text)
  \/ (tier_same_line now text = [] /\ tier_next_line now text = []
      /\ collect_candidates now text = tier_global now text).
Proof.
  unfold collect_candidates, tier_same_line, tier_next_line, tier_global.
  destruct (same_line_pass _ _ []) as [|c1 cs1]; simpl.
  - destruct (next_line_pass _ _ []) as [|c2 cs2]; simpl.
    + right. right. auto.
    + right. left. repeat split; congruence.
  - left. split; congruence.
Qed.

End AggregatorFacts.

(* ================================================================== *)
(** * The three strategies and their order *)

Module StrategyFacts.

Lemma set_add_NoDup (x : string) (s : list string) :
  NoDup s -> NoDup (Py.set_add x s).
Proof.
  intros H. unfold Py.set_add. destruct (existsb (String.eqb x) s) eqn:E; [exact H|].
  apply NoDup_app; [exact H | repeat constructor; intros [] |].
  intros y Hy [Exy | []]. subst y.
  assert (existsb (String.eqb x) s = true).
  { apply existsb_exists. exists x. split; [exact Hy | apply String.eqb_refl]. }
  congruence.
Qed.

(** What a match adds to the set. *)
Lemma add_match_In (century : string) (cands g : list string) (d : string) :
  In d (add_match century cands g)
  <-> In d cands \/ candidate_of century g = Some d.
Proof.
  unfold add_match, candidate_of.
  destruct g as [|m0 [|m1 [|m2 [|m3 g]]]];
    rewrite ?AggregatorFacts.set_add_In;
    split; try tauto; try (intros [H | H]; [tauto | discriminate H]);
    try (intros [-> | H]; [right; reflexivity | left; exact H]);
    intros [H | [= <-]]; auto.
Qed.

Lemma add_match_NoDup (century : string) (cands g : list string) :
  NoDup cands -> NoDup (add_match century cands g).
Proof.
  intros H. unfold add_match.
  destruct g as [|m0 [|m1 [|m2 [|m3 g]]]]; try exact H; now apply set_add_NoDup.
Qed.

(** A loop that adds to a set: what is in the set at the end. *)
Lemma fold_left_In {B : Type} (f : list string -> B -> list string)
      (added : B -> list string) (l : list B) (a : list string) (d : string) :
  (forall a x, In d (f a x) <-> In d a \/ In d (added x)) ->
  In d (fold_left f l a) <-> In d a \/ In d (flat_map added l).
Proof.
  intros Hf. revert a. induction l as [|x l IH]; intros a; cbn [fold_left flat_map].
  - simpl. tauto.
  - rewrite IH, Hf, in_app_iff. tauto.
Qed.

Lemma fold_left_NoDup {B : Type} (f : list string -> B -> list string)
      (l : list B) (a : list string) :
  (forall a x, NoDup a -> NoDup (f a x)) -> NoDup a -> NoDup (fold_left f l a).
Proof.
  intros Hf. revert a. induction l as [|x l IH]; intros a Ha; cbn [fold_left]; auto.
Qed.

(** The scan of a span adds the dates written in it. *)
Lemma scan_In (century : string) (cands : list string) (span d : string) :
  In d (scan century cands span) <-> In d cands \/ In d (dates_in century span).
Proof.
  unfold scan, dates_in. apply fold_left_In. intros a pattern.
  apply fold_left_In. intros a' g. rewrite add_match_In.
  destruct (candidate_of century g) as [c|]; simpl; split;
    intros [H | H]; auto; try (injection H as <-; auto); try discriminate H;
    try (destruct H as [<- | []]; auto); destruct H.
Qed.

Lemma scan_NoDup (century : string) (cands : list string) (span : string) :
  NoDup cands -> NoDup (scan century cands span).
Proof.
  unfold scan. apply fold_left_NoDup. intros a pattern.
  apply fold_left_NoDup. intros a' g. apply add_match_NoDup.
Qed.

(** The first loop adds the dates of the lines with a keyword. *)
Lemma same_line_In (century : string) (lines cands : list string) (d : string) :
  In d (same_line_pass century lines cands)
  <-> In d cands \/ In d (same_line_dates century lines).
Proof.
  unfold same_line_pass, same_line_dates. apply fold_left_In. intros a line.
  destruct (has_keyword line); [apply scan_In | simpl; tauto].
Qed.

Lemma same_line_NoDup (century : string) (lines cands : list string) :
  NoDup cands -> NoDup (same_line_pass century lines cands).
Proof.
  unfold same_line_pass. apply fold_left_NoDup. intros a line Ha.
  destruct (has_keyword line); [now apply scan_NoDup | exact Ha].
Qed.

(** The dates the second loop adds at index [i]. *)
Lemma next_line_at (century : string) (lines : list string) (start : nat) (d : string) :
  In d (flat_map
          (fun i =>
             match nth_error lines (i - start) with
             | Some line =>
                 if has_keyword line then
                   match nth_error lines (i - start + 1) with
                   | Some next_line => dates_in century next_line
                   | None => []
                   end
                 else []
             | None => []
             end)
          (seq start (List.length lines)))
  <-> In d (next_line_dates century lines).
Proof.
  revert start. induction lines as [|line rest IH]; intros start; [simpl; tauto|].
  cbn [List.length seq flat_map]. rewrite in_app_iff.
  replace (start - start) with 0 by lia. cbn [nth_error Nat.add].
  assert (Hrest : In d (flat_map
                          (fun i =>
                             match nth_error (line :: rest) (i - start) with
                             | Some line0 =>
                                 if has_keyword line0 then
                                   match nth_error (line :: rest) (i - start + 1) with
                                   | Some next_line => dates_in century next_line
                                   | None => []
                                   end
                                 else []
                             | None => []
                             end)
                          (seq (S start) (List.length rest)))
                  <-> In d (next_line_dates century rest)).
  { rewrite <- (IH (S start)). rewrite !in_flat_map.
    split; intros (i & Hi & H); exists i; (split; [exact Hi|]);
      apply in_seq in Hi;
      replace (i - start) with (S (i - S start)) in * by lia; exact H. }
  rewrite Hrest. destruct rest as [|next_line rest'].
  - cbn [nth_error next_line_dates]. destruct (has_keyword line); simpl; tauto.
  - cbn [nth_error]. change (next_line_dates century (line :: next_line :: rest'))
      with ((if has_keyword line then dates_in century next_line else [])
              ++ next_line_dates century (next_line :: rest')).
    rewrite in_app_iff. tauto.
Qed.

(** The second loop adds the dates of the lines after a line with a
    keyword. *)
Lemma next_line_In (century : string) (lines cands : list string) (d : string) :
  In d (next_line_pass century lines cands)
  <-> In d cands \/ In d (next_line_dates century lines).
Proof.
  rewrite <- (next_line_at century lines 0 d). unfold next_line_pass.
  rewrite (fold_left_In _
             (fun i =>
                match nth_error lines (i - 0) with
                | Some line =>
                    if has_keyword line then
                      match nth_error lines (i - 0 + 1) with
                      | Some next_line => dates_in century next_line
                      | None => []
                      end
                    else []
                | None => []
                end)); [reflexivity|].
  intros a i. rewrite Nat.sub_0_r.
  destruct (nth_error lines i) as [line|]; [|simpl; tauto].
  destruct (has_keyword line); [|simpl; tauto].
  destruct (nth_error lines (i + 1)) as [next_line|]; [apply scan_In | simpl; tauto].
Qed.

Lemma next_line_NoDup (century : string) (lines cands : list string) :
  NoDup cands -> NoDup (next_line_pass century lines cands).
Proof.
  unfold next_line_pass. apply fold_left_NoDup. intros a i Ha.
  destruct (nth_error lines i) as [line|]; [|exact Ha].
  destruct (has_keyword line); [|exact Ha].
  destruct (nth_error lines (i + 1)); [now apply scan_NoDup | exact Ha].
Qed.

Lemma empty_iff (l l' : list string) :
  (forall d, In d l <-> In d l') -> (l = [] <-> l' = []).
Proof.
  intros H. split; intros ->.
  - destruct l' as [|x l']; [reflexivity|]. destruct (proj2 (H x)). now left.
  - destruct l as [|x l]; [reflexivity|]. destruct (proj1 (H x)). now left.
Qed.

End StrategyFacts.

(** C2. The three strategies run in strict order and the first that yields
    a candidate decides.  If a line with a keyword carries a date, the
    candidates are the dates of the lines with a keyword and no others: the
    other two strategies do not run.  If not, and a line right after a line
    with a keyword carries a date, the candidates are the dates of such
    lines and no others: the global scan does not run.  If neither, the
    candidates are the dates of the whole text.  The candidates are a set:
    no date is there twice. *)
Theorem tiers_in_priority_order (now : Z) (text : string) :
  let century := century_of now in
  let lines := Py.splitlines text in
  (same_line_dates century lines <> [] ->
   forall d, In d (collect_candidates now text)
             <-> In d (same_line_dates century lines))
  /\ (same_line_dates century lines = [] -> next_line_dates century lines <> [] ->
      forall d, In d (collect_candidates now text)
                <-> In d (next_line_dates century lines))
  /\ (same_line_dates century lines = [] -> next_line_dates century lines = [] ->
      forall d, In d (collect_candidates now text)
                <-> In d (dates_in century text))
  /\ NoDup (collect_candidates now text).
Proof.
  intros century lines. unfold collect_candidates. fold century. fold lines.
  pose proof (fun d => StrategyFacts.same_line_In century lines [] d) as H1.
  pose proof (fun d => StrategyFacts.next_line_In century lines [] d) as H2.
  pose proof (fun d => StrategyFacts.scan_In century [] text d) as H3.
  assert (E1 : same_line_pass century lines [] = [] <-> same_line_dates century lines = []).
  { apply StrategyFacts.empty_iff. intros d. rewrite H1. simpl. tauto. }
  assert (E2 : next_line_pass century lines [] = [] <-> next_line_dates century lines = []).
  { apply StrategyFacts.empty_iff. intros d. rewrite H2. simpl. tauto. }
  pose proof (StrategyFacts.same_line_NoDup century lines [] (NoDup_nil _)) as N1.
  pose proof (StrategyFacts.next_line_NoDup century lines [] (NoDup_nil _)) as N2.
  pose proof (StrategyFacts.scan_NoDup century [] text (NoDup_nil _)) as N3.
  destruct (same_line_pass century lines []) as [|c1 cs1] eqn:P1; cbn [is_empty].
  - destruct (next_line_pass century lines []) as [|c2 cs2] eqn:P2; cbn [is_empty].
    + split; [|split; [|split]].
      * intros Hne. exfalso. apply Hne, E1. reflexivity.
      * intros _ Hne. exfalso. apply Hne, E2. reflexivity.
      * intros _ _ d. rewrite H3. simpl. tauto.
      * exact N3.
    + split; [|split; [|split]].
      * intros Hne. exfalso. apply Hne, E1. reflexivity.
      * intros _ _ d. rewrite H2. simpl. tauto.
      * intros _ He. apply E2 in He. discriminate He.
      * exact N2.
  - split; [|split; [|split]].
    + intros _ d. rewrite H1. simpl. tauto.
    + intros He. apply E1 in He. discriminate He.
    + intros He. apply E1 in He. discriminate He.
    + exact N1.
Qed.

(** A text with a date on a line with a keyword, one on the line before it
    and one on the line after it: the candidates are the dates of the line
    with the keyword (the partial pattern reads "08/30" there too).  A text
    with a keyword line without a date, a date on the next line and one
    further down: the candidates are the dates of the next line. *)
Lemma tiers_in_priority_order_witness :
  (forall d,
      In d (collect_candidates 2026
              ("seen 01/01/2031" ++ String "010" "EXP 08/30/2028"
                                 ++ String "010" "02/02/2032"))
      <-> In d ["08/30/2028"; "08/2030"])
  /\ (forall d,
         In d (collect_candidates 2026
                 ("Expires" ++ String "010" "07/04/2031" ++ String "010" "01/01/2035"))
         <-> In d ["07/04/2031"; "07/2004"]).
Proof.
  split.
  - apply (proj1 (tiers_in_priority_order 2026
                    ("seen 01/01/2031" ++ String "010" "EXP 08/30/2028"
                                       ++ String "010" "02/02/2032"))).
    vm_compute. discriminate.
  - apply (proj1 (proj2 (tiers_in_priority_order 2026
                           ("Expires" ++ String "010" "07/04/2031"
                                      ++ String "010" "01/01/2035")))).
    + vm_compute. reflexivity.
    + vm_compute. discriminate.
Defined.

Section ResultFacts.

Variable set_order : list string -> list string.
Hypothesis set_order_perm : forall s, Permutation (set_order s) s.

Variable now : Z.
Hypothesis now_range : (1 <= now <= 9999)%Z.

(** What the extraction returns, in terms of the candidate set. *)
Lemma extract_cases (text : string) :
  (collect_candidates now text = [] /\ extract_expiry_dates set_order now text = Ret [])
  \/ (exists d, In d (collect_candidates now text)
                /\ extract_expiry_dates set_order now text = Ret [d]).
Proof.
  pose proof (CandidateFacts.candidates_good now text now_range) as Hc.
  pose proof (normalize_all_good set_order set_order_perm now _ Hc) as Hn.
  unfold extract_expiry_dates.
  destruct (collect_candidates now text) as [|c cs].
  - left. split; [reflexivity|]. unfold normalize_all.
    rewrite (Permutation_nil (Permutation_sym (set_order_perm []))). simpl.
    now rewrite (Permutation_nil (Permutation_sym (set_order_perm []))).
  - right.
    pose proof (fun x => AggregatorFacts.normalize_all_In set_order now (c :: cs) x
                           set_order_perm Hc) as Hsame.
    set (normalized := normalize_all set_order now (c :: cs)) in *.
    assert (Hs : Forall (date_form year_3_4) (set_order normalized))
      by exact (Permutation_Forall (Permutation_sym (set_order_perm normalized)) Hn).
    assert (Hne : set_order normalized <> []).
    { intros E. assert (Hin : In c normalized) by (apply Hsame; now left).
      apply (Permutation_in _ (Permutation_sym (set_order_perm normalized))) in Hin.
      rewrite E in Hin. destruct Hin. }
    rewrite Forall_forall in Hs.
    destruct (pick_latest_spec (set_order normalized)) as (d & k & Hp & Hin & _).
    + intros d Hd. apply FormFacts.date_key_defined.
      apply (FormFacts.form_impl year_3_4);
        [apply FormFacts.year_3_4_settled | auto].
    + exact Hne.
    + exists d. split; [|exact Hp].
      apply (Permutation_in _ (set_order_perm normalized)) in Hin.
      now apply Hsame.
Qed.

End ResultFacts.

(** The date the extraction returns is one of the candidates found in the
    text, and the extraction returns nothing only when no candidate was
    found. *)
Theorem extraction_returns_a_candidate
        (set_order : list string -> list string) (now : Z) (text : string) :
  (forall s, Permutation (set_order s) s) -> (1 <= now <= 9999)%Z ->
  (forall d, extract_expiry_dates set_order now text = Ret [d] ->
             In d (collect_candidates now text))
  /\ (extract_expiry_dates set_order now text = Ret []
      <-> collect_candidates now text = []).
Proof.
  intros Hperm Hnow.
  destruct (extract_cases set_order Hperm now Hnow text) as [[Hc Hr] | (d & Hd & Hr)].
  - split; [rewrite Hr; discriminate | tauto].
  - split.
    + intros d' Hd'. rewrite Hr in Hd'. injection Hd' as <-. exact Hd.
    + rewrite Hr. split; [discriminate|]. intros E. rewrite E in Hd. destruct Hd.
Qed.

Lemma extraction_returns_a_candidate_witness :
  In "08/30/2028" (collect_candidates 2026 "EXP 08/30/2028").
Proof.
  apply (extraction_returns_a_candidate insertion_order 2026 "EXP 08/30/2028").
  - intros s. apply Permutation_refl.
  - lia.
  - reflexivity.
Defined.



(* ================================================================== *)
(** * The sort key *)

Module KeyFacts.

Open Scope Z_scope.

Lemma digit_val_range (c : ascii) :
  Chars.is_digit c = true -> 0 <= Chars.digit_val c <= 9.
Proof.
  unfold Chars.is_digit, Chars.digit_val.
  rewrite andb_true_iff, !Nat.leb_le. lia.
Qed.



Lemma dec_value_two (s : string) : digits 2 s -> 0 <= dec_value s 0 <= 99.
Proof.
  intros [Hl Ha]. destruct s as [|a [|b [|c s]]]; try discriminate Hl.
  simpl in Ha. apply andb_true_iff in Ha as [Ha Hb].
  apply andb_true_iff in Hb as [Hb _].
  pose proof (digit_val_range a Ha). pose proof (digit_val_range b Hb).
  cbn [dec_value]. lia.
Qed.


(** The key of MM/DD/Y..: year*10000 + month*100 + day. *)
Lemma date_key_full (mm dd yyyy : string) :
  digits 2 mm -> digits 2 dd -> digits 4 yyyy ->
  date_key (mm ++ "/" ++ dd ++ "/" ++ yyyy)
  = Ret (dec_value yyyy 0 * 10000 + dec_value mm 0 * 100 + dec_value dd 0).
Proof.
  intros Dm Dd Dy. unfold date_key.
  pose proof (FormFacts.digits_nonempty _ _ Dm) as Nm.
  pose proof (FormFacts.digits_nonempty _ _ Dd) as Nd.
  pose proof (FormFacts.digits_nonempty _ _ Dy) as Ny.
  destruct Dm as [Lm Hm], Dd as [Ld Hd], Dy as [Ly Hy].
  rewrite FormFacts.split_full by auto using FormFacts.digits_no_slash.
  cbn [List.length Nat.eqb bind].
  rewrite (int_value yyyy Hy Ny), (int_value mm Hm Nm), (int_value dd Hd Nd)
    by (apply PyFacts.short_length; lia).
  reflexivity.
Qed.

(** The key of MM/Y..: the key of the first day of the month. *)
Lemma date_key_partial (mm yyyy : string) :
  digits 2 mm -> digits 4 yyyy ->
  date_key (mm ++ "/" ++ yyyy)
  = Ret (dec_value yyyy 0 * 10000 + dec_value mm 0 * 100 + 1).
Proof.
  intros Dm Dy. unfold date_key.
  pose proof (FormFacts.digits_nonempty _ _ Dm) as Nm.
  pose proof (FormFacts.digits_nonempty _ _ Dy) as Ny.
  destruct Dm as [Lm Hm], Dy as [Ly Hy].
  rewrite FormFacts.split_partial by auto using FormFacts.digits_no_slash.
  cbn [List.length Nat.eqb bind].
  rewrite (int_value yyyy Hy Ny), (int_value mm Hm Nm)
    by (apply PyFacts.short_length; lia).
  reflexivity.
Qed.

End KeyFacts.

(** The sort key orders dates as the calendar does: of two full dates, the
    one with the smaller key has the earlier year, or the same year and the
    earlier month, or the same year and month and the earlier day; and a
    partial date has the key of the first day of its month. *)
Theorem date_key_is_chronological (mm dd yyyy mm' dd' yyyy' : string) :
  digits 2 mm -> digits 2 dd -> digits 4 yyyy ->
  digits 2 mm' -> digits 2 dd' -> digits 4 yyyy' ->
  let Y := dec_value yyyy 0 in let M := dec_value mm 0 in let D := dec_value dd 0 in
  let Y' := dec_value yyyy' 0 in let M' := dec_value mm' 0 in let D' := dec_value dd' 0 in
  exists k k',
    date_key (mm ++ "/" ++ dd ++ "/" ++ yyyy) = Ret k
    /\ date_key (mm' ++ "/" ++ dd' ++ "/" ++ yyyy') = Ret k'
    /\ ((k < k')%Z <->
        (Y < Y' \/ (Y = Y' /\ (M < M' \/ (M = M' /\ D < D'))))%Z)
    /\ date_key (mm ++ "/" ++ yyyy) = date_key (mm ++ "/" ++ "01" ++ "/" ++ yyyy).
Proof.
  intros Dm Dd Dy Dm' Dd' Dy' Y M D Y' M' D'.
  pose proof (FormFacts.digits_nonempty _ _ Dy) as Ny.
  pose proof (FormFacts.digits_nonempty _ _ Dy') as Ny'.
  exists (Y * 10000 + M * 100 + D)%Z, (Y' * 10000 + M' * 100 + D')%Z.
  split; [apply KeyFacts.date_key_full; assumption|].
  split; [apply KeyFacts.date_key_full; assumption|].
  split.
  - pose proof (KeyFacts.dec_value_two mm Dm). pose proof (KeyFacts.dec_value_two dd Dd).
    pose proof (KeyFacts.dec_value_two mm' Dm'). pose proof (KeyFacts.dec_value_two dd' Dd').
    subst Y M D Y' M' D'. lia.
  - rewrite KeyFacts.date_key_partial by assumption.
    rewrite KeyFacts.date_key_full by (try assumption; split; reflexivity).
    reflexivity.
Qed.

Lemma date_key_is_chronological_witness :
  exists k k',
    date_key "12/31/2027" = Ret k /\ date_key "01/01/2028" = Ret k' /\ (k < k')%Z.
Proof.
  destruct (date_key_is_chronological "12" "31" "2027" "01" "01" "2028")
    as (k & k' & H1 & H2 & H3 & _); try (split; reflexivity).
  exists k, k'. split; [exact H1|]. split; [exact H2|].
  apply H3. left. vm_compute. reflexivity.
Defined.

Module RankFacts.





End RankFacts.



(** With a year of three digits in the set the order can matter: "0025" and
    "025" are one year to the sort key. *)
Example ranker_tie :
  pick_latest ["01/15/0025"; "01/15/025"] = Ret ["01/15/0025"]
  /\ pick_latest ["01/15/025"; "01/15/0025"] = Ret ["01/15/025"].
Proof. split; reflexivity. Qed.

(* ================================================================== *)
(** * Ordinals and dates *)

Module OrdinalFacts.

Open Scope Z_scope.

Lemma months_checked :
  forallb (fun n => month_day_ok false n && month_day_ok true n) (Zrange 0 364) = true.
Proof. vm_compute. reflexivity. Qed.

Lemma month_day_spec (leapyear : bool) (n : Z) :
  0 <= n <= 364 ->
  exists m d,
    month_day leapyear n = (m, d)
    /\ 1 <= m <= 12 /\ 1 <= d
    /\ d <= (if (m =? 2) && leapyear then 29 else Datetime.table Datetime.DAYS_IN_MONTH m)
    /\ Datetime.table Datetime.DAYS_BEFORE_MONTH m
       + (if (2 <? m) && leapyear then 1 else 0) + d = n + 1.
Proof.
  intros Hn.
  pose proof (forallb_Zrange _ 0 364 n months_checked Hn) as H. cbn beta in H.
  apply andb_true_iff in H as [Hf Ht].
  assert (Hok : month_day_ok leapyear n = true) by (destruct leapyear; assumption).
  unfold month_day_ok in Hok. destruct (month_day leapyear n) as [m d].
  rewrite !andb_true_iff, !Z.leb_le, Z.eqb_eq in Hok.
  exists m, d. intuition.
Qed.

Lemma ord2ymd_eq (n : Z) :
  Datetime.ord2ymd n
  = let n0 := n - 1 in
    let n400 := n0 / 146097 in
    let r1 := n0 mod 146097 in
    let n100 := r1 / 36524 in
    let r2 := r1 mod 36524 in
    let n4 := r2 / 1461 in
    let r3 := r2 mod 1461 in
    let n1 := r3 / 365 in
    let r4 := r3 mod 365 in
    let y := n400 * 400 + 1 + n100 * 100 + n4 * 4 + n1 in
    if (n1 =? 4) || (n100 =? 4) then (y - 1, 12, 31)
    else
      let '(m, d) := month_day ((n1 =? 3) && (negb (n4 =? 24) || (n100 =? 3))) r4 in
      (y, m, d).
Proof.
  unfold Datetime.ord2ymd, month_day, Datetime.DI400Y, Datetime.DI100Y, Datetime.DI4Y.
  cbv zeta.
  destruct ((((n - 1) mod 146097) mod 36524) mod 1461 / 365 =? 4); cbn [orb]; [reflexivity|].
  destruct ((n - 1) mod 146097 / 36524 =? 4); [reflexivity|].
  match goal with |- context [if (?a <? ?b) then _ else _] => destruct (a <? b) end;
    reflexivity.
Qed.

Lemma is_leap_true (y : Z) :
  Datetime.is_leap y = true <-> (y mod 4 = 0 /\ (y mod 100 <> 0 \/ y mod 400 = 0)).
Proof.
  unfold Datetime.is_leap.
  rewrite andb_true_iff, orb_true_iff, negb_true_iff, !Z.eqb_eq, Z.eqb_neq. tauto.
Qed.

(** The year [_ord2ymd] finds, and the days before it. *)
Lemma year_of_ordinal (n0 n400 n100 n4 n1 r1 r2 r3 r4 : Z) :
  0 <= n0 ->
  n0 = 146097 * n400 + r1 -> 0 <= r1 < 146097 ->
  r1 = 36524 * n100 + r2 -> 0 <= r2 < 36524 ->
  r2 = 1461 * n4 + r3 -> 0 <= r3 < 1461 ->
  r3 = 365 * n1 + r4 -> 0 <= r4 < 365 ->
  n1 <> 4 -> n100 <> 4 ->
  let y := n400 * 400 + 1 + n100 * 100 + n4 * 4 + n1 in
  Datetime.days_before_year y = n0 - r4
  /\ Datetime.is_leap y = (n1 =? 3) && (negb (n4 =? 24) || (n100 =? 3))
  /\ 1 <= y
  /\ (n0 < Datetime.MAXORDINAL -> y <= 9999).
Proof.
  intros H0 E1 B1 E2 B2 E3 B3 E4 B4 N1 N100 y.
  assert (Hn1 : 0 <= n1 <= 3) by lia.
  assert (Hn4 : 0 <= n4 <= 24) by lia.
  assert (Hn100 : 0 <= n100 <= 3) by lia.
  assert (Hn400 : 0 <= n400) by lia.
  assert (Hy : y - 1 = 400 * n400 + 100 * n100 + 4 * n4 + n1) by (subst y; ring).
  split; [|split; [|split]].
  - unfold Datetime.days_before_year. cbv zeta. rewrite Hy.
    assert (Q4 : (400 * n400 + 100 * n100 + 4 * n4 + n1) / 4 = 100 * n400 + 25 * n100 + n4)
      by (symmetry; apply (Z.div_unique _ 4 _ n1); lia).
    assert (Q100 : (400 * n400 + 100 * n100 + 4 * n4 + n1) / 100 = 4 * n400 + n100)
      by (symmetry; apply (Z.div_unique _ 100 _ (4 * n4 + n1)); lia).
    assert (Q400 : (400 * n400 + 100 * n100 + 4 * n4 + n1) / 400 = n400)
      by (symmetry; apply (Z.div_unique _ 400 _ (100 * n100 + 4 * n4 + n1)); lia).
    rewrite Q4, Q100, Q400. lia.
  - assert (M4 : y mod 4 = (n1 + 1) mod 4).
    { replace y with (n1 + 1 + (100 * n400 + 25 * n100 + n4) * 4) by (subst y; ring).
      apply Z_mod_plus_full. }
    assert (M100 : y mod 100 = (4 * n4 + n1 + 1) mod 100).
    { replace y with (4 * n4 + n1 + 1 + (4 * n400 + n100) * 100) by (subst y; ring).
      apply Z_mod_plus_full. }
    assert (M400 : y mod 400 = (100 * n100 + 4 * n4 + n1 + 1) mod 400).
    { replace y with (100 * n100 + 4 * n4 + n1 + 1 + n400 * 400) by (subst y; ring).
      apply Z_mod_plus_full. }
    unfold Datetime.is_leap. rewrite M4, M100, M400.
    destruct (Z.eqb_spec n1 3) as [-> | Hn13].
    + change ((3 + 1) mod 4) with 0. cbn [Z.eqb andb].
      destruct (Z.eqb_spec n4 24) as [-> | Hn424].
      * change ((4 * 24 + 3 + 1) mod 100) with 0. cbn [Z.eqb negb orb].
        destruct (Z.eqb_spec n100 3) as [-> | Hn1003]; [reflexivity|].
        apply Z.eqb_neq. rewrite Z.mod_small by lia. lia.
      * cbn [negb orb].
        assert ((4 * n4 + 3 + 1) mod 100 <> 0) by (rewrite Z.mod_small by lia; lia).
        destruct (Z.eqb_spec ((4 * n4 + 3 + 1) mod 100) 0); [contradiction | reflexivity].
    + cbn [andb].
      assert ((n1 + 1) mod 4 <> 0) by (rewrite Z.mod_small by lia; lia).
      destruct (Z.eqb_spec ((n1 + 1) mod 4) 0); [contradiction | reflexivity].
  - lia.
  - unfold Datetime.MAXORDINAL. lia.
Qed.

(** [_ord2ymd] is the inverse of [_ymd2ord]: the date it finds for an
    ordinal of the calendar is a date of the calendar, with that ordinal. *)
Lemma ord2ymd_spec (n : Z) :
  1 <= n <= Datetime.MAXORDINAL ->
  exists y m d,
    Datetime.ord2ymd n = (y, m, d)
    /\ valid_date y m d = true
    /\ Datetime.ymd2ord y m d = n.
Proof.
  intros Hn. rewrite ord2ymd_eq. cbv zeta.
  set (n0 := n - 1).
  set (n400 := n0 / 146097). set (r1 := n0 mod 146097).
  set (n100 := r1 / 36524). set (r2 := r1 mod 36524).
  set (n4 := r2 / 1461). set (r3 := r2 mod 1461).
  set (n1 := r3 / 365). set (r4 := r3 mod 365).
  assert (H0 : 0 <= n0) by (subst n0; lia).
  assert (E1 : n0 = 146097 * n400 + r1) by (apply Z.div_mod; lia).
  assert (B1 : 0 <= r1 < 146097) by (apply Z.mod_pos_bound; lia).
  assert (E2 : r1 = 36524 * n100 + r2) by (apply Z.div_mod; lia).
  assert (B2 : 0 <= r2 < 36524) by (apply Z.mod_pos_bound; lia).
  assert (E3 : r2 = 1461 * n4 + r3) by (apply Z.div_mod; lia).
  assert (B3 : 0 <= r3 < 1461) by (apply Z.mod_pos_bound; lia).
  assert (E4 : r3 = 365 * n1 + r4) by (apply Z.div_mod; lia).
  assert (B4 : 0 <= r4 < 365) by (apply Z.mod_pos_bound; lia).
  assert (Hmax : n0 < Datetime.MAXORDINAL) by (subst n0; lia).
  clearbody n400 r1 n100 r2 n4 r3 n1 r4.
  assert (Hn400 : 0 <= n400) by lia.
  destruct (Z.eqb_spec n1 4) as [F1 | F1]; cbn [orb].
  - (* the last day of a cycle of four years *)
    assert (Hn4 : 0 <= n4 <= 23) by lia.
    assert (Hn100 : 0 <= n100 <= 3) by lia.
    set (Y := n400 * 400 + 1 + n100 * 100 + n4 * 4 + n1 - 1).
    assert (HY : Y = 4 * (100 * n400 + 25 * n100 + n4 + 1)) by (subst Y; lia).
    assert (Q4 : (Y - 1) / 4 = 100 * n400 + 25 * n100 + n4)
      by (symmetry; apply (Z.div_unique _ 4 _ 3); lia).
    assert (Q100 : (Y - 1) / 100 = 4 * n400 + n100)
      by (symmetry; apply (Z.div_unique _ 100 _ (4 * n4 + 3)); lia).
    assert (Q400 : (Y - 1) / 400 = n400)
      by (symmetry; apply (Z.div_unique _ 400 _ (100 * n100 + 4 * n4 + 3)); lia).
    assert (L : Datetime.is_leap Y = true).
    { apply is_leap_true. split.
      - rewrite HY, Z.mul_comm. apply Z_mod_mult.
      - left. replace Y with (4 * n4 + 4 + (4 * n400 + n100) * 100) by (subst Y; lia).
        rewrite Z_mod_plus_full, Z.mod_small by lia. lia. }
    exists Y, 12, 31. split; [reflexivity|]. split.
    + unfold valid_date, Datetime.days_in_month, Datetime.MINYEAR, Datetime.MAXYEAR.
      change ((12 =? 2) && Datetime.is_leap Y) with false. cbv iota.
      change (Datetime.table Datetime.DAYS_IN_MONTH 12) with 31.
      rewrite !andb_true_iff, !Z.leb_le. unfold Datetime.MAXORDINAL in Hmax.
      subst n0. lia.
    + unfold Datetime.ymd2ord, Datetime.days_before_month, Datetime.days_before_year.
      cbv zeta. rewrite L, Q4, Q100, Q400.
      change (Datetime.table Datetime.DAYS_BEFORE_MONTH 12) with 334.
      change ((2 <? 12) && true) with true. cbv iota. subst n0. lia.
  - destruct (Z.eqb_spec n100 4) as [F100 | F100].
    + (* the last day of a cycle of four hundred years *)
      assert (r2 = 0) by lia. assert (n4 = 0) by lia. assert (r3 = 0) by lia.
      assert (n1 = 0) by lia. assert (r4 = 0) by lia. subst n100 r2 n4 r3 n1.
      set (Y := n400 * 400 + 1 + 4 * 100 + 0 * 4 + 0 - 1).
      assert (HY : Y = 400 * (n400 + 1)) by (subst Y; lia).
      assert (Q4 : (Y - 1) / 4 = 100 * n400 + 99)
        by (symmetry; apply (Z.div_unique _ 4 _ 3); lia).
      assert (Q100 : (Y - 1) / 100 = 4 * n400 + 3)
        by (symmetry; apply (Z.div_unique _ 100 _ 99); lia).
      assert (Q400 : (Y - 1) / 400 = n400)
        by (symmetry; apply (Z.div_unique _ 400 _ 399); lia).
      assert (L : Datetime.is_leap Y = true).
      { apply is_leap_true. split.
        - replace Y with ((100 * (n400 + 1)) * 4) by lia. apply Z_mod_mult.
        - right. replace Y with ((n400 + 1) * 400) by lia. apply Z_mod_mult. }
      exists Y, 12, 31. split; [reflexivity|]. split.
      * unfold valid_date, Datetime.days_in_month, Datetime.MINYEAR, Datetime.MAXYEAR.
        change ((12 =? 2) && Datetime.is_leap Y) with false. cbv iota.
        change (Datetime.table Datetime.DAYS_IN_MONTH 12) with 31.
        rewrite !andb_true_iff, !Z.leb_le. unfold Datetime.MAXORDINAL in Hmax.
        subst n0. lia.
      * unfold Datetime.ymd2ord, Datetime.days_before_month, Datetime.days_before_year.
        cbv zeta. rewrite L, Q4, Q100, Q400.
        change (Datetime.table Datetime.DAYS_BEFORE_MONTH 12) with 334.
        change ((2 <? 12) && true) with true. cbv iota. subst n0. lia.
    + destruct (year_of_ordinal n0 n400 n100 n4 n1 r1 r2 r3 r4
                  H0 E1 B1 E2 B2 E3 B3 E4 B4 F1 F100) as (Hd & Hl & Hy1 & Hy2).
      set (y := n400 * 400 + 1 + n100 * 100 + n4 * 4 + n1) in *.
      set (leapyear := (n1 =? 3) && (negb (n4 =? 24) || (n100 =? 3))) in *.
      destruct (month_day_spec leapyear r4 ltac:(lia)) as (m & d & Em & Hm & Hd1 & Hd2 & Hs).
      rewrite Em. exists y, m, d. split; [reflexivity|]. split.
      * unfold valid_date, Datetime.days_in_month, Datetime.MINYEAR, Datetime.MAXYEAR.
        rewrite Hl, !andb_true_iff, !Z.leb_le. specialize (Hy2 Hmax). lia.
      * unfold Datetime.ymd2ord, Datetime.days_before_month. rewrite Hl, Hd.
        subst n0. lia.
Qed.

Lemma day_of_year_bound (y m d : Z) :
  1 <= m <= 12 -> 1 <= d <= Datetime.days_in_month y m ->
  1 <= Datetime.days_before_month y m + d <= 365 + (if Datetime.is_leap y then 1 else 0).
Proof.
  intros Hm. unfold Datetime.days_in_month, Datetime.days_before_month.
  assert (Hcases : m = 1 \/ m = 2 \/ m = 3 \/ m = 4 \/ m = 5 \/ m = 6 \/ m = 7
                   \/ m = 8 \/ m = 9 \/ m = 10 \/ m = 11 \/ m = 12) by lia.
  destruct Hcases as [->|[->|[->|[->|[->|[->|[->|[->|[->|[->|[->| ->]]]]]]]]]]];
    destruct (Datetime.is_leap y);
    repeat match goal with
           | |- context [Datetime.table ?t ?k] =>
               let e := eval cbv in (Datetime.table t k) in
               change (Datetime.table t k) with e
           | |- context [(?a =? ?b)%Z] =>
               let e := eval cbv in (a =? b)%Z in change (a =? b)%Z with e
           | |- context [(?a <? ?b)%Z] =>
               let e := eval cbv in (a <? b)%Z in change (a <? b)%Z with e
           end;
    cbn [andb]; lia.
Qed.

Lemma next_year (y : Z) :
  Datetime.days_before_year (y + 1)
  = Datetime.days_before_year y + 365 + (if Datetime.is_leap y then 1 else 0).
Proof.
  unfold Datetime.days_before_year, Datetime.is_leap. cbv zeta.
  replace (y + 1 - 1) with y by ring.
  destruct (Z.eqb_spec (y mod 4) 0) as [H4 | H4];
    destruct (Z.eqb_spec (y mod 100) 0) as [H100 | H100];
    destruct (Z.eqb_spec (y mod 400) 0) as [H400 | H400];
    cbn [negb orb andb]; Z.div_mod_to_equations; lia.
Qed.

Lemma days_before_year_mono (y y' : Z) :
  y <= y' -> Datetime.days_before_year y <= Datetime.days_before_year y'.
Proof.
  intros H. unfold Datetime.days_before_year. cbv zeta.
  Z.div_mod_to_equations. lia.
Qed.

(** A date of the calendar has an ordinal of the calendar. *)
Lemma ymd2ord_range (y m d : Z) :
  valid_date y m d = true -> 1 <= Datetime.ymd2ord y m d <= Datetime.MAXORDINAL.
Proof.
  unfold valid_date, Datetime.MINYEAR, Datetime.MAXYEAR.
  rewrite !andb_true_iff, !Z.leb_le. intros [[[[[Hy1 Hy2] Hm1] Hm2] Hd1] Hd2].
  pose proof (day_of_year_bound y m d ltac:(lia) ltac:(lia)) as Hb.
  pose proof (next_year y) as Hn.
  pose proof (days_before_year_mono 1 y Hy1) as H1.
  pose proof (days_before_year_mono (y + 1) 10000 ltac:(lia)) as H2.
  change (Datetime.days_before_year 1) with 0 in H1.
  change (Datetime.days_before_year 10000) with 3652059 in H2.
  unfold Datetime.ymd2ord, Datetime.MAXORDINAL. lia.
Qed.

End OrdinalFacts.

(* ================================================================== *)
(** * The reminder link, on every input *)

Module LinkFacts.

Lemma make_inv (y m d : Z) (dt : Datetime.datetime) :
  Datetime.make y m d = Ret dt ->
  valid_date y m d = true
  /\ dt = {| Datetime.year := y; Datetime.month := m; Datetime.day := d;
             Datetime.seconds := 0 |}.
Proof.
  unfold Datetime.make, valid_date.
  destruct ((Datetime.MINYEAR <=? y)%Z && (y <=? Datetime.MAXYEAR)%Z
            && (1 <=? m)%Z && (m <=? 12)%Z
            && (1 <=? d)%Z && (d <=? Datetime.days_in_month y m)%Z);
    [|discriminate].
  intros [= <-]. split; reflexivity.
Qed.

Lemma strptime_inv (s : string) (fmt : list Datetime.directive) (dt : Datetime.datetime) :
  Datetime.strptime s fmt = Ret dt ->
  exists y m d, Datetime.make y m d = Ret dt.
Proof.
  unfold Datetime.strptime.
  destruct (Re.match_at (Datetime.format_re fmt) s) as [[groups [|c rest]]|];
    try discriminate.
  destruct (Datetime.fields fmt groups (1900, 1, 1)%Z) as [[[y m] d]|e];
    cbn [bind]; [|discriminate].
  intros H. exists y, m, d. exact H.
Qed.

(** What the builder parses is a date of the calendar, at midnight. *)
Lemma parse_expiry_inv (s : string) (dt : Datetime.datetime) :
  parse_expiry s = Ret dt ->
  exists y m d,
    valid_date y m d = true
    /\ dt = {| Datetime.year := y; Datetime.month := m; Datetime.day := d;
               Datetime.seconds := 0 |}.
Proof.
  unfold parse_expiry. intros H.
  assert (Hs : exists y m d, Datetime.make y m d = Ret dt).
  { destruct (List.length (Py.split Chars.slash s) =? 3);
      eapply strptime_inv; exact H. }
  destruct Hs as (y & m & d & Hm). exists y, m, d. now apply make_inv.
Qed.

(** The three ways the builder ends. *)
Lemma link_cases (s : string) :
  match parse_expiry s with
  | Raise _ => create_google_calendar_link s = Ret None
  | Ret dt =>
      if (Datetime.toordinal dt <=? 30)%Z
      then create_google_calendar_link s = Raise OverflowError
      else exists y m d,
          valid_date y m d = true
          /\ Datetime.ymd2ord y m d = (Datetime.toordinal dt - 30)%Z
          /\ create_google_calendar_link s
             = Ret (Some (link_for s (Ymd y m d) (Ymd y m d)))
  end.
Proof.
  rewrite link_unfold.
  destruct (parse_expiry s) as [dt|e] eqn:P; cbn [try_except]; [|reflexivity].
  destruct (parse_expiry_inv s dt P) as (y0 & m0 & d0 & Hv & ->).
  pose proof (OrdinalFacts.ymd2ord_range y0 m0 d0 Hv) as Hr.
  unfold Datetime.toordinal.
  cbn [Datetime.year Datetime.month Datetime.day].
  set (dt := {| Datetime.year := y0; Datetime.month := m0; Datetime.day := d0;
                Datetime.seconds := 0 |}) in *.
  set (n := (Datetime.ymd2ord y0 m0 d0 - 30)%Z).
  assert (Hsub : Datetime.sub dt (Datetime.days 30)
                 = if (0 <? n)%Z && (n <=? Datetime.MAXORDINAL)%Z
                   then let '(y, m, d) := Datetime.ord2ymd n in
                        Ret {| Datetime.year := y; Datetime.month := m;
                               Datetime.day := d; Datetime.seconds := 0 |}
                   else Raise OverflowError).
  { unfold Datetime.sub, Datetime.add, Datetime.days, Datetime.toordinal. subst dt.
    cbn [Datetime.year Datetime.month Datetime.day Datetime.seconds
         Datetime.td_days Datetime.td_seconds].
    change (0 + - 0)%Z with 0%Z. change (0 / 86400)%Z with 0%Z.
    change (0 mod 86400)%Z with 0%Z.
    replace (Datetime.ymd2ord y0 m0 d0 + - (30) + 0)%Z with n by (subst n; ring).
    reflexivity. }
  rewrite Hsub. clear Hsub.
  destruct (Z.leb_spec (Datetime.ymd2ord y0 m0 d0) 30) as [Hle | Hgt].
  - destruct (Z.ltb_spec 0 n) as [Hpos | _]; [subst n; lia|]. reflexivity.
  - destruct (Z.ltb_spec 0 n) as [_ | Hneg]; [|subst n; lia].
    destruct (Z.leb_spec n Datetime.MAXORDINAL) as [_ | Hbig]; [|subst n; lia].
    cbn [andb].
    destruct (OrdinalFacts.ord2ymd_spec n ltac:(subst n; lia)) as (y & m & d & Eo & Hvr & Hor).
    rewrite Eo. cbn [bind].
    assert (Hadd : Datetime.add {| Datetime.year := y; Datetime.month := m;
                                   Datetime.day := d; Datetime.seconds := 0 |}
                                (Datetime.hours 1)
                   = Ret {| Datetime.year := y; Datetime.month := m;
                            Datetime.day := d; Datetime.seconds := 3600 |}).
    { unfold Datetime.add, Datetime.hours, Datetime.toordinal.
      cbn [Datetime.year Datetime.month Datetime.day Datetime.seconds
           Datetime.td_days Datetime.td_seconds].
      change ((0 + 3600 * 1) / 86400)%Z with 0%Z.
      change ((0 + 3600 * 1) mod 86400)%Z with 3600%Z.
      replace (Datetime.ymd2ord y m d + 0 + 0)%Z with n by lia.
      destruct (Z.ltb_spec 0 n) as [_ | Hneg]; [|lia].
      destruct (Z.leb_spec n Datetime.MAXORDINAL) as [_ | Hbig]; [|lia].
      cbn [andb]. rewrite Eo. reflexivity. }
    rewrite Hadd. cbn [bind].
    exists y, m, d. split; [exact Hvr|]. split; [exact Hor|]. reflexivity.
Qed.

End LinkFacts.

(** The builder on every string.  A string that is not parsed gives no link.
    A string parsed as a date up to 0001-01-30 raises [OverflowError]: the
    day thirty days earlier is not in the calendar.  Every other string
    gives a link, and the range of dates in the link starts and ends on the
    same day, thirty days before the date parsed. *)
Theorem reminder_link_cases (s : string) :
  match parse_expiry s with
  | Raise _ => create_google_calendar_link s = Ret None
  | Ret dt =>
      if (Datetime.toordinal dt <=? 30)%Z
      then create_google_calendar_link s = Raise OverflowError
      else exists y m d,
          valid_date y m d = true
          /\ Datetime.ymd2ord y m d = (Datetime.toordinal dt - 30)%Z
          /\ create_google_calendar_link s
             = Ret (Some (link_for s (Ymd y m d) (Ymd y m d)))
  end.
Proof. exact (LinkFacts.link_cases s). Qed.

Module ParseFacts.

Lemma lower_slash (c : ascii) :
  Ascii.eqb (Chars.lower c) (Chars.lower "/") = true -> c = "/"%char.
Proof.
  intros H. apply Ascii.eqb_eq in H.
  destruct c as [[] [] [] [] [] [] [] []]; try discriminate H; reflexivity.
Qed.

(** What [%Y] matches is four digits. *)
Lemma year_directive_inv (s rest : string) (g : list string) :
  In (g, rest) (Re.run (Datetime.directive_re Datetime.DY) s) ->
  exists y, s = (y ++ rest)%string /\ digits 4 y.
Proof.
  unfold Datetime.directive_re, Re.digit. cbn [Re.seqs]. intros H.
  apply ReFacts.run_grp in H. destruct H as (g' & H & _).
  apply ReFacts.run_seq in H. destruct H as (g1 & s1 & g2 & H1 & H & _).
  apply ReFacts.run_seq in H. destruct H as (g3 & s2 & g4 & H2 & H & _).
  apply ReFacts.run_seq in H. destruct H as (g5 & s3 & g6 & H3 & H4 & _).
  apply ReFacts.run_cls in H1. destruct H1 as (_ & a & -> & Ha).
  apply ReFacts.run_cls in H2. destruct H2 as (_ & b & -> & Hb).
  apply ReFacts.run_cls in H3. destruct H3 as (_ & c & -> & Hc).
  apply ReFacts.run_cls in H4. destruct H4 as (_ & d & -> & Hd).
  exists (String a (String b (String c (String d "")))). split; [reflexivity|].
  split; [reflexivity|]. simpl. now rewrite Ha, Hb, Hc, Hd.
Qed.

(** A match of [.../%Y] that uses the input up ends with [/] and four digits. *)
Lemma slash_year_inv (r : Re.regex) (s : string) (g : list string) :
  In (g, "") (Re.run (Re.Seq r (Re.Seq (Datetime.directive_re (Datetime.Dlit "/"))
                                       (Datetime.directive_re Datetime.DY))) s) ->
  exists p y, s = (p ++ "/" ++ y)%string /\ digits 4 y.
Proof.
  intros H.
  apply ReFacts.run_seq in H. destruct H as (g1 & s1 & g2 & H1 & H & _).
  apply ReFacts.run_seq in H. destruct H as (g3 & s2 & g4 & H2 & H3 & _).
  destruct (ReFacts.run_suffix _ _ _ _ H1) as [p ->].
  apply ReFacts.run_cls in H2. destruct H2 as (_ & c & -> & Hc).
  apply lower_slash in Hc. subst c.
  apply year_directive_inv in H3. destruct H3 as (y & -> & Hy).
  exists p, y. rewrite StrFacts.app_nil_r. auto.
Qed.

Lemma strptime_match (s : string) (fmt : list Datetime.directive) (dt : Datetime.datetime) :
  Datetime.strptime s fmt = Ret dt ->
  exists g, In (g, "") (Re.run (Datetime.format_re fmt) s).
Proof.
  unfold Datetime.strptime.
  destruct (Re.match_at (Datetime.format_re fmt) s) as [[g [|c rest]]|] eqn:M;
    try discriminate.
  intros _. exists g. now apply ReFacts.match_at_In.
Qed.

(** What the builder parses ends with [/] and a year of four digits. *)
Lemma parse_expiry_year (s : string) (dt : Datetime.datetime) :
  parse_expiry s = Ret dt ->
  exists p y, s = (p ++ "/" ++ y)%string /\ digits 4 y.
Proof.
  unfold parse_expiry. destruct (List.length (Py.split Chars.slash s) =? 3); intros H;
    apply strptime_match in H; destruct H as [g H].
  - unfold Datetime.format_re, Datetime.fmt_mdY in H. cbn [map Re.seqs] in H.
    apply ReFacts.run_seq in H. destruct H as (g1 & s1 & g2 & H1 & H & _).
    apply ReFacts.run_seq in H. destruct H as (g3 & s2 & g4 & H2 & H & _).
    destruct (ReFacts.run_suffix _ _ _ _ H1) as [p1 ->].
    destruct (ReFacts.run_suffix _ _ _ _ H2) as [p2 ->].
    apply slash_year_inv in H. destruct H as (p & y & -> & Hy).
    exists (p1 ++ p2 ++ p)%string, y. rewrite !StrFacts.app_assoc. auto.
  - unfold Datetime.format_re, Datetime.fmt_mY in H. cbn [map Re.seqs] in H.
    now apply slash_year_inv in H.
Qed.

End ParseFacts.

(** A link is made only for a string that ends with [/] and a year of
    exactly four digits: a date with a year of three digits, which the
    extraction can return, gets no link. *)
Theorem link_needs_a_year_of_four_digits (s link : string) :
  create_google_calendar_link s = Ret (Some link) ->
  exists p y, s = (p ++ "/" ++ y)%string /\ digits 4 y.
Proof.
  rewrite link_unfold.
  destruct (parse_expiry s) as [dt|e] eqn:P; cbn [try_except]; [|discriminate].
  intros _. exact (ParseFacts.parse_expiry_year s dt P).
Qed.

Lemma link_needs_a_year_of_four_digits_witness :
  exists p y, "08/30/2028" = (p ++ "/" ++ y)%string /\ digits 4 y.
Proof.
  apply (link_needs_a_year_of_four_digits "08/30/2028"
           (link_for "08/30/2028" "20280731" "20280731")).
  vm_compute. reflexivity.
Defined.

(** The extraction returns "08/30/202" for a text that carries it, and the
    builder makes no link for it. *)
Example three_digit_year_gets_no_link :
  extract_expiry_dates insertion_order 2026 "EXP 08/30/202" = Ret ["08/30/202"]
  /\ create_google_calendar_link "08/30/202" = Ret None.
Proof. vm_compute. split; reflexivity. Qed.

(* ================================================================== *)
(** * Parsing a full date *)

Module FullDateFacts.

Lemma run_grp_eq (r : Re.regex) (s : string) :
  Re.run (Re.Grp r) s
  = map (fun m => (Re.consumed s (snd m) :: fst m, snd m)) (Re.run r s).
Proof. reflexivity. Qed.

(** The first way a sequence matches: the first way of its first part, when
    the second part matches after it. *)
Lemma match_seq (r1 r2 : Re.regex) (s mid rest : string) (g1 g2 : list string)
      (others : list (list string * string)) :
  Re.run r1 s = (g1, mid) :: others ->
  Re.match_at r2 mid = Some (g2, rest) ->
  Re.match_at (Re.Seq r1 r2) s = Some (g1 ++ g2, rest).
Proof.
  unfold Re.match_at. intros H1 H2. cbn [Re.run]. rewrite H1. cbn [flat_map fst snd].
  destruct (Re.run r2 mid) as [|[g rest'] l]; [discriminate H2|].
  cbn [hd_error] in H2. injection H2 as -> ->. reflexivity.
Qed.

Lemma two_digits_checked : forallb two_digits_ok (Zrange 1 31) = true.
Proof. vm_compute. reflexivity. Qed.

Lemma two_digits (k : Z) :
  (1 <= k <= 31)%Z ->
  digits 2 (Datetime.pad 2 k) /\ Py.int (Datetime.pad 2 k) = Ret k.
Proof.
  intros H. pose proof (forallb_Zrange _ 1 31 k two_digits_checked H) as Hk.
  unfold two_digits_ok in Hk. rewrite !andb_true_iff, Nat.eqb_eq in Hk.
  destruct Hk as [[Ha Hl] Hi]. split; [split; assumption|].
  destruct (Py.int (Datetime.pad 2 k)) as [v|e]; [|discriminate Hi].
  apply Z.eqb_eq in Hi. now subst.
Qed.

Ltac first_way k tail :=
  eval_in_goal (Datetime.pad 2 k); unfold Datetime.directive_re;
  rewrite run_grp_eq;
  match goal with
  | |- context [Re.run ?r (?w ++ tail)%string] =>
      let e := eval vm_compute in (Re.run r (w ++ tail)%string) in
      change (Re.run r (w ++ tail)%string) with e;
      cbn [map fst snd];
      rewrite (ReFacts.consumed_app w tail)
  end;
  eexists; reflexivity.

(** [%m] on a month written with two digits: the two digits first. *)
Lemma run_month (m : Z) (tail : string) :
  (1 <= m <= 12)%Z ->
  exists others,
    Re.run (Datetime.directive_re Datetime.Dm) (Datetime.pad 2 m ++ tail)
    = ([Datetime.pad 2 m], tail) :: others.
Proof.
  intros H. pose proof (In_Zrange 1 12 m H) as Hin. vm_compute in Hin.
  repeat (destruct Hin as [<- | Hin];
          [match goal with |- context [Datetime.pad 2 ?k] => first_way k tail end|]).
  destruct Hin.
Qed.

(** [%d] on a day written with two digits: the two digits first. *)
Lemma run_day (d : Z) (tail : string) :
  (1 <= d <= 31)%Z ->
  exists others,
    Re.run (Datetime.directive_re Datetime.Dd) (Datetime.pad 2 d ++ tail)
    = ([Datetime.pad 2 d], tail) :: others.
Proof.
  intros H. pose proof (In_Zrange 1 31 d H) as Hin. vm_compute in Hin.
  repeat (destruct Hin as [<- | Hin];
          [match goal with |- context [Datetime.pad 2 ?k] => first_way k tail end|]).
  destruct Hin.
Qed.

Lemma run_slash (tail : string) :
  Re.run (Datetime.directive_re (Datetime.Dlit "/")) ("/" ++ tail) = [([], tail)].
Proof. reflexivity. Qed.

(** A date written MM/DD/YYYY is parsed as the date its fields write, if
    there is such a date. *)
Lemma full_parse (m d y : Z) :
  (1 <= m <= 12)%Z -> (1 <= d <= 31)%Z -> (0 <= y <= 9999)%Z ->
  parse_expiry (full_date_string m d y) = Datetime.make y m d.
Proof.
  intros Hm Hd Hy.
  destruct (two_digits m ltac:(lia)) as [[Lm Am] Im].
  destruct (two_digits d Hd) as [[Ld Ad] Id].
  destruct (year_digits y Hy) as (a & b & c & e & Ha & Hb & Hc & He & Hv).
  assert (Ey : Datetime.pad 4 y = four_digits a b c e)
    by (rewrite <- Hv; now apply pad4_digits).
  assert (Iy : Py.int (four_digits a b c e) = Ret y)
    by (rewrite <- Hv; now apply int_four_digits).
  assert (Ay : Str.all Chars.is_digit (four_digits a b c e) = true)
    by now apply four_digits_all.
  unfold parse_expiry, full_date_string. rewrite Ey.
  rewrite FormFacts.split_full by auto using FormFacts.digits_no_slash.
  cbn [List.length Nat.eqb].
  unfold Datetime.strptime, Datetime.format_re, Datetime.fmt_mdY. cbn [map Re.seqs].
  destruct (run_month m ("/" ++ Datetime.pad 2 d ++ "/" ++ four_digits a b c e) Hm)
    as [o1 R1].
  destruct (run_day d ("/" ++ four_digits a b c e) Hd) as [o2 R2].
  assert (R3 : Re.match_at (Datetime.directive_re Datetime.DY) (four_digits a b c e)
               = Some ([four_digits a b c e], "")).
  { unfold Re.match_at, four_digits. rewrite run_year by now apply digit_char_digit.
    reflexivity. }
  rewrite (match_seq _ _ _ _ _ _ _ _ R1
             (match_seq _ _ _ _ _ _ _ _ (run_slash _)
                (match_seq _ _ _ _ _ _ _ _ R2
                   (match_seq _ _ _ _ _ _ _ _ (run_slash _) R3)))).
  cbn [app Datetime.fields]. rewrite Im. cbn [bind]. rewrite Id. cbn [bind].
  rewrite Iy. cbn [bind]. reflexivity.
Qed.

End FullDateFacts.

(** A full date MM/DD/YYYY (month 01-12, day 01-31).  If the month has no
    such day (02/30, 04/31, any day of year 0000) no link is made.  If the
    date is one of 0001-01-01 .. 0001-01-30 the builder raises.  In every
    other case the link is made, and its range starts and ends on the day
    thirty days before the date. *)
Theorem full_date_reminder (m d y : Z) :
  (1 <= m <= 12)%Z -> (1 <= d <= 31)%Z -> (0 <= y <= 9999)%Z ->
  let s := full_date_string m d y in
  (valid_date y m d = false -> create_google_calendar_link s = Ret None)
  /\ (valid_date y m d = true -> (Datetime.ymd2ord y m d <= 30)%Z ->
      create_google_calendar_link s = Raise OverflowError)
  /\ (valid_date y m d = true -> (30 < Datetime.ymd2ord y m d)%Z ->
      exists ry rm rd,
        valid_date ry rm rd = true
        /\ Datetime.ymd2ord ry rm rd = (Datetime.ymd2ord y m d - 30)%Z
        /\ create_google_calendar_link s
           = Ret (Some (link_for s (Ymd ry rm rd) (Ymd ry rm rd)))).
Proof.
  intros Hm Hd Hy s.
  pose proof (LinkFacts.link_cases s) as Hc.
  unfold s in Hc at 1. rewrite (FullDateFacts.full_parse m d y Hm Hd Hy) in Hc.
  unfold Datetime.make in Hc. fold (valid_date y m d) in Hc.
  split; [|split].
  - intros Hv. rewrite Hv in Hc. exact Hc.
  - intros Hv Ho. rewrite Hv in Hc. unfold Datetime.toordinal in Hc.
    cbn [Datetime.year Datetime.month Datetime.day] in Hc.
    destruct (Z.leb_spec (Datetime.ymd2ord y m d) 30); [exact Hc | lia].
  - intros Hv Ho. rewrite Hv in Hc. unfold Datetime.toordinal in Hc.
    cbn [Datetime.year Datetime.month Datetime.day] in Hc.
    destruct (Z.leb_spec (Datetime.ymd2ord y m d) 30); [lia | exact Hc].
Qed.

Lemma full_date_reminder_witness :
  create_google_calendar_link (full_date_string 2 30 2028) = Ret None
  /\ create_google_calendar_link (full_date_string 1 30 1) = Raise OverflowError
  /\ exists ry rm rd,
      valid_date ry rm rd = true
      /\ Datetime.ymd2ord ry rm rd = (Datetime.ymd2ord 2028 8 30 - 30)%Z
      /\ create_google_calendar_link (full_date_string 8 30 2028)
         = Ret (Some (link_for (full_date_string 8 30 2028)
                               (Ymd ry rm rd) (Ymd ry rm rd))).
Proof.
  split; [|split].
  - apply (full_date_reminder 2 30 2028); [lia | lia | lia | reflexivity].
  - apply (full_date_reminder 1 30 1); [lia | lia | lia | reflexivity |].
    vm_compute. discriminate.
  - apply (full_date_reminder 8 30 2028); [lia | lia | lia | reflexivity |].
    vm_compute. reflexivity.
Defined.

Example impossible_day_is_extracted :
  full_date_string 2 30 2028 = "02/30/2028"
  /\ extract_expiry_dates insertion_order 2026 "EXP 02/30/2028" = Ret ["02/30/2028"].
Proof. vm_compute. split; reflexivity. Qed.

(* ================================================================== *)
(** * The extraction, end to end *)

Section LatestCandidate.

Variable set_order : list string -> list string.
Hypothesis set_order_perm : forall s, Permutation (set_order s) s.

Variable now : Z.
Hypothesis now_range : (1 <= now <= 9999)%Z.

(** The date returned, among the candidates. *)
Lemma extract_latest (text d : string) :
  extract_expiry_dates set_order now text = Ret [d] ->
  In d (collect_candidates now text)
  /\ exists k,
      date_key d = Ret k
      /\ ((exists f, In f (collect_candidates now text) /\ is_full f = true) ->
          is_full d = true)
      /\ (forall c kc, In c (collect_candidates now text) ->
                       is_full c = is_full d -> date_key c = Ret kc -> (kc <= k)%Z).
Proof.
  pose proof (CandidateFacts.candidates_good now text now_range) as Hc.
  pose proof (normalize_all_good set_order set_order_perm now _ Hc) as Hn.
  pose proof (fun x => AggregatorFacts.normalize_all_In set_order now _ x
                         set_order_perm Hc) as Hsame.
  unfold extract_expiry_dates.
  set (cands := collect_candidates now text) in *.
  set (normalized := normalize_all set_order now cands) in *.
  set (l := set_order normalized).
  assert (Hl : forall x, In x l <-> In x cands).
  { intros x. rewrite <- Hsame. subst l.
    split; apply Permutation_in; [|apply Permutation_sym]; apply set_order_perm. }
  assert (Hkeys : forall x, In x l -> exists k, date_key x = Ret k).
  { intros x Hx. apply FormFacts.date_key_defined.
    apply (FormFacts.form_impl year_3_4); [apply FormFacts.year_3_4_settled|].
    rewrite Forall_forall in Hc. apply Hc, Hl, Hx. }
  intros Hr.
  assert (Hne : l <> []).
  { intros E. rewrite E in Hr. discriminate Hr. }
  destruct (pick_latest_spec l Hkeys Hne) as (d0 & k & Hp & Hin & Hk & Hfull & Hnone).
  rewrite Hp in Hr. injection Hr as ->.
  split; [now apply Hl|]. exists k. split; [exact Hk|].
  destruct (existsb is_full l) eqn:E.
  - apply existsb_exists in E. destruct (Hfull E) as [Fd Hmax].
    split; [intros _; exact Fd|].
    intros c kc Hcin Hcf Hck. apply (Hmax c kc); [now apply Hl | congruence | exact Hck].
  - assert (Hno : forall f, In f l -> is_full f = false).
    { intros f Hf. destruct (is_full f) eqn:Ff; [|reflexivity].
      assert (existsb is_full l = true) by (apply existsb_exists; eauto). congruence. }
    split.
    + intros (f & Hf & Ff). rewrite (Hno f) in Ff by now apply Hl. discriminate Ff.
    + intros c kc Hcin _ Hck. apply (Hnone Hno c kc); [now apply Hl | exact Hck].
Qed.

End LatestCandidate.

(** The date the extraction returns is the latest of its kind among the
    candidates: it is a full date if any candidate is a full date, and no
    candidate that is full, or partial, as it is has a greater sort key. *)
Theorem extraction_returns_the_latest
        (set_order : list string -> list string) (now : Z) (text d : string) :
  (forall s, Permutation (set_order s) s) -> (1 <= now <= 9999)%Z ->
  extract_expiry_dates set_order now text = Ret [d] ->
  exists k,
    date_key d = Ret k
    /\ ((exists f, In f (collect_candidates now text) /\ is_full f = true) ->
        is_full d = true)
    /\ (forall c kc, In c (collect_candidates now text) ->
                     is_full c = is_full d -> date_key c = Ret kc -> (kc <= k)%Z).
Proof.
  intros Hperm Hnow Hr.
  exact (proj2 (extract_latest set_order Hperm now Hnow text d Hr)).
Qed.

Lemma extraction_returns_the_latest_witness :
  exists k,
    date_key "09/01/2029" = Ret k
    /\ forall c kc,
        In c (collect_candidates 2026 "EXP 08/30/2028 or 09/01/2029 or 12/2031") ->
        is_full c = is_full "09/01/2029" -> date_key c = Ret kc -> (kc <= k)%Z.
Proof.
  destruct (extraction_returns_the_latest insertion_order 2026
              "EXP 08/30/2028 or 09/01/2029 or 12/2031" "09/01/2029")
    as (k & Hk & _ & Hmax).
  - intros s. apply Permutation_refl.
  - lia.
  - vm_compute. reflexivity.
  - exists k. split; assumption.
Defined.

Module TierFacts.

Lemma same_line_no_keyword (century : string) (lines cands : list string) :
  (forall line, In line lines -> has_keyword line = false) ->
  same_line_pass century lines cands = cands.
Proof.
  intros H. unfold same_line_pass.
  apply (CandidateFacts.fold_left_invariant (fun c => c = cands)); [|reflexivity].
  intros a line Hin ->. now rewrite (H line Hin).
Qed.

Lemma next_line_no_keyword (century : string) (lines cands : list string) :
  (forall line, In line lines -> has_keyword line = false) ->
  next_line_pass century lines cands = cands.
Proof.
  intros H. unfold next_line_pass.
  apply (CandidateFacts.fold_left_invariant (fun c => c = cands)); [|reflexivity].
  intros a i _ ->. destruct (nth_error lines i) as [line|] eqn:E; [|reflexivity].
  now rewrite (H line (nth_error_In _ _ E)).
Qed.

End TierFacts.

(** Without a keyword the whole text is searched: when no line carries an
    expiry keyword, the candidates are the dates of the global scan. *)
Theorem dates_without_keywords (now : Z) (text : string) :
  (forall line, In line (Py.splitlines text) -> has_keyword line = false) ->
  collect_candidates now text = tier_global now text.
Proof.
  intros H. unfold collect_candidates, tier_global.
  rewrite (TierFacts.same_line_no_keyword _ _ _ H). cbn [is_empty].
  rewrite (TierFacts.next_line_no_keyword _ _ _ H). reflexivity.
Qed.

Lemma dates_without_keywords_witness :
  collect_candidates 2026 ("renew by 03/2027" ++ String "010" "issued 01/15/2020")
  = tier_global 2026 ("renew by 03/2027" ++ String "010" "issued 01/15/2020").
Proof.
  apply dates_without_keywords.
  intros line [<- | [<- | []]]; reflexivity.
Defined.

Module KeywordFacts.

Lemma search_app (r : Re.regex) (a s : string) :
  Re.run r s <> [] -> Re.search r (a ++ s) = true.
Proof.
  intros H.
  assert (Hs : Re.search r s = true).
  { destruct s; simpl; unfold Re.match_at;
      destruct (Re.run r _); try contradiction; reflexivity. }
  induction a as [|c a IH]; [exact Hs|].
  cbn [append Re.search]. destruct (Re.match_at r (String c (a ++ s))); [reflexivity | exact IH].
Qed.

Lemma run_alt_l (r1 r2 : Re.regex) (s : string) :
  Re.run r1 s <> [] -> Re.run (Re.Alt r1 r2) s <> [].
Proof. cbn [Re.run]. destruct (Re.run r1 s); [contradiction | discriminate]. Qed.

Lemma run_alt_r (r1 r2 : Re.regex) (s : string) :
  Re.run r2 s <> [] -> Re.run (Re.Alt r1 r2) s <> [].
Proof.
  cbn [Re.run]. intros H E. apply app_eq_nil in E. destruct E as [_ E]. contradiction.
Qed.

Lemma run_grp_some (r : Re.regex) (s : string) :
  Re.run r s <> [] -> Re.run (Re.Grp r) s <> [].
Proof. cbn [Re.run]. destruct (Re.run r s); [contradiction | discriminate]. Qed.

End KeywordFacts.

(** The letters e, x, p in a row, in either case, anywhere on a line make it
    a keyword line: the other alternatives that begin with "exp" add nothing
    to the search. *)
Theorem any_exp_is_a_keyword (a b : string) (e x p : ascii) :
  Chars.lower e = "e"%char -> Chars.lower x = "x"%char -> Chars.lower p = "p"%char ->
  has_keyword (a ++ String e (String x (String p b))) = true.
Proof.
  intros He Hx Hp. unfold has_keyword. apply KeywordFacts.search_app.
  unfold expiry_keywords. apply KeywordFacts.run_grp_some. cbn [Re.alts].
  do 6 apply KeywordFacts.run_alt_r. apply KeywordFacts.run_alt_l.
  cbn [Re.lit_i Re.chr_i Re.run]. rewrite He. cbn [flat_map map fst snd app].
  change (Ascii.eqb "e" (Chars.lower "e")) with true. cbv iota.
  cbn [flat_map map fst snd app]. rewrite Hx.
  change (Ascii.eqb "x" (Chars.lower "x")) with true. cbv iota.
  cbn [flat_map map fst snd app]. rewrite Hp.
  change (Ascii.eqb "p" (Chars.lower "p")) with true. cbv iota.
  discriminate.
Qed.

Lemma any_exp_is_a_keyword_witness :
  has_keyword "Not EXPensive: 01/2020" = true.
Proof.
  apply (any_exp_is_a_keyword "Not " "ensive: 01/2020" "E" "X" "P"); reflexivity.
Defined.

(* ================================================================== *)
(** * Where the patterns match *)

Module ExtendFacts.

Lemma star_self p (s : string) : In s (Re.star p s).
Proof.
  destruct s as [|c s]; simpl; [now left|].
  destruct (p c); [apply in_or_app; right|]; now left.
Qed.

Lemma star_extend p (s rest t : string) :
  In rest (Re.star p s) -> In (rest ++ t)%string (Re.star p (s ++ t)).
Proof.
  induction s as [|c s IH]; simpl.
  - intros [<- | []]. apply star_self.
  - destruct (p c).
    + rewrite !in_app_iff. intros [H | [<- | []]]; [left; auto | right; now left].
    + intros [<- | []]. now left.
Qed.

Lemma rep_stop p (hi : nat) (s : string) : In s (Re.rep p 0 hi s).
Proof.
  destruct hi as [|hi]; simpl; [now left|].
  destruct s as [|c s]; [now left|].
  destruct (p c); [apply in_or_app; right|]; now left.
Qed.

Lemma rep_extend p (lo hi : nat) (s rest t : string) :
  In rest (Re.rep p lo hi s) -> In (rest ++ t)%string (Re.rep p lo hi (s ++ t)).
Proof.
  assert (Hstop : forall lo hi s,
             In rest (match lo with O => [s] | S _ => [] end) ->
             In (rest ++ t)%string (Re.rep p lo hi (s ++ t))).
  { intros [|lo'] hi' s' H; [|destruct H].
    destruct H as [<- | []]. apply rep_stop. }
  revert lo s. induction hi as [|hi IH]; intros lo s.
  - simpl. intros H. apply (Hstop lo 0 s H).
  - destruct s as [|c s]; [intros H; apply (Hstop lo (S hi) "" H)|].
    intros H. pose proof (Hstop lo (S hi) (String c s)) as Hs.
    cbn [Re.rep append] in H, Hs |- *.
    destruct (p c); [|exact (Hs H)].
    apply in_app_or in H. destruct H as [H | H].
    + apply in_or_app. left. now apply IH.
    + specialize (Hs H). apply in_app_or in Hs. destruct Hs as [Hs | Hs].
      * destruct lo; [|destruct H]. destruct H as [<- | []].
        apply in_or_app. right. now left.
      * apply in_or_app. now right.
Qed.

(** A match is not lost when the input goes on: what matched at the start of
    [s] matches at the start of [s ++ t], with the same groups. *)
Lemma run_extend (r : Re.regex) (s rest t : string) (g : list string) :
  In (g, rest) (Re.run r s) -> In (g, (rest ++ t)%string) (Re.run r (s ++ t)).
Proof.
  revert s rest g. induction r as [|p|r1 IH1 r2 IH2|r1 IH1 r2 IH2|r IH|p|p lo hi|r IH];
    intros s rest g; cbn [Re.run].
  - intros [[= <- <-] | []]. now left.
  - destruct s as [|c s]; [intros []|]. cbn [append].
    destruct (p c); [|intros []]. intros [[= <- <-] | []]. now left.
  - rewrite !in_flat_map. intros ([g1 mid] & H1 & H2).
    rewrite in_map_iff in H2. destruct H2 as ([g2 rest'] & Heq & H2).
    cbn [fst snd] in Heq, H2. injection Heq as <- <-.
    exists (g1, (mid ++ t)%string). split; [now apply IH1|].
    rewrite in_map_iff. exists (g2, (rest' ++ t)%string). split; [reflexivity|].
    cbn [snd]. now apply IH2.
  - rewrite !in_app_iff. intros [H | H]; [left; now apply IH1 | right; now apply IH2].
  - rewrite !in_app_iff. intros [H | [[= <- <-] | []]];
      [left; now apply IH | right; now left].
  - rewrite !in_map_iff. intros (rest' & [= <- <-] & H).
    exists (rest' ++ t)%string. split; [reflexivity | now apply star_extend].
  - rewrite !in_map_iff. intros (rest' & [= <- <-] & H).
    exists (rest' ++ t)%string. split; [reflexivity | now apply rep_extend].
  - rewrite !in_map_iff. intros ([g' rest'] & Heq & H).
    cbn [fst snd] in Heq. injection Heq as <- <-.
    exists (g', (rest' ++ t)%string). split; [|now apply IH].
    cbn [fst snd]. destruct (ReFacts.run_suffix _ _ _ _ H) as [w ->].
    rewrite StrFacts.app_assoc, !ReFacts.consumed_app. reflexivity.
Qed.

(** [r] matches somewhere in [s]. *)
Lemma search_true (r : Re.regex) (s : string) :
  Re.search r s = true <-> exists a u, s = (a ++ u)%string /\ Re.run r u <> [].
Proof.
  split.
  - induction s as [|c s IH]; cbn [Re.search]; unfold Re.match_at.
    + destruct (Re.run r "") eqn:E; cbn [hd_error]; [discriminate|].
      intros _. exists "", "". split; [reflexivity|]. rewrite E. discriminate.
    + destruct (Re.run r (String c s)) eqn:E; cbn [hd_error].
      * intros H. destruct (IH H) as (a & u & -> & Hu).
        exists (String c a), u. auto.
      * intros _. exists "", (String c s). split; [reflexivity|]. rewrite E. discriminate.
  - intros (a & u & -> & Hu). now apply KeywordFacts.search_app.
Qed.

Lemma search_extend (r : Re.regex) (a s b : string) :
  Re.search r s = true -> Re.search r (a ++ s ++ b) = true.
Proof.
  rewrite !search_true. intros (a' & u & -> & Hu).
  exists (a ++ a')%string, (u ++ b)%string.
  split; [now rewrite !StrFacts.app_assoc|].
  destruct (Re.run r u) as [|[g rest] l] eqn:E; [contradiction|].
  assert (H : In (g, (rest ++ b)%string) (Re.run r (u ++ b))).
  { apply run_extend. rewrite E. now left. }
  intros E'. rewrite E' in H. destruct H.
Qed.

End ExtendFacts.

Module LineFacts.

Lemma rev_cons (c : ascii) (cur s : string) :
  (Str.rev (String c cur) ++ s)%string = (Str.rev cur ++ String c s)%string.
Proof.
  unfold Str.rev. cbn [Str.rev_onto].
  rewrite (StrFacts.rev_onto_app cur (String c "")), StrFacts.app_assoc. reflexivity.
Qed.

(** A line boundary ends the line being read; the scan goes on after it. *)
Lemma splitlines_from_break (c : ascii) (s cur : string) :
  Py.is_linebreak c = true ->
  exists k tail,
    String c s = (k ++ tail)%string
    /\ Py.splitlines_from (String c s) cur = Str.rev cur :: Py.splitlines_from tail ""
    /\ String.length tail <= String.length s.
Proof.
  intros Lb. cbn [Py.splitlines_from]. rewrite Lb.
  destruct (Ascii.eqb_spec c "013") as [-> | Hc].
  - destruct s as [|c2 s].
    + exists (String "013" ""), "". repeat split. simpl. lia.
    + destruct (Ascii.eqb_spec c2 "010") as [-> | Hc2].
      * exists (String "013" (String "010" "")), s. repeat split. simpl. lia.
      * exists (String "013" ""), (String c2 s).
        split; [reflexivity|]. split; [|simpl; lia].
        destruct c2 as [[] [] [] [] [] [] [] []]; try reflexivity; congruence.
  - exists (String c ""), s. split; [reflexivity|]. split; [|lia].
    destruct c as [[] [] [] [] [] [] [] []]; try reflexivity; congruence.
Qed.

Lemma splitlines_from_sub (n : nat) (s cur line : string) :
  String.length s <= n ->
  In line (Py.splitlines_from s cur) ->
  exists a b, (Str.rev cur ++ s)%string = (a ++ line ++ b)%string.
Proof.
  revert s cur. induction n as [|n IH]; intros s cur Hn.
  - destruct s; [|simpl in Hn; lia]. simpl.
    destruct cur; [intros []|]. intros [<- | []].
    exists "", "". now rewrite !StrFacts.app_nil_r.
  - destruct s as [|c s].
    + simpl. destruct cur; [intros []|]. intros [<- | []].
      exists "", "". now rewrite !StrFacts.app_nil_r.
    + simpl in Hn. destruct (Py.is_linebreak c) eqn:Lb.
      * destruct (splitlines_from_break c s cur Lb) as (k & tail & Es & -> & Hl).
        intros [<- | H].
        -- exists "", (String c s). reflexivity.
        -- destruct (IH tail "" ltac:(lia) H) as (a & b & E).
           change (Str.rev "" ++ tail)%string with tail in E.
           exists (Str.rev cur ++ k ++ a)%string, b.
           rewrite Es, E, !StrFacts.app_assoc. reflexivity.
      * cbn [Py.splitlines_from]. rewrite Lb. intros H.
        destruct (IH s (String c cur) ltac:(lia) H) as (a & b & E).
        exists a, b. now rewrite <- rev_cons.
Qed.

(** A line of the text is a piece of the text. *)
Lemma splitlines_sub (text line : string) :
  In line (Py.splitlines text) -> exists a b, text = (a ++ line ++ b)%string.
Proof.
  intros H. exact (splitlines_from_sub (String.length text) text "" line (le_n _) H).
Qed.

End LineFacts.

Module OccurFacts.

Lemma take_drop (k : nat) (s : string) : (Str.take k s ++ drop k s)%string = s.
Proof.
  revert k. induction s as [|c s IH]; intros [|k]; simpl; try reflexivity.
  now rewrite IH.
Qed.

Lemma rep_prefix p (lo hi : nat) (w tail : string) :
  Str.all p w = true -> lo <= String.length w <= hi ->
  In tail (Re.rep p lo hi (w ++ tail)).
Proof.
  revert lo hi. induction w as [|c w IH]; intros lo hi Hw Hl.
  - simpl in Hl. assert (lo = 0) by lia. subst. apply ExtendFacts.rep_stop.
  - simpl in Hl, Hw. apply andb_true_iff in Hw as [Hc Hw].
    destruct hi as [|hi]; [lia|]. cbn [append Re.rep]. rewrite Hc.
    apply in_or_app. left. apply IH; [exact Hw | lia].
Qed.

(** Two to four digits, followed by anything, are a year. *)
Lemma year_prefix (w tail : string) :
  Str.all Chars.is_digit w = true -> 2 <= String.length w <= 4 ->
  In ([w], tail) (Re.run year_re (w ++ tail)).
Proof.
  intros Hw Hl. unfold year_re. cbn [Re.run]. rewrite in_map_iff.
  exists ([], tail). cbn [fst snd]. rewrite ReFacts.consumed_app.
  split; [reflexivity|]. rewrite in_map_iff. exists tail. split; [reflexivity|].
  now apply rep_prefix.
Qed.

Lemma run_seq_intro (r1 r2 : Re.regex) (s mid rest : string) (g1 g2 : list string) :
  In (g1, mid) (Re.run r1 s) -> In (g2, rest) (Re.run r2 mid) ->
  In (g1 ++ g2, rest) (Re.run (Re.Seq r1 r2) s).
Proof.
  intros H1 H2. cbn [Re.run]. rewrite in_flat_map. exists (g1, mid).
  split; [exact H1|]. rewrite in_map_iff. exists (g2, rest). auto.
Qed.

(** Where the full-date pattern matches, the partial pattern matches too: it
    reads the day as a year. *)
Lemma full_then_partial (u : string) :
  Re.run full_date_re u <> [] -> Re.run partial_date_re u <> [].
Proof.
  destruct (Re.run full_date_re u) as [|[g rest] l] eqn:E; [contradiction|]. intros _.
  assert (H : In (g, rest) (Re.run full_date_re u)) by (rewrite E; now left).
  unfold full_date_re in H. cbn [Re.seqs] in H.
  apply ReFacts.run_seq in H. destruct H as (g1 & s1 & g1' & Hm & H & _).
  apply ReFacts.run_seq in H. destruct H as (g2 & s2 & g2' & Hs1 & H & _).
  apply ReFacts.run_seq in H. destruct H as (g3 & s3 & g3' & Hd & _ & _).
  apply PatternFacts.day_inv in Hd. destruct Hd as (dd & -> & _ & [Ld Ad]).
  assert (Hp : In (g1 ++ g2 ++ [dd], s3) (Re.run partial_date_re u)).
  { unfold partial_date_re. cbn [Re.seqs].
    apply (run_seq_intro _ _ _ _ _ _ _ Hm).
    apply (run_seq_intro _ _ _ _ _ _ _ Hs1).
    apply year_prefix; [exact Ad | lia]. }
  intros E'. rewrite E' in Hp. destruct Hp.
Qed.

Lemma search_full_partial (s : string) :
  Re.search full_date_re s = true -> Re.search partial_date_re s = true.
Proof.
  rewrite !ExtendFacts.search_true. intros (a & u & -> & Hu).
  exists a, u. split; [reflexivity | now apply full_then_partial].
Qed.

(** The scan finds a match exactly where the pattern matches somewhere. *)
Lemma findall_search (r : Re.regex) (s : string) :
  Re.findall r s <> [] <-> Re.search r s = true.
Proof.
  split.
  - unfold Re.findall, Re.finditer. intros H.
    destruct (Re.finditer_from r s 0 0) as [|m ms] eqn:E; [contradiction|].
    destruct (ScanFacts.finditer_from_spec r s 0 0) as [Hall _].
    rewrite E in Hall. apply Forall_inv in Hall. destruct Hall as (_ & _ & _ & Hm).
    apply ExtendFacts.search_true.
    exists (Str.take (Re.m_start m - 0) s), (drop (Re.m_start m - 0) s).
    split; [now rewrite take_drop|].
    apply ReFacts.match_at_In in Hm. intros E'. rewrite E' in Hm. destruct Hm.
  - intros H. apply ExtendFacts.search_true in H. destruct H as (a & u & -> & Hu).
    destruct (ScanFacts.finditer_from_complete r (a ++ u) 0 0 (String.length a))
      as (m & Hin & _).
    + rewrite StrFacts.length_app. lia.
    + rewrite ReFacts.drop_app. unfold Re.match_at.
      destruct (Re.run r u); [contradiction | discriminate].
    + unfold Re.findall, Re.finditer. intros E.
      apply (in_map Re.m_groups) in Hin. rewrite E in Hin. destruct Hin.
Qed.

Lemma add_match_keeps (century : string) (cands g : list string) :
  cands <> [] -> add_match century cands g <> [].
Proof.
  intros H. unfold add_match.
  destruct g as [|m0 [|m1 [|m2 [|m3 g]]]]; try exact H;
    apply AggregatorFacts.set_add_not_nil.
Qed.

Lemma fold_add_keeps (century : string) (gs : list (list string)) (cands : list string) :
  cands <> [] -> fold_left (add_match century) gs cands <> [].
Proof.
  revert cands. induction gs as [|g gs IH]; intros cands H; [exact H|].
  cbn [fold_left]. now apply IH, add_match_keeps.
Qed.

(** A span in which the partial pattern matches yields a candidate. *)
Lemma scan_finds (century : string) (cands : list string) (span : string) :
  Re.search partial_date_re span = true -> scan century cands span <> [].
Proof.
  intros H. apply findall_search in H. unfold scan, date_patterns. cbn [fold_left].
  destruct (Re.findall partial_date_re span) as [|g gs] eqn:E; [contradiction|].
  assert (Hg : In g (Re.findall partial_date_re span)) by (rewrite E; now left).
  apply ScanFacts.findall_inv in Hg. destruct Hg as (suffix & rest & Hg).
  apply PatternFacts.partial_date_inv in Hg. destruct Hg as (mm & yy & -> & _).
  cbn [fold_left]. apply fold_add_keeps. apply AggregatorFacts.set_add_not_nil.
Qed.

(** A span that yields a candidate is one in which the partial pattern
    matches. *)
Lemma scan_changes (century : string) (cands : list string) (span : string) :
  scan century cands span <> cands -> Re.search partial_date_re span = true.
Proof.
  intros H.
  destruct (Re.findall partial_date_re span) as [|g gs] eqn:Ep.
  - destruct (Re.findall full_date_re span) as [|g gs] eqn:Ef.
    + exfalso. apply H. unfold scan, date_patterns. cbn [fold_left].
      now rewrite Ef, Ep.
    + apply search_full_partial, findall_search. rewrite Ef. discriminate.
  - apply findall_search. rewrite Ep. discriminate.
Qed.

Lemma fold_left_changes {B : Type} (f : list string -> B -> list string)
      (l : list B) (a : list string) :
  fold_left f l a <> a -> exists x a', In x l /\ f a' x <> a'.
Proof.
  revert a. induction l as [|x l IH]; intros a H; [contradiction|].
  cbn [fold_left] in H.
  destruct (list_eq_dec string_dec (f a x) a) as [E | E].
  - rewrite E in H. destruct (IH a H) as (y & a' & Hy & Hf).
    exists y, a'. split; [now right | exact Hf].
  - exists x, a. split; [now left | exact E].
Qed.

Lemma same_line_found (century : string) (lines : list string) :
  same_line_pass century lines [] <> [] ->
  exists line, In line lines /\ Re.search partial_date_re line = true.
Proof.
  intros H. apply fold_left_changes in H. destruct H as (line & a & Hin & Hf).
  exists line. split; [exact Hin|].
  destruct (has_keyword line); [|contradiction].
  exact (scan_changes century a line Hf).
Qed.

Lemma next_line_found (century : string) (lines : list string) :
  next_line_pass century lines [] <> [] ->
  exists line, In line lines /\ Re.search partial_date_re line = true.
Proof.
  intros H. apply fold_left_changes in H. destruct H as (i & a & _ & Hf).
  destruct (nth_error lines i) as [line|]; [|contradiction].
  destruct (has_keyword line); [|contradiction].
  destruct (nth_error lines (i + 1)) as [next_line|] eqn:E; [|contradiction].
  exists next_line. split; [exact (nth_error_In _ _ E)|].
  exact (scan_changes century a next_line Hf).
Qed.

(** There is a candidate exactly when the partial pattern matches somewhere
    in the text. *)
Lemma candidates_search (now : Z) (text : string) :
  collect_candidates now text <> [] <-> Re.search partial_date_re text = true.
Proof.
  assert (Hline : forall line, In line (Py.splitlines text) ->
                               Re.search partial_date_re line = true ->
                               Re.search partial_date_re text = true).
  { intros line Hin Hs. destruct (LineFacts.splitlines_sub text line Hin) as (a & b & ->).
    now apply ExtendFacts.search_extend. }
  destruct (AggregatorFacts.collect_cases now text)
    as [[H1 ->] | [(H1 & H2 & ->) | (H1 & H2 & ->)]].
  - split; [|intros _; exact H1]. intros _.
    destruct (same_line_found _ _ H1) as (line & Hin & Hs). eauto.
  - split; [|intros _; exact H2]. intros _.
    destruct (next_line_found _ _ H2) as (line & Hin & Hs). eauto.
  - split; [apply (scan_changes _ [] text) | apply scan_finds].
Qed.

End OccurFacts.

Section NothingFound.

Variable set_order : list string -> list string.
Hypothesis set_order_perm : forall s, Permutation (set_order s) s.

Variable now : Z.
Hypothesis now_range : (1 <= now <= 9999)%Z.

Lemma extract_nothing_iff (text : string) :
  extract_expiry_dates set_order now text = Ret []
  <-> Re.search partial_date_re text = false.
Proof.
  pose proof (OccurFacts.candidates_search now text) as Hs.
  destruct (extract_cases set_order set_order_perm now now_range text)
    as [[Hc Hr] | (d & Hd & Hr)].
  - rewrite Hr. split; [|reflexivity]. intros _.
    destruct (Re.search partial_date_re text); [|reflexivity].
    exfalso. now apply (proj2 Hs).
  - rewrite Hr. split; [discriminate|]. intros Hf.
    assert (Hne : collect_candidates now text <> [])
      by (intros E; rewrite E in Hd; destruct Hd).
    apply Hs in Hne. congruence.
Qed.

End NothingFound.

(** "No expiry dates found" is the answer exactly for the texts in which the
    month/year pattern [(0[1-9]|1[0-2])[/-](\d{2,4})] matches nowhere:
    keywords decide which date is taken, never whether one is. *)
Theorem nothing_found_iff_no_pattern
        (set_order : list string -> list string) (now : Z) (text : string) :
  (forall s, Permutation (set_order s) s) -> (1 <= now <= 9999)%Z ->
  extract_expiry_dates set_order now text = Ret []
  <-> Re.search partial_date_re text = false.
Proof.
  intros Hperm Hnow. exact (extract_nothing_iff set_order Hperm now Hnow text).
Qed.

Lemma nothing_found_iff_no_pattern_witness :
  extract_expiry_dates insertion_order 2026 "Expires: see the back of the card" = Ret []
  /\ Re.search partial_date_re "issued 3/2027" = false.
Proof.
  split.
  - apply (nothing_found_iff_no_pattern insertion_order 2026);
      [intros s; apply Permutation_refl | lia | reflexivity].
  - apply (nothing_found_iff_no_pattern insertion_order 2026 "issued 3/2027");
      [intros s; apply Permutation_refl | lia | reflexivity].
Defined.

(* ================================================================== *)
(** * The characters of the link *)

Module QuoteFacts.

Lemma hex_digit_safe (n : nat) : n < 16 -> Urllib.is_safe (Urllib.hex_digit n) = true.
Proof.
  intros H. do 16 (destruct n as [|n]; [reflexivity|]). lia.
Qed.

Lemma percent_url (byte : nat) (rest : string) :
  byte < 256 -> Str.all url_char rest = true ->
  Str.all url_char (Urllib.percent byte rest) = true.
Proof.
  intros Hb Hr. unfold Urllib.percent. cbn [Str.all]. rewrite Hr.
  assert (H1 : byte / 16 < 16) by (apply Nat.Div0.div_lt_upper_bound; lia).
  assert (H2 : byte mod 16 < 16) by (apply Nat.mod_upper_bound; lia).
  unfold url_char at 2 3.
  rewrite (hex_digit_safe _ H1), (hex_digit_safe _ H2). reflexivity.
Qed.

Lemma code_bound (c : ascii) : Chars.code c < 256.
Proof. apply nat_ascii_bounded. Qed.

(** Whatever is quoted, the result has only characters of a link. *)
Lemma quote_url (s : string) : Str.all url_char (Urllib.quote s) = true.
Proof.
  induction s as [|c s IH]; [reflexivity|]. cbn [Urllib.quote].
  pose proof (code_bound c) as Hc.
  destruct (Urllib.is_safe c) eqn:Sc.
  - cbn [Str.all]. rewrite IH. unfold url_char. rewrite Sc. reflexivity.
  - destruct (Chars.code c <? 128) eqn:L.
    + apply percent_url; [exact Hc | exact IH].
    + apply percent_url.
      * assert (Chars.code c / 64 < 4) by (apply Nat.Div0.div_lt_upper_bound; lia). lia.
      * apply percent_url; [|exact IH].
        pose proof (Nat.mod_upper_bound (Chars.code c) 64 ltac:(lia)). lia.
Qed.

Lemma digit_url (s : string) :
  Str.all Chars.is_digit s = true -> Str.all url_char s = true.
Proof.
  apply StrFacts.all_impl. intros c Hc. unfold url_char, Urllib.is_safe.
  unfold Chars.is_digit in Hc. rewrite Hc. cbn [orb]. now rewrite !orb_true_r.
Qed.

Lemma uint_digits_empty (d : Decimal.uint) :
  Str.all Chars.is_digit (NilEmpty.string_of_uint d) = true.
Proof.
  induction d as [|d IH|d IH|d IH|d IH|d IH|d IH|d IH|d IH|d IH|d IH];
    cbn [NilEmpty.string_of_uint Str.all]; rewrite ?IH; reflexivity.
Qed.

Lemma uint_digits (d : Decimal.uint) :
  Str.all Chars.is_digit (NilZero.string_of_uint d) = true.
Proof.
  unfold NilZero.string_of_uint. destruct d; try apply uint_digits_empty. reflexivity.
Qed.

(** A positive number is written with digits only. *)
Lemma str_digits (n : Z) : (0 < n)%Z -> Str.all Chars.is_digit (Py.str n) = true.
Proof.
  intros H. destruct n as [|p|p]; try lia.
  unfold Py.str. cbn [Z.to_int NilZero.string_of_int]. apply uint_digits.
Qed.

Lemma days_in_month_max (y m : Z) : (Datetime.days_in_month y m <= 31)%Z.
Proof.
  unfold Datetime.days_in_month, Datetime.table, Datetime.DAYS_IN_MONTH.
  destruct ((m =? 2)%Z && Datetime.is_leap y); [lia|].
  generalize (Z.to_nat m). intros n.
  do 13 (destruct n as [|n]; [cbn [nth]; lia|]).
  destruct n; cbn [nth]; lia.
Qed.

(** The day of a date of the calendar, as [strftime] writes it, is digits. *)
Lemma Ymd_digits (y m d : Z) :
  valid_date y m d = true -> Str.all Chars.is_digit (Ymd y m d) = true.
Proof.
  unfold valid_date, Datetime.MINYEAR, Datetime.MAXYEAR.
  rewrite !andb_true_iff, !Z.leb_le. intros [[[[[Hy1 Hy2] Hm1] Hm2] Hd1] Hd2].
  pose proof (days_in_month_max y m) as Hmax.
  destruct (FullDateFacts.two_digits m ltac:(lia)) as [[_ Am] _].
  destruct (FullDateFacts.two_digits d ltac:(lia)) as [[_ Ad] _].
  unfold Ymd. rewrite !StrFacts.all_app, Am, Ad, str_digits by lia. reflexivity.
Qed.

End QuoteFacts.

(** Whatever string the builder is given, the link it returns is made of
    letters, digits and [_ . - ~ / % : ? & =] only: no space, no quote, no
    bracket, nothing that ends the Markdown link the page puts it in. *)
Theorem link_is_url_safe (s link : string) :
  create_google_calendar_link s = Ret (Some link) ->
  Str.all url_char link = true.
Proof.
  intros H. pose proof (LinkFacts.link_cases s) as Hc.
  destruct (parse_expiry s) as [dt|e]; [|congruence].
  destruct (Datetime.toordinal dt <=? 30)%Z; [congruence|].
  destruct Hc as (y & m & d & Hv & _ & Hl).
  assert (E : link = link_for s (Ymd y m d) (Ymd y m d)) by congruence.
  pose proof (QuoteFacts.digit_url _ (QuoteFacts.Ymd_digits y m d Hv)) as Hd.
  subst link. unfold link_for.
  rewrite !StrFacts.all_app, !QuoteFacts.quote_url, Hd. reflexivity.
Qed.

Lemma link_is_url_safe_witness :
  Str.all url_char (link_for "08/30/2028" "20280731" "20280731") = true.
Proof.
  apply (link_is_url_safe "08/30/2028"). vm_compute. reflexivity.
Defined.

(* ================================================================== *)
(** * Text out of a scanned PDF *)

Module SplitFacts.

Lemma app_inv_tail (a b c : string) : (a ++ c)%string = (b ++ c)%string -> a = b.
Proof.
  revert b. induction a as [|x a IH]; intros [|y b] H; cbn [append] in H.
  - reflexivity.
  - exfalso. apply (f_equal String.length) in H.
    cbn [String.length] in H. rewrite StrFacts.length_app in H. lia.
  - exfalso. apply (f_equal String.length) in H.
    cbn [String.length] in H. rewrite StrFacts.length_app in H. lia.
  - injection H as -> H. f_equal. now apply IH.
Qed.

(** Two ways to cut one string: one cut is inside the other's first part. *)
Lemma app_eq_app (a x p u : string) :
  (a ++ x)%string = (p ++ u)%string ->
  (exists k, p = (a ++ k)%string /\ x = (k ++ u)%string)
  \/ (exists k, a = (p ++ k)%string /\ u = (k ++ x)%string).
Proof.
  revert p. induction a as [|c a IH]; intros p H; cbn [append] in H.
  - left. exists p. auto.
  - destruct p as [|c' p]; cbn [append] in H.
    + right. exists (String c a). auto.
    + injection H as -> H. destruct (IH p H) as [(k & -> & ->) | (k & -> & ->)].
      * left. exists k. auto.
      * right. exists k. auto.
Qed.

Lemma star_prefix p (w tail : string) :
  Str.all p w = true -> In tail (Re.star p (w ++ tail)).
Proof.
  induction w as [|c w IH]; intros Hw; [apply ExtendFacts.star_self|].
  cbn [Str.all] in Hw. apply andb_true_iff in Hw as [Hc Hw].
  cbn [append Re.star]. rewrite Hc. apply in_or_app. left. auto.
Qed.

(** A match depends on what it consumes only: after the same characters it
    is found whatever follows. *)
Lemma run_truncate (r : Re.regex) (w rest rest' : string) (g : list string) :
  In (g, rest) (Re.run r (w ++ rest)) -> In (g, rest') (Re.run r (w ++ rest')).
Proof.
  revert w rest rest' g.
  induction r as [|p|r1 IH1 r2 IH2|r1 IH1 r2 IH2|r IH|p|p lo hi|r IH];
    intros w rest rest' g H.
  - cbn [Re.run] in H |- *. destruct H as [[= <- E] | []].
    assert (w = "") by (apply (app_inv_tail w "" rest); exact E).
    subst w. now left.
  - apply ReFacts.run_cls in H. destruct H as (-> & c & E & Pc).
    assert (w = String c "") by (apply (app_inv_tail w (String c "") rest); exact E).
    subst w. cbn [append Re.run]. rewrite Pc. now left.
  - apply ReFacts.run_seq in H. destruct H as (g1 & mid & g2 & H1 & H2 & ->).
    destruct (ReFacts.run_suffix _ _ _ _ H2) as [w2 ->].
    destruct (ReFacts.run_suffix _ _ _ _ H1) as [w1 E].
    assert (w = (w1 ++ w2)%string)
      by (apply (app_inv_tail _ _ rest); now rewrite StrFacts.app_assoc).
    subst w. rewrite StrFacts.app_assoc in H1 |- *.
    apply (OccurFacts.run_seq_intro _ _ _ (w2 ++ rest')%string).
    + exact (IH1 _ _ _ _ H1).
    + exact (IH2 _ _ _ _ H2).
  - cbn [Re.run] in H |- *. apply in_app_or in H. apply in_or_app.
    destruct H as [H | H]; [left; eapply IH1 | right; eapply IH2]; exact H.
  - cbn [Re.run] in H |- *. apply in_app_or in H. apply in_or_app.
    destruct H as [H | [[= <- E] | []]]; [left; eapply IH; exact H|].
    assert (w = "") by (apply (app_inv_tail w "" rest); exact E).
    subst w. right. now left.
  - cbn [Re.run] in H |- *. rewrite in_map_iff in H. destruct H as (rest0 & [= <- <-] & H).
    apply ReFacts.star_inv in H. destruct H as (w' & E & Hw).
    apply app_inv_tail in E. subst w'.
    rewrite in_map_iff. exists rest'. split; [reflexivity | now apply star_prefix].
  - cbn [Re.run] in H |- *. rewrite in_map_iff in H. destruct H as (rest0 & [= <- <-] & H).
    apply ReFacts.rep_inv in H. destruct H as (w' & E & Hw & Hl).
    apply app_inv_tail in E. subst w'.
    rewrite in_map_iff. exists rest'. split; [reflexivity | now apply OccurFacts.rep_prefix].
  - apply ReFacts.run_grp in H. destruct H as (g' & H & ->).
    cbn [Re.run]. rewrite in_map_iff. exists (g', rest'). cbn [fst snd].
    rewrite !ReFacts.consumed_app. split; [reflexivity | eapply IH; exact H].
Qed.

(** What the partial pattern consumes: two digits, [/] or [-], digits. *)
Lemma partial_shape (u rest : string) (g : list string) :
  In (g, rest) (Re.run partial_date_re u) ->
  exists m1 m2 c yy,
    u = (String m1 (String m2 (String c yy)) ++ rest)%string
    /\ Chars.is_digit m1 = true /\ Chars.is_digit m2 = true
    /\ (Ascii.eqb c "/" || Ascii.eqb c "-") = true
    /\ Str.all Chars.is_digit yy = true.
Proof.
  unfold partial_date_re. cbn [Re.seqs]. intros H.
  apply ReFacts.run_seq in H. destruct H as (g1 & s1 & g1' & Hm & H & _).
  apply ReFacts.run_seq in H. destruct H as (g2 & s2 & g2' & Hs & Hy & _).
  apply PatternFacts.month_inv in Hm. destruct Hm as (mm & -> & _ & [Lm Am]).
  unfold sep in Hs. apply ReFacts.run_cls in Hs. destruct Hs as (_ & c & -> & Hc).
  apply PatternFacts.year_inv in Hy. destruct Hy as (yy & -> & _ & Ay & _).
  destruct mm as [|m1 [|m2 [|m3 mm]]]; try discriminate Lm.
  cbn [Str.all] in Am. apply andb_true_iff in Am as [A1 A2].
  apply andb_true_iff in A2 as [A2 _].
  exists m1, m2, c, yy. repeat split; auto.
Qed.

Lemma digits_no_newline (s : string) :
  Str.all Chars.is_digit s = true ->
  Str.all (fun x => negb (Ascii.eqb x newline)) s = true.
Proof.
  apply StrFacts.all_impl. intros c Hc.
  destruct (Ascii.eqb_spec c newline) as [-> | _]; [discriminate Hc | reflexivity].
Qed.

Lemma no_newline_prefix (k b w rest : string) :
  (k ++ String newline b)%string = (w ++ rest)%string ->
  Str.all (fun x => negb (Ascii.eqb x newline)) w = true ->
  exists j, k = (w ++ j)%string /\ rest = (j ++ String newline b)%string.
Proof.
  intros E Hw. destruct (app_eq_app _ _ _ _ E) as [(j & -> & Ej) | (j & -> & ->)].
  - destruct j as [|x j]; cbn [append] in Ej.
    + exists "". rewrite !StrFacts.app_nil_r. split; [reflexivity | now rewrite <- Ej].
    + injection Ej as <- _. rewrite StrFacts.all_app in Hw.
      apply andb_true_iff in Hw as [_ Hw]. cbn [Str.all] in Hw.
      rewrite Ascii.eqb_refl in Hw. discriminate Hw.
  - exists j. auto.
Qed.

(** A date pattern does not match across a line feed. *)
Lemma search_split (a b : string) :
  Re.search partial_date_re (a ++ String newline b) = true ->
  Re.search partial_date_re a = true \/ Re.search partial_date_re b = true.
Proof.
  rewrite !ExtendFacts.search_true. intros (p & u & E & Hu).
  destruct (Re.run partial_date_re u) as [|[g rest] l] eqn:Er; [contradiction|].
  assert (Hin : In (g, rest) (Re.run partial_date_re u)) by (rewrite Er; now left).
  destruct (partial_shape u rest g Hin) as (m1 & m2 & c & yy & Eu & H1 & H2 & Hc & Hy).
  set (w := String m1 (String m2 (String c yy))) in *.
  assert (Hw : Str.all (fun x => negb (Ascii.eqb x newline)) w = true).
  { subst w. cbn [Str.all]. rewrite (digits_no_newline yy Hy).
    destruct (Ascii.eqb_spec m1 newline) as [-> | _]; [discriminate H1|].
    destruct (Ascii.eqb_spec m2 newline) as [-> | _]; [discriminate H2|].
    destruct (Ascii.eqb_spec c newline) as [-> | _]; [discriminate Hc|].
    reflexivity. }
  assert (Hfound : forall j, Re.run partial_date_re (w ++ j) <> []).
  { intros j. rewrite Eu in Hin.
    pose proof (run_truncate _ _ _ j _ Hin) as Hj.
    intros E0. rewrite E0 in Hj. destruct Hj. }
  clearbody w. subst u. clear Hu Er.
  destruct (app_eq_app _ _ _ _ E) as [(k & -> & Ek) | (k & -> & Ek)].
  - destruct k as [|x k]; cbn [append] in Ek.
    + destruct (no_newline_prefix "" b w rest Ek Hw) as (j & Ej & _).
      destruct w; [|discriminate Ej].
      left. exists a, "". split; [now rewrite StrFacts.app_nil_r | exact (Hfound "")].
    + injection Ek as _ ->. right. exists k, (w ++ rest)%string.
      split; [reflexivity | apply Hfound].
  - symmetry in Ek.
    destruct (no_newline_prefix k b w rest Ek Hw) as (j & -> & _).
    left. exists p, (w ++ j)%string. split; [reflexivity | apply Hfound].
Qed.

Lemma dts_app (p u : string) :
  digit_then_sep u = true -> digit_then_sep (p ++ u) = true.
Proof.
  intros H. induction p as [|a p IH]; [exact H|]. cbn [append digit_then_sep].
  destruct (p ++ u)%string as [|b t]; [discriminate IH|].
  rewrite IH. apply orb_true_r.
Qed.

(** Where the partial pattern matches, a digit stands before [/] or [-]. *)
Lemma search_dts (s : string) :
  Re.search partial_date_re s = true -> digit_then_sep s = true.
Proof.
  rewrite ExtendFacts.search_true. intros (p & u & -> & Hu). apply dts_app.
  destruct (Re.run partial_date_re u) as [|[g rest] l] eqn:Er; [contradiction|].
  assert (Hin : In (g, rest) (Re.run partial_date_re u)) by (rewrite Er; now left).
  destruct (partial_shape u rest g Hin) as (m1 & m2 & c & yy & -> & H1 & H2 & Hc & Hy).
  cbn [append digit_then_sep]. rewrite H2, Hc. cbn [andb]. apply orb_true_r.
Qed.

End SplitFacts.

Module HeaderFacts.

Lemma digit_not_sep (c : ascii) :
  Chars.is_digit c = true -> (Ascii.eqb c "/" || Ascii.eqb c "-") = false.
Proof.
  intros H.
  destruct (Ascii.eqb_spec c "/") as [-> | _]; [discriminate H|].
  destruct (Ascii.eqb_spec c "-") as [-> | _]; [discriminate H | reflexivity].
Qed.

Lemma dts_number (n : string) :
  Str.all Chars.is_digit n = true -> digit_then_sep (n ++ " ---") = false.
Proof.
  induction n as [|d n IH]; intros H; [reflexivity|].
  cbn [Str.all] in H. apply andb_true_iff in H as [Hd Hn].
  specialize (IH Hn). cbn [append digit_then_sep].
  destruct n as [|d' n].
  - cbn [append]. cbn [append] in IH. rewrite IH.
    change (Ascii.eqb " " "/" || Ascii.eqb " " "-") with false.
    now rewrite andb_false_r.
  - cbn [append] in IH |- *. cbn [Str.all] in Hn. apply andb_true_iff in Hn as [Hd' _].
    rewrite IH, (digit_not_sep d' Hd'). now rewrite andb_false_r.
Qed.

(** The line the fallback writes before a page holds no date. *)
Lemma header_no_date (n : string) :
  Str.all Chars.is_digit n = true ->
  Re.search partial_date_re ("--- Page " ++ n ++ " ---") = false.
Proof.
  intros H. match goal with |- ?x = false => destruct x eqn:E end; [|reflexivity].
  apply SplitFacts.search_dts in E. pose proof (dts_number n H) as Hn.
  destruct (n ++ " ---")%string as [|y0 t] eqn:En.
  - destruct n; discriminate En.
  - assert (Hp : digit_then_sep ("--- Page " ++ String y0 t) = digit_then_sep (String y0 t))
      by reflexivity.
    congruence.
Qed.

End HeaderFacts.

Section ScannedPdf.

Variable image : Type.
Variable image_to_string : image -> string.
Variable extract_pdf_text : list Byte.byte -> string.
Variable convert_from_bytes : list Byte.byte -> list image.

Variable set_order : list string -> list string.
Hypothesis set_order_perm : forall s, Permutation (set_order s) s.

Variable now : Z.
Hypothesis now_range : (1 <= now <= 9999)%Z.

Lemma fold_pages_prefix (l : list (nat * image)) (acc : string) :
  exists b, fold_left (add_page image_to_string) l acc = (acc ++ b)%string.
Proof.
  revert acc. induction l as [|[i img] l IH]; intros acc; cbn [fold_left].
  - exists "". now rewrite StrFacts.app_nil_r.
  - destruct (IH (add_page image_to_string acc (i, img))) as [b ->].
    unfold add_page. eexists. rewrite !StrFacts.app_assoc. reflexivity.
Qed.

(** The text of every page is in the text put together. *)
Lemma fold_pages_contains (l : list (nat * image)) (acc : string) (i : nat) (img : image) :
  In (i, img) l ->
  exists a b, fold_left (add_page image_to_string) l acc
              = (a ++ image_to_string img ++ b)%string.
Proof.
  revert acc. induction l as [|[j img'] l IH]; intros acc; [intros []|].
  intros [[= -> ->] | H]; cbn [fold_left]; [|now apply IH].
  destruct (fold_pages_prefix l (add_page image_to_string acc (i, img))) as [b ->].
  unfold add_page. exists (acc ++ page_header i)%string, (String newline "" ++ b)%string.
  rewrite !StrFacts.app_assoc. reflexivity.
Qed.

Lemma enumerate_In (images : list image) (img : image) :
  In img images -> exists i, In (i, img) (enumerate images).
Proof.
  unfold enumerate. generalize 0. induction images as [|x images IH]; intros n; [intros []|].
  cbn [List.length seq combine]. intros [-> | H].
  - exists n. now left.
  - destruct (IH (S n) H) as [i Hi]. exists i. now right.
Qed.

Lemma enumerate_page (images : list image) (i : nat) (img : image) :
  In (i, img) (enumerate images) -> In img images.
Proof. unfold enumerate. apply in_combine_r. Qed.

(** Pages without a date make a text without a date: neither the lines the
    fallback writes nor the joints between pages hold one. *)
Lemma fold_pages_no_date (l : list (nat * image)) (acc : string) :
  (forall i img, In (i, img) l -> Re.search partial_date_re (image_to_string img) = false) ->
  Re.search partial_date_re acc = false ->
  acc = "" \/ (exists a0, acc = (a0 ++ String newline "")%string) ->
  Re.search partial_date_re (fold_left (add_page image_to_string) l acc) = false.
Proof.
  revert acc. induction l as [|[i img] l IH]; intros acc Hl Hacc Hend; [exact Hacc|].
  cbn [fold_left]. apply IH.
  - intros j img' H. apply (Hl j img'). now right.
  - assert (Himg : Re.search partial_date_re (image_to_string img) = false)
      by (apply (Hl i img); now left).
    assert (Hhdr : Re.search partial_date_re
                     ("--- Page " ++ Py.str (Z.of_nat i + 1) ++ " ---") = false)
      by (apply HeaderFacts.header_no_date, QuoteFacts.str_digits; lia).
    assert (Hpage : Re.search partial_date_re
                      (("--- Page " ++ Py.str (Z.of_nat i + 1) ++ " ---")
                       ++ String newline (image_to_string img ++ String newline ""))
                    = false).
    { match goal with |- ?x = false => destruct x eqn:E end; [|reflexivity].
      apply SplitFacts.search_split in E. destruct E as [E | E]; [congruence|].
      apply SplitFacts.search_split in E. destruct E as [E | E]; [congruence|].
      discriminate E. }
    assert (Eadd : add_page image_to_string acc (i, img)
                   = (acc ++ ("--- Page " ++ Py.str (Z.of_nat i + 1) ++ " ---")
                          ++ String newline (image_to_string img ++ String newline ""))%string).
    { unfold add_page, page_header, newline. rewrite !StrFacts.app_assoc. reflexivity. }
    rewrite Eadd. clear Eadd.
    set (page := (("--- Page " ++ Py.str (Z.of_nat i + 1) ++ " ---")
                  ++ String newline (image_to_string img ++ String newline ""))%string) in *.
    clearbody page.
    destruct Hend as [-> | [a0 ->]]; [exact Hpage|].
    rewrite StrFacts.app_assoc. cbn [append].
    match goal with |- ?x = false => destruct x eqn:E end; [|reflexivity].
    apply SplitFacts.search_split in E. destruct E as [E | E]; [|congruence].
    apply (ExtendFacts.search_extend _ "" a0 (String newline "")) in E.
    cbn [append] in E. congruence.
  - right. unfold add_page. eexists. reflexivity.
Qed.

(** A PDF without embedded text: a date is found exactly when the OCR text
    of one of its pages holds one. *)
Lemma scanned_pdf_nothing_iff (pdf_bytes : list Byte.byte) :
  Py.truthy (Py.strip (extract_pdf_text pdf_bytes)) = false ->
  extract_expiry_dates set_order now
    (extract_text_from_pdf image_to_string extract_pdf_text convert_from_bytes pdf_bytes)
  = Ret []
  <-> (forall img, In img (convert_from_bytes pdf_bytes) ->
                   Re.search partial_date_re (image_to_string img) = false).
Proof.
  intros Hblank. rewrite (extract_nothing_iff set_order set_order_perm now now_range).
  unfold extract_text_from_pdf. rewrite Hblank. split.
  - intros H img Himg. destruct (enumerate_In _ img Himg) as [i Hi].
    destruct (fold_pages_contains (enumerate (convert_from_bytes pdf_bytes)) "" i img Hi)
      as (a & b & E).
    rewrite E in H.
    destruct (Re.search partial_date_re (image_to_string img)) eqn:Es; [|reflexivity].
    rewrite (ExtendFacts.search_extend _ a _ b Es) in H. discriminate H.
  - intros H. apply fold_pages_no_date; [|reflexivity | now left].
    intros i img Hi. apply H. exact (enumerate_page _ i img Hi).
Qed.

End ScannedPdf.

(** For a PDF without embedded text the text is put together from the OCR
    of its pages, and the extraction finds a date in it exactly when the
    date pattern matches in the OCR text of some page: the page headers the
    fallback writes ("--- Page N ---") and the joints between the pages never
    make a date, and never hide one. *)
Theorem scanned_pdf_dates
        (image : Type) (image_to_string : image -> string)
        (extract_pdf_text : list Byte.byte -> string)
        (convert_from_bytes : list Byte.byte -> list image)
        (set_order : list string -> list string) (now : Z)
        (pdf_bytes : list Byte.byte) :
  (forall s, Permutation (set_order s) s) -> (1 <= now <= 9999)%Z ->
  Py.truthy (Py.strip (extract_pdf_text pdf_bytes)) = false ->
  extract_expiry_dates set_order now
    (extract_text_from_pdf image_to_string extract_pdf_text convert_from_bytes pdf_bytes)
  = Ret []
  <-> (forall img, In img (convert_from_bytes pdf_bytes) ->
                   Re.search partial_date_re (image_to_string img) = false).
Proof.
  intros Hperm Hnow.
  exact (scanned_pdf_nothing_iff image image_to_string extract_pdf_text convert_from_bytes
           set_order Hperm now Hnow pdf_bytes).
Qed.

(** Two pages, read as "Passport" and "no date here", behind a PDF whose
    embedded text is a line feed. *)
Lemma scanned_pdf_dates_witness :
  extract_expiry_dates insertion_order 2026
    (extract_text_from_pdf (fun page : string => page) (fun _ => String "010" "")
                           (fun _ => ["Passport"; "no date here"]) [])
  = Ret [].
Proof.
  apply (scanned_pdf_dates string (fun page => page) (fun _ => String "010" "")
           (fun _ => ["Passport"; "no date here"]) insertion_order 2026 []).
  - intros s. apply Permutation_refl.
  - lia.
  - reflexivity.
  - intros img [<- | [<- | []]]; reflexivity.
Defined.

Example scanned_pdf_text :
  extract_text_from_pdf (fun page : string => page) (fun _ => "")
                        (fun _ => ["EXP 08/2028"; "page two"]) []
  = ("--- Page 1 ---" ++ String "010" "EXP 08/2028" ++ String "010"
     ("--- Page 2 ---" ++ String "010" "page two" ++ String "010" ""))%string.
Proof. reflexivity. Qed.

(* ================================================================== *)
(** * The page *)

Module PageFacts.

Open Scope Z_scope.

(** Only a date of January of year 1, up to the 30th, has no day thirty
    days before it. *)
Lemma early_date (y m d : Z) :
  valid_date y m d = true -> Datetime.ymd2ord y m d <= 30 ->
  y = 1 /\ m = 1 /\ d <= 30.
Proof.
  unfold valid_date, Datetime.MINYEAR, Datetime.MAXYEAR.
  rewrite !andb_true_iff, !Z.leb_le. intros [[[[[Hy1 Hy2] Hm1] Hm2] Hd1] Hd2] Ho.
  unfold Datetime.ymd2ord in Ho.
  pose proof (CalendarFacts.days_before_month_bound y m ltac:(lia)) as Hb.
  assert (Hy : y = 1).
  { destruct (Z.eq_dec y 1) as [E | N]; [exact E|].
    pose proof (OrdinalFacts.days_before_year_mono 2 y ltac:(lia)) as H2.
    change (Datetime.days_before_year 2) with 365 in H2. lia. }
  subst y. change (Datetime.days_before_year 1) with 0 in Ho.
  split; [reflexivity|].
  assert (Hm : m = 1).
  { destruct (Z.eq_dec m 1) as [E | N]; [exact E|]. exfalso.
    assert (Hcases : m = 2 \/ m = 3 \/ m = 4 \/ m = 5 \/ m = 6 \/ m = 7
                     \/ m = 8 \/ m = 9 \/ m = 10 \/ m = 11 \/ m = 12) by lia.
    destruct Hcases as [->|[->|[->|[->|[->|[->|[->|[->|[->|[->| ->]]]]]]]]]];
      match type of Ho with
      | context [Datetime.days_before_month 1 ?k] =>
          let e := eval vm_compute in (Datetime.days_before_month 1 k) in
          change (Datetime.days_before_month 1 k) with e in Ho
      end; lia. }
  subst m. split; [reflexivity|].
  change (Datetime.days_before_month 1 1) with 0 in Ho. lia.
Qed.

End PageFacts.

Section PageOutcome.

Variable image : Type.
Variable image_open : list Byte.byte -> image.
Variable image_to_string : image -> string.
Variable extract_pdf_text : list Byte.byte -> string.
Variable convert_from_bytes : list Byte.byte -> list image.

Variable set_order : list string -> list string.
Hypothesis set_order_perm : forall s, Permutation (set_order s) s.

Variable now : Z.
Hypothesis now_range : (1 <= now <= 9999)%Z.

Variable uploaded : uploaded_file.

Let text : string :=
  uploaded_text image_open image_to_string extract_pdf_text convert_from_bytes uploaded.

Let run : list element * option exn :=
  main image_open image_to_string extract_pdf_text convert_from_bytes set_order now
       (Some uploaded).

Let text_box : element :=
  st_expander "Show Full Extracted Text" (st_text_area "Text" text 200).

(** The run of [main] on an upload, by what the extraction and the builder
    return. *)
Lemma main_cases :
  (extract_expiry_dates set_order now text = Ret []
   /\ exists page, run = (page ++ [text_box], None))
  \/ (exists d,
        extract_expiry_dates set_order now text = Ret [d]
        /\ ((exists page, run = (page ++ [text_box], None)
             /\ forall dt, parse_expiry d = Ret dt -> (30 < Datetime.toordinal dt)%Z)
            \/ (exists page dt,
                  run = (page ++ [st_write ("- " ++ d)], Some OverflowError)
                  /\ parse_expiry d = Ret dt
                  /\ (Datetime.toordinal dt <= 30)%Z))).
Proof.
  subst run. unfold main. fold text.
  destruct (extract_shape set_order set_order_perm now text now_range)
    as (r & -> & [-> | (d & -> & _)]).
  - left. split; [reflexivity|]. cbn [is_empty]. eexists. reflexivity.
  - right. exists d. split; [reflexivity|]. cbn [is_empty show_dates].
    pose proof (LinkFacts.link_cases d) as Hc.
    destruct (parse_expiry d) as [dt|e].
    + destruct (Z.leb_spec (Datetime.toordinal dt) 30) as [Hle | Hgt].
      * right. rewrite Hc. eexists. exists dt.
        split; [reflexivity|]. split; [reflexivity | exact Hle].
      * left. destruct Hc as (y & m & dd & _ & _ & ->).
        destruct (Py.truthy _); (eexists; split; [reflexivity|]);
          intros dt' [= <-]; exact Hgt.
    + left. rewrite Hc. eexists. split; [reflexivity|]. intros dt' H. discriminate H.
Qed.

End PageOutcome.

(** The run of [main] on an upload (the OCR and PDF libraries returning).
    It ends in an exception only if the date extracted is one of January of
    year 1, up to the 30th: then [OverflowError] is raised right after the
    date was written on the page.  Every other run completes, and the last
    thing on the page is the box with the full text extracted. *)
Theorem main_outcome
        (image : Type) (image_open : list Byte.byte -> image)
        (image_to_string : image -> string)
        (extract_pdf_text : list Byte.byte -> string)
        (convert_from_bytes : list Byte.byte -> list image)
        (set_order : list string -> list string) (now : Z)
        (uploaded : uploaded_file) :
  (forall s, Permutation (set_order s) s) -> (1 <= now <= 9999)%Z ->
  let text :=
    uploaded_text image_open image_to_string extract_pdf_text convert_from_bytes uploaded in
  let run :=
    main image_open image_to_string extract_pdf_text convert_from_bytes set_order now
         (Some uploaded) in
  (forall page e,
      run = (page, Some e) ->
      e = OverflowError
      /\ exists d dt before,
          extract_expiry_dates set_order now text = Ret [d]
          /\ parse_expiry d = Ret dt
          /\ Datetime.year dt = 1%Z /\ Datetime.month dt = 1%Z
          /\ (Datetime.day dt <= 30)%Z
          /\ page = before ++ [st_write ("- " ++ d)])
  /\ (forall page,
         run = (page, None) ->
         exists before,
           page = before ++ [st_expander "Show Full Extracted Text"
                                         (st_text_area "Text" text 200)])
  /\ (forall d dt,
         extract_expiry_dates set_order now text = Ret [d] ->
         parse_expiry d = Ret dt -> (Datetime.toordinal dt <= 30)%Z ->
         exists page, run = (page, Some OverflowError)).
Proof.
  intros Hperm Hnow text run.
  destruct (main_cases image image_open image_to_string extract_pdf_text convert_from_bytes
              set_order Hperm now Hnow uploaded)
    as [[He (p & Hr)] | (d & He & [(p & Hr & Hlate) | (p & dt & Hr & Hp & Ho)])];
    fold text in He; fold text in Hr; fold run in Hr.
  - split; [|split].
    + intros page e H. rewrite Hr in H. discriminate H.
    + intros page H. rewrite Hr in H. injection H as <-. now exists p.
    + intros d dt H. rewrite He in H. discriminate H.
  - split; [|split].
    + intros page e H. rewrite Hr in H. discriminate H.
    + intros page H. rewrite Hr in H. injection H as <-. now exists p.
    + intros d' dt H Hp Ho. rewrite He in H. injection H as <-.
      specialize (Hlate dt Hp). lia.
  - split; [|split].
    + intros page e H. rewrite Hr in H. injection H as <- <-.
      split; [reflexivity|].
      destruct (LinkFacts.parse_expiry_inv d dt Hp) as (y & m & dd & Hv & ->).
      unfold Datetime.toordinal in Ho.
      cbn [Datetime.year Datetime.month Datetime.day] in Ho |- *.
      destruct (PageFacts.early_date y m dd Hv Ho) as (-> & -> & Hd).
      exists d, {| Datetime.year := 1; Datetime.month := 1; Datetime.day := dd;
                   Datetime.seconds := 0 |}, p.
      repeat split; auto.
    + intros page H. rewrite Hr in H. discriminate H.
    + intros d' dt' _ _ _. exists (p ++ [st_write ("- " ++ d)]). exact Hr.
Qed.

(** A scan that reads "EXP 01/15/0001". *)
Lemma main_outcome_witness :
  exists page,
    main (fun _ => "scan") (fun _ : string => "EXP 01/15/0001")
         (fun _ => "") (fun _ => []) insertion_order 2026
         (Some {| file_type := "image/png"; file_read := [] |})
    = (page, Some OverflowError).
Proof.
  destruct (main_outcome string (fun _ => "scan") (fun _ => "EXP 01/15/0001")
              (fun _ => "") (fun _ => []) insertion_order 2026
              {| file_type := "image/png"; file_read := [] |})
    as (_ & _ & H).
  - intros s. apply Permutation_refl.
  - lia.
  - apply (H "01/15/0001"
             {| Datetime.year := 1; Datetime.month := 1; Datetime.day := 15;
                Datetime.seconds := 0 |}).
    + reflexivity.
    + reflexivity.
    + vm_compute. discriminate.
Defined.

Example page_of_a_scan :
  main (fun _ => "scan") (fun _ : string => "EXP 08/30/2028")
       (fun _ => "") (fun _ => []) insertion_order 2026
       (Some {| file_type := "image/png"; file_read := [] |})
  = ([st_title "Document Upload App";
      st_write "Upload an image or PDF to extract expiry dates using OCR.";
      st_success "File uploaded successfully!";
      st_subheader "Extracted Expiry Dates:";
      st_write "- 08/30/2028";
      st_markdown ("[Add 30-day reminder to Google Calendar]("
                   ++ link_for "08/30/2028" "20280731" "20280731" ++ ")");
      st_expander "Show Full Extracted Text" (st_text_area "Text" "EXP 08/30/2028" 200)],
     None).
Proof. vm_compute. reflexivity. Qed.

(* ================================================================== *)
(** * Letter case *)

Module CaseFacts.

Lemma class_blind (p : ascii -> bool) (c : ascii) :
  case_blind_class p = true -> p (Chars.lower c) = p c.
Proof.
  unfold case_blind_class. rewrite forallb_forall. intros H.
  specialize (H (nat_of_ascii c)). rewrite ascii_nat_embedding in H.
  apply Bool.eqb_prop. apply H. apply in_seq. pose proof (nat_ascii_bounded c). lia.
Qed.

Lemma lower_length (s : string) : String.length (lower_text s) = String.length s.
Proof. induction s as [|c s IH]; simpl; [reflexivity | now rewrite IH]. Qed.

Lemma lower_app (a b : string) :
  lower_text (a ++ b) = (lower_text a ++ lower_text b)%string.
Proof. induction a as [|c a IH]; simpl; [reflexivity | now rewrite IH]. Qed.

Lemma lower_take (n : nat) (s : string) :
  lower_text (Str.take n s) = Str.take n (lower_text s).
Proof.
  revert n. induction s as [|c s IH]; intros [|n]; simpl; try reflexivity.
  now rewrite IH.
Qed.

Lemma lower_consumed (s rest : string) :
  Re.consumed (lower_text s) (lower_text rest) = lower_text (Re.consumed s rest).
Proof. unfold Re.consumed. now rewrite !lower_length, lower_take. Qed.

Lemma lower_rev_onto (s acc : string) :
  lower_text (Str.rev_onto s acc) = Str.rev_onto (lower_text s) (lower_text acc).
Proof.
  revert acc. induction s as [|c s IH]; intros acc; simpl; [reflexivity|].
  now rewrite IH.
Qed.

Lemma lower_rev (s : string) : lower_text (Str.rev s) = Str.rev (lower_text s).
Proof. apply lower_rev_onto. Qed.

Lemma lower_digit (c : ascii) : Chars.is_digit c = true -> Chars.lower c = c.
Proof.
  intros H. apply CharFacts.digit_cases in H. simpl in H.
  repeat (destruct H as [<- | H]; [reflexivity|]). contradiction.
Qed.

Lemma lower_digits (s : string) :
  Str.all Chars.is_digit s = true -> lower_text s = s.
Proof.
  induction s as [|c s IH]; simpl; [reflexivity|].
  rewrite andb_true_iff. intros [Hc Hs]. now rewrite (lower_digit c Hc), IH.
Qed.

Lemma star_lower p (s : string) :
  case_blind_class p = true ->
  Re.star p (lower_text s) = map lower_text (Re.star p s).
Proof.
  intros Hp. induction s as [|c s IH]; [reflexivity|].
  cbn [lower_text Re.star]. rewrite (class_blind p c Hp).
  destruct (p c); [|reflexivity].
  rewrite IH, map_app. reflexivity.
Qed.

Lemma rep_lower p (lo hi : nat) (s : string) :
  case_blind_class p = true ->
  Re.rep p lo hi (lower_text s) = map lower_text (Re.rep p lo hi s).
Proof.
  intros Hp. revert lo s. induction hi as [|hi IH]; intros lo s.
  - cbn [Re.rep]. destruct lo; reflexivity.
  - destruct s as [|c s]; [cbn [lower_text Re.rep]; destruct lo; reflexivity|].
    cbn [lower_text Re.rep]. rewrite (class_blind p c Hp).
    destruct (p c); [|destruct lo; reflexivity].
    rewrite IH, map_app. destruct lo; reflexivity.
Qed.

(** On the text made small a case-blind pattern matches in the same ways. *)
Lemma run_lower (r : Re.regex) (s : string) :
  case_blind r = true ->
  Re.run r (lower_text s) = map lower_match (Re.run r s).
Proof.
  revert s.
  induction r as [|p|r1 IH1 r2 IH2|r1 IH1 r2 IH2|r IH|p|p lo hi|r IH];
    intros s Hr; cbn [case_blind] in Hr.
  - reflexivity.
  - destruct s as [|c s]; [reflexivity|]. cbn [lower_text Re.run].
    rewrite (class_blind p c Hr). destruct (p c); reflexivity.
  - apply andb_true_iff in Hr as [H1 H2]. cbn [Re.run]. rewrite (IH1 s H1).
    induction (Re.run r1 s) as [|m1 l IHl]; [reflexivity|].
    cbn [map flat_map]. rewrite map_app, IHl. f_equal.
    unfold lower_match at 1 2. cbn [fst snd]. rewrite (IH2 (snd m1) H2), !map_map.
    apply map_ext. intros m2. unfold lower_match. cbn [fst snd]. now rewrite map_app.
  - apply andb_true_iff in Hr as [H1 H2]. cbn [Re.run].
    now rewrite (IH1 s H1), (IH2 s H2), map_app.
  - cbn [Re.run]. now rewrite (IH s Hr), map_app.
  - cbn [Re.run]. rewrite (star_lower p s Hr), !map_map. reflexivity.
  - cbn [Re.run]. rewrite (rep_lower p lo hi s Hr), !map_map. reflexivity.
  - cbn [Re.run]. rewrite (IH s Hr), !map_map. apply map_ext. intros m.
    unfold lower_match. cbn [fst snd map]. now rewrite lower_consumed.
Qed.

Lemma match_at_lower (r : Re.regex) (s : string) :
  case_blind r = true ->
  Re.match_at r (lower_text s) = option_map lower_match (Re.match_at r s).
Proof.
  intros Hr. unfold Re.match_at. rewrite (run_lower r s Hr).
  destruct (Re.run r s); reflexivity.
Qed.

(** The search of a case-blind pattern does not see the case of letters. *)
Lemma search_lower (r : Re.regex) (s : string) :
  case_blind r = true -> Re.search r (lower_text s) = Re.search r s.
Proof.
  intros Hr. induction s as [|c s IH].
  - pose proof (match_at_lower r "" Hr) as H. cbn [lower_text] in H.
    cbn [lower_text Re.search]. rewrite H.
    destruct (Re.match_at r ""); reflexivity.
  - pose proof (match_at_lower r (String c s) Hr) as H. cbn [lower_text] in H |- *.
    cbn [Re.search]. rewrite H.
    destruct (Re.match_at r (String c s)); [reflexivity|]. cbn [option_map].
    exact IH.
Qed.

Lemma finditer_lower (r : Re.regex) (s : string) (pos skip : nat) :
  case_blind r = true ->
  map Re.m_groups (Re.finditer_from r (lower_text s) pos skip)
  = map (map lower_text) (map Re.m_groups (Re.finditer_from r s pos skip)).
Proof.
  intros Hr. revert pos skip. induction s as [|c s IH]; intros pos skip.
  - pose proof (match_at_lower r "" Hr) as H. cbn [lower_text] in H.
    destruct skip; cbn [lower_text Re.finditer_from]; [|reflexivity].
    destruct (Re.match_at r "") as [[g rest]|]; [|reflexivity].
    cbn [option_map lower_match fst snd] in H. injection H as Hg _.
    cbn [map Re.m_groups]. now rewrite <- Hg.
  - destruct skip as [|k].
    + pose proof (match_at_lower r (String c s) Hr) as H. cbn [lower_text] in H |- *.
      cbn [Re.finditer_from]. rewrite H.
      destruct (Re.match_at r (String c s)) as [[g rest]|]; cbn [option_map lower_match fst snd].
      * cbn [map Re.m_groups String.length]. rewrite !lower_length. now rewrite IH.
      * apply IH.
    + cbn [lower_text Re.finditer_from]. apply IH.
Qed.

Lemma findall_lower (r : Re.regex) (s : string) :
  case_blind r = true ->
  Re.findall r (lower_text s) = map (map lower_text) (Re.findall r s).
Proof. intros Hr. apply finditer_lower, Hr. Qed.

Lemma full_date_blind : case_blind full_date_re = true.
Proof. vm_compute. reflexivity. Qed.

Lemma partial_date_blind : case_blind partial_date_re = true.
Proof. vm_compute. reflexivity. Qed.

Lemma keywords_blind : case_blind expiry_keywords = true.
Proof. vm_compute. reflexivity. Qed.

(** The dates found do not depend on the case of letters. *)
Lemma findall_date_lower (pattern : Re.regex) (s : string) :
  In pattern date_patterns ->
  Re.findall pattern (lower_text s) = Re.findall pattern s.
Proof.
  intros Hp.
  assert (Hb : case_blind pattern = true).
  { destruct Hp as [<- | [<- | []]]; [exact full_date_blind | exact partial_date_blind]. }
  rewrite (findall_lower pattern s Hb).
  rewrite <- (map_id (Re.findall pattern s)) at 2.
  apply map_ext_in. intros g Hg.
  apply ScanFacts.findall_inv in Hg. destruct Hg as (suffix & rest & Hg).
  destruct Hp as [<- | [<- | []]].
  - apply PatternFacts.full_date_inv in Hg.
    destruct Hg as (mm & dd & yy & -> & [_ Am] & [_ Ad] & Ay & _).
    cbn [map]. now rewrite !lower_digits.
  - apply PatternFacts.partial_date_inv in Hg.
    destruct Hg as (mm & yy & -> & [_ Am] & Ay & _).
    cbn [map]. now rewrite !lower_digits.
Qed.

Lemma scan_lower (century : string) (cands : list string) (span : string) :
  scan century cands (lower_text span) = scan century cands span.
Proof.
  unfold scan, date_patterns. cbn [fold_left].
  rewrite !findall_date_lower by (simpl; auto). reflexivity.
Qed.

Lemma has_keyword_lower (line : string) :
  has_keyword (lower_text line) = has_keyword line.
Proof. exact (search_lower expiry_keywords line keywords_blind). Qed.

Lemma linebreak_lower (c : ascii) : Py.is_linebreak (Chars.lower c) = Py.is_linebreak c.
Proof. destruct c as [[] [] [] [] [] [] [] []]; reflexivity. Qed.

(** One step of [splitlines]. *)
Lemma splitlines_from_step (c : ascii) (s cur : string) :
  Py.splitlines_from (String c s) cur
  = if Py.is_linebreak c
    then Str.rev cur :: Py.splitlines_from (after_break c s) ""
    else Py.splitlines_from s (String c cur).
Proof.
  cbn [Py.splitlines_from]. destruct (Py.is_linebreak c); [|reflexivity].
  unfold after_break.
  destruct c as [[] [] [] [] [] [] [] []]; try reflexivity.
  destruct s as [|c2 s]; [reflexivity|].
  destruct c2 as [[] [] [] [] [] [] [] []]; reflexivity.
Qed.

Lemma after_break_lower (c : ascii) (s : string) :
  after_break (Chars.lower c) (lower_text s) = lower_text (after_break c s).
Proof.
  unfold after_break.
  destruct c as [[] [] [] [] [] [] [] []]; try reflexivity.
  destruct s as [|c2 s]; [reflexivity|].
  destruct c2 as [[] [] [] [] [] [] [] []]; reflexivity.
Qed.

Lemma after_break_length (c : ascii) (s : string) :
  String.length (after_break c s) <= String.length s.
Proof.
  unfold after_break.
  destruct c as [[] [] [] [] [] [] [] []]; try apply le_n.
  destruct s as [|c2 s]; [apply le_n|].
  destruct c2 as [[] [] [] [] [] [] [] []]; simpl; lia.
Qed.

Lemma splitlines_from_lower (n : nat) (s cur : string) :
  String.length s <= n ->
  Py.splitlines_from (lower_text s) (lower_text cur)
  = map lower_text (Py.splitlines_from s cur).
Proof.
  revert s cur. induction n as [|n IH]; intros s cur Hn;
    (destruct s as [|c s];
     [cbn [lower_text Py.splitlines_from]; destruct cur; cbn [lower_text map];
      [reflexivity | f_equal; symmetry; apply (lower_rev (String _ _))]|]);
    [simpl in Hn; lia|].
  cbn [lower_text]. rewrite !splitlines_from_step, linebreak_lower.
  simpl in Hn. destruct (Py.is_linebreak c).
  - cbn [map]. rewrite lower_rev, after_break_lower. f_equal.
    apply (IH _ ""). pose proof (after_break_length c s). lia.
  - apply (IH s (String c cur)). lia.
Qed.

Lemma splitlines_lower (text : string) :
  Py.splitlines (lower_text text) = map lower_text (Py.splitlines text).
Proof. exact (splitlines_from_lower (String.length text) text "" (le_n _)). Qed.

Lemma fold_left_map {A B C : Type} (f : A -> B -> A) (h : C -> B) (l : list C) (a : A) :
  fold_left f (map h l) a = fold_left (fun a x => f a (h x)) l a.
Proof. revert a. induction l as [|x l IH]; intros a; simpl; [reflexivity | apply IH]. Qed.

Lemma same_line_lower (century : string) (lines cands : list string) :
  same_line_pass century (map lower_text lines) cands
  = same_line_pass century lines cands.
Proof.
  unfold same_line_pass. rewrite fold_left_map. apply fold_left_ext.
  intros a line. now rewrite has_keyword_lower, scan_lower.
Qed.

Lemma next_line_lower (century : string) (lines cands : list string) :
  next_line_pass century (map lower_text lines) cands
  = next_line_pass century lines cands.
Proof.
  unfold next_line_pass. rewrite length_map. apply fold_left_ext.
  intros a i. rewrite !nth_error_map.
  destruct (nth_error lines i) as [line|]; [|reflexivity]. cbn [option_map].
  rewrite has_keyword_lower. destruct (has_keyword line); [|reflexivity].
  destruct (nth_error lines (i + 1)) as [next_line|]; [|reflexivity]. cbn [option_map].
  apply scan_lower.
Qed.

Lemma candidates_lower (now : Z) (text : string) :
  collect_candidates now (lower_text text) = collect_candidates now text.
Proof.
  unfold collect_candidates.
  now rewrite splitlines_lower, same_line_lower, next_line_lower, scan_lower.
Qed.

Lemma extract_lower (set_order : list string -> list string) (now : Z) (text : string) :
  extract_expiry_dates set_order now (lower_text text)
  = extract_expiry_dates set_order now text.
Proof. unfold extract_expiry_dates. now rewrite candidates_lower. Qed.

End CaseFacts.

(** The extraction does not see the case of letters: two texts that differ
    in the case of their letters only give the same result.  (The keywords
    are searched with [re.IGNORECASE]; the dates have no letters.) *)
Theorem extraction_ignores_letter_case
        (set_order : list string -> list string) (now : Z) (text text' : string) :
  lower_text text = lower_text text' ->
  extract_expiry_dates set_order now text = extract_expiry_dates set_order now text'.
Proof.
  intros H.
  rewrite <- (CaseFacts.extract_lower set_order now text),
          <- (CaseFacts.extract_lower set_order now text').
  now rewrite H.
Qed.

Lemma extraction_ignores_letter_case_witness :
  extract_expiry_dates insertion_order 2026 "Valid THRU 08/2028"
  = extract_expiry_dates insertion_order 2026 "valid thru 08/2028".
Proof.
  apply extraction_ignores_letter_case. reflexivity.
Defined.

(* ================================================================== *)
(** * Embedded text or OCR *)

Module StripFacts.

Lemma lstrip_blank (s : string) :
  Py.lstrip s = "" <-> Str.all Chars.is_space s = true.
Proof.
  induction s as [|c s IH]; cbn [Py.lstrip Str.all]; [tauto|].
  destruct (Chars.is_space c); cbn [andb]; [exact IH|].
  split; discriminate.
Qed.

Lemma rev_empty (s : string) : Str.rev s = "" -> s = "".
Proof.
  intros H. rewrite <- (StrFacts.rev_involutive s), H. reflexivity.
Qed.

Lemma lstrip_lstrip (s : string) :
  Str.all Chars.is_space (Py.lstrip s) = true -> Py.lstrip s = "".
Proof.
  induction s as [|c s IH]; cbn [Py.lstrip]; [reflexivity|].
  destruct (Chars.is_space c) eqn:E; [exact IH|].
  cbn [Str.all]. rewrite E. discriminate.
Qed.

(** [s.strip()] is empty exactly when [s] is white space throughout. *)
Lemma strip_blank (s : string) :
  Py.truthy (Py.strip s) = negb (Str.all Chars.is_space s).
Proof.
  unfold Py.strip. destruct (Str.all Chars.is_space s) eqn:E; cbn [negb].
  - apply lstrip_blank in E. rewrite E. reflexivity.
  - destruct (Str.rev (Py.lstrip (Str.rev (Py.lstrip s)))) as [|c t] eqn:R; [|reflexivity].
    exfalso. apply rev_empty in R. apply lstrip_blank in R.
    rewrite StrFacts.all_rev in R. apply lstrip_lstrip in R.
    apply lstrip_blank in R. congruence.
Qed.

Lemma join_cons (p : string) (rest : list string) :
  Str.join "" (p :: rest) = (p ++ Str.join "" rest)%string.
Proof.
  destruct rest as [|q rest]; cbn [Str.join]; [now rewrite StrFacts.app_nil_r | reflexivity].
Qed.

(** The loop over the pages appends, page by page, the header, the text and
    a line feed. *)
Lemma fold_pages_join {image : Type} (image_to_string : image -> string)
      (l : list (nat * image)) (acc : string) :
  fold_left (add_page image_to_string) l acc
  = (acc ++ Str.join ""
              (map (fun page => page_header (fst page) ++ image_to_string (snd page)
                                ++ String newline "")%string l))%string.
Proof.
  revert acc. induction l as [|[i img] l IH]; intros acc; cbn [fold_left map].
  - cbn [Str.join]. now rewrite StrFacts.app_nil_r.
  - rewrite IH, join_cons. unfold add_page. cbn [fst snd].
    rewrite !StrFacts.app_assoc. reflexivity.
Qed.

End StripFacts.

(** The text of a PDF is its embedded text as soon as this has one character
    that is not white space; embedded text of white space only, empty or
    not, is dropped, and the text is put together from the OCR of the pages,
    each page under its header. *)
Theorem pdf_text_is_embedded_or_ocr
        (image : Type) (image_to_string : image -> string)
        (extract_pdf_text : list Byte.byte -> string)
        (convert_from_bytes : list Byte.byte -> list image)
        (pdf_bytes : list Byte.byte) :
  extract_text_from_pdf image_to_string extract_pdf_text convert_from_bytes pdf_bytes
  = if Str.all Chars.is_space (extract_pdf_text pdf_bytes)
    then Str.join ""
           (map (fun page => page_header (fst page) ++ image_to_string (snd page)
                             ++ String newline "")%string
                (enumerate (convert_from_bytes pdf_bytes)))
    else extract_pdf_text pdf_bytes.
Proof.
  unfold extract_text_from_pdf. rewrite StripFacts.strip_blank.
  destruct (Str.all Chars.is_space (extract_pdf_text pdf_bytes)); cbn [negb]; [|reflexivity].
  apply (StripFacts.fold_pages_join image_to_string _ "").
Qed.
